(** * ADScriptGen: frame table, scene-change parsing and narration bridge

    A shallow embedding of [scene_selection.py], [video_processor.py] and
    [script_generator.py].

    Conventions of the embedding.
    - A Python [float] is an IEEE 754 binary64 number.  A finite one is
      modelled by the rational it denotes ([Q]), positive and negative
      infinity by [2 ^ 1024] and its opposite, which lie beyond every finite
      float as the infinities do; the sources produce no NaN that is
      stored.  An operation on floats is the exact operation on the
      rationals followed by [Py.rnd], the rounding to the nearest float, a
      tie going to the even significand; true division raises
      [ZeroDivisionError] on a zero divisor; [round(x, 2)] is the float
      nearest to the decimal with two places nearest to [x].
    - The text of the scene log is a [string] whose characters are the code
      points below 256; in that range [\d] is [0-9] and [str.isspace] is the
      set listed in [isspace].
    - An exception is a value of [exn]; code that may raise returns
      [result].  The [try ... except Exception] blocks of the sources become
      a match on that result.
    - External collaborators (ffmpeg, the file system, the generation
      service) are inputs of the functions that call them. *)

From Stdlib Require Import ZArith QArith Qround Qabs Qpower.
From Stdlib Require Import List String Ascii Bool.
From Stdlib Require Import Arith Lia Lqa DecimalString Orders.
From Stdlib Require Import Sorting.Mergesort Sorting.Sorted.
From Stdlib Require Import Sorting.Permutation.
Import ListNotations.

Local Open Scope string_scope.
Local Open Scope list_scope.

(** ** Exceptions and results *)

(** [ExternalError msg] stands for any exception raised by a collaborator or
    by the operating system, [msg] being its [str(e)]; [ValueError msg] is
    raised by [int] on a float that is not finite. *)
Inductive exn : Type :=
| ZeroDivisionError
| KeyError (key : string)
| ValueError (msg : string)
| ExternalError (msg : string).

Inductive result (A : Type) : Type :=
| Ok (a : A)
| Raise (e : exn).

Arguments Ok {A} a.
Arguments Raise {A} e.

Definition bind {A B : Type} (r : result A) (k : A -> result B) : result B :=
  match r with
  | Ok a => k a
  | Raise e => Raise e
  end.

Notation "x <- r ;; k" := (bind r (fun x => k))
  (at level 61, r at next level, right associativity).

(** ** Python primitives used by the sources *)

Module Py.

(** [str.isspace] on one character, for code points below 256. *)
Definition isspace (c : ascii) : bool :=
  let n := nat_of_ascii c in
  (((9 <=? n) && (n <=? 13)) || ((28 <=? n) && (n <=? 32))
   || (n =? 133) || (n =? 160))%nat.

(** [\d] for code points below 256. *)
Definition isdigit (c : ascii) : bool :=
  let n := nat_of_ascii c in ((48 <=? n) && (n <=? 57))%nat.

Definition digit_value (c : ascii) : Z := Z.of_nat (nat_of_ascii c) - 48.

Definition is_empty (s : string) : bool :=
  match s with EmptyString => true | String _ _ => false end.

Fixpoint lstrip (s : string) : string :=
  match s with
  | EmptyString => EmptyString
  | String c s' => if isspace c then lstrip s' else s
  end.

Fixpoint rstrip (s : string) : string :=
  match s with
  | EmptyString => EmptyString
  | String c s' =>
      let r := rstrip s' in
      if isspace c && is_empty r then EmptyString else String c r
  end.

(** [s.strip()] *)
Definition strip (s : string) : string := rstrip (lstrip s).

Definition newline : ascii := "010"%char.

(** [s.split('\n')]: one more piece than there are newlines. *)
Fixpoint split_newline (s : string) : list string :=
  match s with
  | EmptyString => [EmptyString]
  | String c s' =>
      if Ascii.eqb c newline then EmptyString :: split_newline s'
      else match split_newline s' with
           | h :: t => String c h :: t
           | [] => [String c EmptyString]
           end
  end.

(** [s.endswith(suffix)] *)
Definition endswith (s suffix : string) : bool :=
  let n := String.length s in
  let m := String.length suffix in
  (m <=? n)%nat && String.eqb (substring (n - m) m s) suffix.

(** [s.startswith(p)], returning what follows the prefix. *)
Fixpoint strip_prefix (p s : string) : option string :=
  match p with
  | EmptyString => Some s
  | String a p' =>
      match s with
      | String b s' => if Ascii.eqb a b then strip_prefix p' s' else None
      | EmptyString => None
      end
  end.

(** The longest run of digits at the head of [s], and the rest. *)
Fixpoint span_digits (s : string) : string * string :=
  match s with
  | String c s' =>
      if isdigit c then let (d, r) := span_digits s' in (String c d, r)
      else (EmptyString, s)
  | EmptyString => (EmptyString, EmptyString)
  end.

(** [\d+\.?\d*] anchored at the head of [s]: the matched text. *)
Definition match_decimal (s : string) : option string :=
  let (ip, rest) := span_digits s in
  if is_empty ip then None
  else match rest with
       | String "."%char rest' =>
           let (fp, _) := span_digits rest' in
           Some (ip ++ String "."%char fp)%string
       | _ => Some ip
       end.

(** [\d+] anchored at the head of [s]. *)
Definition match_digits (s : string) : option string :=
  let (ip, _) := span_digits s in
  if is_empty ip then None else Some ip.

(** [re.search(key + group, s)], leftmost match, giving [group(1)];
    [group] is the anchored matcher of the parenthesised part. *)
Fixpoint re_search (key : string) (group : string -> option string)
    (s : string) : option string :=
  let here := match strip_prefix key s with
              | Some rest => group rest
              | None => None
              end in
  match here with
  | Some g => Some g
  | None =>
      match s with
      | EmptyString => None
      | String _ s' => re_search key group s'
      end
  end.

(** [int(d)] for a run of digits. *)
Fixpoint int_of_digits_acc (acc : Z) (d : string) : Z :=
  match d with
  | EmptyString => acc
  | String c d' => int_of_digits_acc (10 * acc + digit_value c) d'
  end.

Definition int_of_digits (d : string) : Z := int_of_digits_acc 0 d.

(** Rounding to the nearest integer, a tie going to the even neighbour. *)
Definition round_half_even (x : Q) : Z :=
  let n := Qnum x in
  let d := Zpos (Qden x) in
  let q := (n / d)%Z in
  match (2 * (n mod d) ?= d)%Z with
  | Lt => q
  | Gt => (q + 1)%Z
  | Eq => if Z.even q then q else (q + 1)%Z
  end.

(** *** binary64

    The floats are the numbers [m * 2 ^ e] with [|m| <= 2 ^ 53] and
    [-1074 <= e <= 971], and the two infinities. *)

(** For [0 < a]: the [L] with [2 ^ L <= a < 2 ^ (L + 1)]. *)
Definition ilog2 (a : Q) : Z :=
  let e := (Z.log2 (Qnum a) - Z.log2 (Zpos (Qden a)))%Z in
  if Qle_bool (2 ^ e) a then e else (e - 1)%Z.

(** The exponent of the unit in the last place of the floats around [a]:
    53 bits of significand, and no exponent below that of the subnormal
    numbers. *)
Definition binade (a : Q) : Z := Z.max (ilog2 a - 52) (-1074).

(** The code of [float('inf')]; what rounds to [2 ^ 1024] or beyond
    overflows to it. *)
Definition infinity : Q := 2 ^ 1024.

(** The float nearest to [a], for [0 <= a]. *)
Definition rnd_pos (a : Q) : Q :=
  let e := binade a in
  let v := (inject_Z (round_half_even (a / 2 ^ e)) * 2 ^ e)%Q in
  if Qle_bool infinity v then infinity else v.

(** The float nearest to [x], in lowest terms. *)
Definition rnd (x : Q) : Q :=
  Qred (if Qle_bool 0 x then rnd_pos x else - rnd_pos (- x)).

(** [math.isfinite(x)] *)
Definition is_finite (x : Q) : bool := negb (Qle_bool infinity (Qabs x)).

(** [a < b] *)
Definition lt (a b : Q) : bool := negb (Qle_bool b a).

(** [float(g)] for a text matched by [\d+\.?\d*]: the float nearest to the
    decimal. *)
Definition float_of_decimal (g : string) : Q :=
  let (ip, rest) := span_digits g in
  match rest with
  | String "."%char fp =>
      let d := fst (span_digits fp) in
      rnd (Qmake (int_of_digits (ip ++ d)%string)
             (Z.to_pos (10 ^ Z.of_nat (String.length d))))
  | _ => rnd (inject_Z (int_of_digits ip))
  end.

(** [a / b] on finite numbers (true division). *)
Definition truediv (a b : Q) : result Q :=
  if Qeq_bool b 0 then Raise ZeroDivisionError else Ok (rnd (a / b)).

(** [a * b] on finite floats. *)
Definition float_mul (a b : Q) : Q := rnd (a * b).

(** [int(x)] on a finite float: truncation towards zero. *)
Definition int_of_float (x : Q) : Z :=
  if Qle_bool 0 x then Qfloor x else Qceiling x.

(** C's [fmod(vx, wx)] on finite floats, [wx] not 0: the remainder of the
    division truncated towards zero; it is a float, nothing is rounded. *)
Definition fmod (vx wx : Q) : Q :=
  (vx - wx * inject_Z (int_of_float (vx / wx)))%Q.

(** The remainder does not have the sign of the divisor. *)
Definition wrong_sign (mod_ wx : Q) : bool :=
  negb (Qeq_bool mod_ 0) && negb (Bool.eqb (lt wx 0) (lt mod_ 0)).

(** [vx % wx] on finite floats, [wx] not 0, as CPython computes it. *)
Definition float_mod (vx wx : Q) : Q :=
  let mod_ := fmod vx wx in
  if wrong_sign mod_ wx then rnd (mod_ + wx) else mod_.

(** [vx // wx] on finite floats, [wx] not 0, as CPython computes it: the
    quotient of [vx - mod] by [wx], snapped to the nearest whole number. *)
Definition float_floordiv (vx wx : Q) : Q :=
  let mod_ := fmod vx wx in
  let div := rnd (rnd (vx - mod_) / wx) in
  let div := if wrong_sign mod_ wx then rnd (div - 1) else div in
  if Qeq_bool div 0 then 0
  else
    let floordiv := inject_Z (Qfloor div) in
    if lt (1 # 2) (rnd (div - floordiv)) then rnd (floordiv + 1)
    else floordiv.

(** [round(x, 2)]: the decimal with two places nearest to [x], a tie going
    to the even digit, then the float nearest to that decimal. *)
Definition round2 (x : Q) : Q :=
  rnd (Qmake (round_half_even (x * 100)) 100).

(** The decimal digits of a natural number. *)
Definition digits_of (n : N) : string :=
  DecimalString.NilZero.string_of_uint (N.to_uint n).

Fixpoint zeros (k : nat) : string :=
  match k with O => EmptyString | S k' => String "0"%char (zeros k') end.

(** [f"{z:0<width>d}"]: zero padding to [width], the sign counted in it. *)
Definition format_0d (width : nat) (z : Z) : string :=
  let d := digits_of (Z.abs_N z) in
  if (z <? 0)%Z
  then (String "-"%char (zeros (width - 1 - String.length d) ++ d))%string
  else (zeros (width - String.length d) ++ d)%string.

(** [os.path.join(a, b)] (posixpath). *)
Definition os_path_join (a b : string) : string :=
  match strip_prefix "/" b with
  | Some _ => b
  | None =>
      if is_empty a || endswith a "/" then (a ++ b)%string
      else (a ++ String "/"%char b)%string
  end.

(** [range(start, stop, step)] for a positive step; [fuel] bounds the number
    of elements, and [stop] of it is enough. *)
Fixpoint range_from (fuel start stop step : nat) : list nat :=
  match fuel with
  | O => []
  | S fuel' =>
      if (start <? stop)%nat
      then start :: range_from fuel' (start + step) stop step
      else []
  end.

Definition range (start stop step : nat) : list nat :=
  range_from stop start stop step.

End Py.

(** [sorted] on a list of [str]: the order is that of the code points. *)
Module StringOrder <: TotalLeBool.

Definition t := string.

Definition leb := String.leb.

Lemma leb_total : forall x y, leb x y = true \/ leb y x = true.
Proof. exact String.leb_total. Qed.

End StringOrder.

Module StringSort := Sort StringOrder.

Definition sorted (l : list string) : list string := StringSort.sort l.

(** ** The loop over pairs of lines

    Both parsers run
    [for i in range(0, len(lines), 2): if i + 1 < len(lines): ...] and
    append what the pair [lines[i]], [lines[i + 1]] gives; [scan] is the
    part that differs. *)

Section PairLoop.

Variable A : Type.
Variable scan : string -> string -> list A.

Definition loop_body (lines : list string) (scene_changes : list A)
    (i : nat) : list A :=
  if (i + 1 <? List.length lines)%nat
  then scene_changes
       ++ scan (nth i lines EmptyString) (nth (i + 1) lines EmptyString)
  else scene_changes.

Definition pair_loop (lines : list string) : list A :=
  fold_left (loop_body lines) (Py.range 0 (List.length lines) 2) [].

(** The reading of the specification: the lines taken two by two, a last
    line without a partner left out, each pair giving what [scan] finds. *)
Fixpoint scan_pairs (lines : list string) : list A :=
  match lines with
  | frame_line :: score_line :: rest =>
      scan frame_line score_line ++ scan_pairs rest
  | _ => []
  end.

End PairLoop.

Arguments loop_body {A} scan lines scene_changes i.
Arguments pair_loop {A} scan lines.
Arguments scan_pairs {A} scan lines.

(** ** scene_selection.py *)

Module SceneSelection.

(** An element of [scene_changes]: the dict
    [{"timestamp": ..., "scene_score": ...}]. *)
Record scene : Type := { timestamp : Q; scene_score : Q }.

(** Lines 145-154: the two searches on a pair of lines and the append. *)
Definition scan_pair (frame_line score_line : string) : list scene :=
  let pts_match := Py.re_search "pts_time:" Py.match_decimal frame_line in
  let score_match := Py.re_search "scene_score=" Py.match_decimal score_line in
  match pts_match, score_match with
  | Some pts, Some score =>
      [ {| timestamp := Py.float_of_decimal pts;
           scene_score := Py.float_of_decimal score |} ]
  | _, _ => []
  end.

(** Lines 135-154: the parse of the content of the log. *)
Definition parse_scene_log (content : string) : list scene :=
  let lines := Py.split_newline (Py.strip content) in
  pair_loop scan_pair lines.

(** [detect_scene_changes]: [ffmpeg_log] is what running ffmpeg and reading
    the temporary file back gives, the content of the file or the exception
    of [subprocess.run(..., check=True)] or of [open]. *)
Definition detect_scene_changes (ffmpeg_log : result string)
    : result (list scene) :=
  content <- ffmpeg_log ;;
  Ok (parse_scene_log content).

(** [format_timestamp].  On an infinite [seconds] the quotient
    [seconds // 3600] is NaN and [int] raises. *)
Definition format_timestamp (seconds : Q) : result string :=
  if Py.is_finite seconds
  then
    let hours := Py.int_of_float (Py.float_floordiv seconds 3600) in
    let minutes :=
      Py.int_of_float (Py.float_floordiv (Py.float_mod seconds 3600) 60) in
    let secs := Py.int_of_float (Py.float_mod seconds 60) in
    let millisecs :=
      Py.int_of_float (Py.float_mul (Py.float_mod seconds 1) 1000) in
    Ok (Py.format_0d 2 hours ++ ":" ++ Py.format_0d 2 minutes ++ ":"
        ++ Py.format_0d 2 secs ++ "." ++ Py.format_0d 3 millisecs)%string
  else Raise (ValueError "cannot convert float NaN to integer").

(** A row of [frames_data] as the sampling loop leaves it. *)
Record frame_row : Type := {
  Timestamp : string;
  Time_seconds : Q;
  Frame_Number : Z;
  Frame_File : string;
  Frame_Path : string
}.

(** A row once the scene columns are set. *)
Record table_row : Type := {
  frame : frame_row;
  Scene_Number : Z;
  Scene_Score : Q
}.

(** Line 53: [sorted([f for f in os.listdir(d) if f.endswith('.jpg')])]. *)
Definition frame_files_of (listing : list string) : list string :=
  sorted (filter (fun f => Py.endswith f ".jpg") listing).

(** Line 57: [timestamp = i / fps]. *)
Definition frame_timestamp (i : nat) (fps : Q) : result Q :=
  Py.truediv (inject_Z (Z.of_nat i)) fps.

(** Lines 58-66: the row appended for index [i]; the label is the first
    entry evaluated. *)
Definition make_row (output_dir : string) (i : nat) (frame_file : string)
    (timestamp : Q) : result frame_row :=
  label <- format_timestamp timestamp ;;
  Ok {| Timestamp := label;
        Time_seconds := Py.round2 timestamp;
        Frame_Number := Z.of_nat i + 1;
        Frame_File := frame_file;
        Frame_Path := Py.os_path_join output_dir frame_file |}.

(** Lines 54-66: [for i, frame_file in enumerate(frame_files)], from index
    [i] on; an exception of the division or of the label ends the loop. *)
Fixpoint sample_from (output_dir : string) (fps : Q) (i : nat)
    (frame_files : list string) : result (list frame_row) :=
  match frame_files with
  | [] => Ok []
  | frame_file :: rest =>
      timestamp <- frame_timestamp i fps ;;
      row <- make_row output_dir i frame_file timestamp ;;
      rows <- sample_from output_dir fps (S i) rest ;;
      Ok (row :: rows)
  end.

Definition frame_sampler (output_dir : string) (fps : Q)
    (frame_files : list string) : result (list frame_row) :=
  sample_from output_dir fps 0 frame_files.

(** Lines 75-83: the inner loop over [scene_changes] with its [break],
    from the current [scene_number] and [scene_score]. *)
Fixpoint scan_scenes (frame_time : Q) (scene_changes : list scene)
    (scene_number : Z) (score : Q) : Z * Q :=
  match scene_changes with
  | [] => (scene_number, score)
  | sc :: rest =>
      if Qle_bool (timestamp sc) frame_time
      then scan_scenes frame_time rest (scene_number + 1) (scene_score sc)
      else (scene_number, score)
  end.

(** Lines 74-86: the scene columns of one row; [frame_time] is the
    [Time (seconds)] entry of the row. *)
Definition annotate (scene_changes : list scene) (fr : frame_row)
    : table_row :=
  let frame_time := Time_seconds fr in
  let (scene_number, score) := scan_scenes frame_time scene_changes 1 0 in
  {| frame := fr; Scene_Number := scene_number; Scene_Score := score |}.

(** Lines 73-86: [for frame in frames_data]. *)
Definition add_scene_information (frames_data : list frame_row)
    (scene_changes : list scene) : list table_row :=
  map (annotate scene_changes) frames_data.

(** [df["Scene Number"].max()]: a DataFrame built from an empty list of rows
    has no column, and the lookup raises [KeyError]. *)
Definition scene_number_max (df : list table_row) : result Z :=
  match df with
  | [] => Raise (KeyError "Scene Number")
  | r :: rest =>
      Ok (fold_left Z.max (map Scene_Number rest) (Scene_Number r))
  end.

(** The dict a run returns. *)
Inductive error_info : Type :=
| Video_file_not_found (video_path : string)
| Frames_directory_not_found (frames_dir : string)
| Exception_text (e : exn).

Inductive report : Type :=
| status_error (error : error_info)
| status_success (total_frames : nat) (total_scenes : Z)
    (dataframe : list table_row) (frames_directory : string).

(** What the run reads from outside: whether the path tested at entry
    exists, the listing of the frames directory (for [organize_frames_table]
    after [os.makedirs] and the extraction by ffmpeg; an exception of any of
    these otherwise), the scene log, and whether the two files of the table
    could be written. *)
Record world : Type := {
  path_exists : bool;
  listdir : result (list string);
  ffmpeg_log : result string;
  write_table : result unit
}.

(** Lines 52-109 and 292-338, the same in both functions: the body of the
    [try] after the listing. *)
Definition build_table (w : world) (frames_dir : string) (fps : Q)
    : result report :=
  listing <- listdir w ;;
  let frame_files := frame_files_of listing in
  frames_data <- frame_sampler frames_dir fps frame_files ;;
  scene_changes <- detect_scene_changes (ffmpeg_log w) ;;
  let df := add_scene_information frames_data scene_changes in
  _ <- write_table w ;;
  total_scenes <- scene_number_max df ;;
  Ok (status_success (List.length df) total_scenes df frames_dir).

(** [except Exception as e] *)
Definition catch (r : result report) : report :=
  match r with
  | Ok rep => rep
  | Raise e => status_error (Exception_text e)
  end.

Definition organize_frames_table (w : world) (video_path output_dir : string)
    (fps : Q) : report :=
  if negb (path_exists w)
  then status_error (Video_file_not_found video_path)
  else catch (build_table w output_dir fps).

Definition organize_existing_frames_table (w : world) (frames_dir : string)
    (fps : Q) : report :=
  if negb (path_exists w)
  then status_error (Frames_directory_not_found frames_dir)
  else catch (build_table w frames_dir fps).

End SceneSelection.


(** ** video_processor.py *)

Module VideoProcessor.

Record SceneChange : Type := {
  timestamp : Q;
  frame_number : Z;
  scene_score : Q
}.

(** Lines 149-159: the three searches on a pair of lines and the append. *)
Definition scan_pair (frame_line score_line : string) : list SceneChange :=
  let pts_match := Py.re_search "pts_time:" Py.match_decimal frame_line in
  let frame_match := Py.re_search "frame:" Py.match_digits frame_line in
  let score_match := Py.re_search "scene_score=" Py.match_decimal score_line in
  match pts_match, frame_match, score_match with
  | Some pts, Some fr, Some score =>
      [ {| timestamp := Py.float_of_decimal pts;
           frame_number := Py.int_of_digits fr;
           scene_score := Py.float_of_decimal score |} ]
  | _, _, _ => []
  end.

(** Lines 138-159: the parse of the content of the log. *)
Definition parse_scene_log (content : string) : list SceneChange :=
  let lines := Py.split_newline (Py.strip content) in
  pair_loop scan_pair lines.

(** [FFmpegVideoProcessor.detect_scene_changes]; [ffmpeg_log] as in
    [SceneSelection.detect_scene_changes]. *)
Definition detect_scene_changes (ffmpeg_log : result string)
    : result (list SceneChange) :=
  content <- ffmpeg_log ;;
  Ok (parse_scene_log content).

End VideoProcessor.

(** ** script_generator.py

    The texts of this module are the byte strings written to the UTF-8
    artifact.  The answers read by [input] are taken after [.strip()]. *)

Module ScriptGenerator.

Definition dq : string := String "034"%char EmptyString.
Definition nl : string := String Py.newline EmptyString.

Definition str_exn (e : exn) : string :=
  match e with
  | ZeroDivisionError => "division by zero"
  | KeyError key => ("'" ++ key ++ "'")%string
  | ValueError msg => msg
  | ExternalError msg => msg
  end.

(** An object of the selection document, read with [entry.get]: [None] when
    the key is absent. *)
Record entry : Type := {
  entry_timestamp : option string;
  entry_frame_file : option string
}.

(** An element of [frames_data]. *)
Record frame_info : Type := {
  timestamp : string;
  image_path : string;
  frame_file : string
}.

(** A part of the request sent to the generation service. *)
Inductive part : Type :=
| text_part (text : string)
| image_url_part (url : string).

(** Lines 23-33. *)
Definition style_instructions_of (movie_style : string) : string :=
  if String.eqb movie_style "serious" then "保持严肃、专业的语调，避免幽默或轻松的表达。"
  else if String.eqb movie_style "funny" then "使用轻松、幽默的语调，可以适当添加有趣的描述。"
  else if String.eqb movie_style "dramatic" then "使用戏剧性的语调，强调情感和氛围。"
  else if String.eqb movie_style "educational" then "使用教育性的语调，注重解释和说明。"
  else "使用中性、平衡的语调。".

(** Lines 35-43. *)
Definition audience_instructions_of (target_audience : string) : string :=
  if String.eqb target_audience "children" then "使用简单易懂的词汇，避免复杂概念，保持积极、快乐的氛围，使用温暖的语调。"
  else if String.eqb target_audience "adults" then "可以使用更丰富的词汇和概念，适合成年人的理解水平。"
  else if String.eqb target_audience "elderly" then "使用清晰、缓慢的描述，避免快速变化的场景描述，保持温和的语调。"
  else "使用适合一般观众的平衡语调。".

(** Lines 49-70: the instruction text of the request. *)
Definition prompt_text (movie_style target_audience style_instructions
    audience_instructions : string) : string :=
  ("你正在分析一系列讲述故事的视频帧。

请检查所有帧并创建一系列简洁但富有情感和全面的描述，这些描述可以在特定的时间间隔内进行语音播报。

电影风格："
   ++ movie_style
   ++ "
目标观众："
   ++ target_audience
   ++ "

要求：
1. 为每一帧创建简洁但富有情感和全面的描述，可以在几秒钟内说完
2. 在每个描述的开头包含时间戳（例如："
   ++ dq
   ++ "00:00:15: 显示了一张海报..."
   ++ dq
   ++ "）
3. 专注于事实观察 - 描述你看到的内容（物体、颜色、位置、动作）
4. 保持每个描述简短明了 - 适合音频叙述
5. 以清晰、按时间顺序的方式编写，适合视障观众
6. 每个描述应该足够短，可以在其代表的时间间隔内说完
7. 所有的描述连在一起应该是具有一定的故事性
8. 请用中文回答

风格要求：
- "
   ++ style_instructions
   ++ "
- "
   ++ audience_instructions
   ++ "

请将你的回答格式化为一系列时间戳描述，每个帧一个描述。")%string.

(** Lines 75-97: the parts added for the frames, in the order of
    [frames_data]; [encode] is [encode_image_to_base64], the read of the file
    and its base64 text, or the exception of the read. *)
Fixpoint image_parts (encode : string -> result string)
    (frames_data : list frame_info) : result (list part) :=
  match frames_data with
  | [] => Ok []
  | info :: rest =>
      base64_image <- encode (image_path info) ;;
      if Py.is_empty base64_image then image_parts encode rest
      else
        parts <- image_parts encode rest ;;
        Ok (image_url_part ("data:image/jpeg;base64," ++ base64_image)%string
            :: text_part (nl ++ "[Frame at " ++ timestamp info ++ "]")%string
            :: parts)
  end.

(** [analyze_all_frames_together]; [create] is lines 102-114, the call of
    [client.chat.completions.create] on the parts and the stripped text of
    its first choice, or the exception of either. *)
Definition analyze_all_frames_together (encode : string -> result string)
    (create : list part -> result string) (frames_data : list frame_info)
    (movie_style target_audience : string) : string :=
  let style_instructions := style_instructions_of movie_style in
  let audience_instructions := audience_instructions_of target_audience in
  let attempt :=
    parts <- image_parts encode frames_data ;;
    create (text_part (prompt_text movie_style target_audience
                         style_instructions audience_instructions) :: parts) in
  match attempt with
  | Ok text => text
  | Raise e => ("Error: " ++ str_exn e)%string
  end.

(** [style_map.get(style_choice, "neutral")] *)
Definition style_map_get (style_choice : string) : string :=
  if String.eqb style_choice "1" then "serious"
  else if String.eqb style_choice "2" then "funny"
  else if String.eqb style_choice "3" then "dramatic"
  else if String.eqb style_choice "4" then "educational"
  else if String.eqb style_choice "5" then "neutral"
  else "neutral".

(** [audience_map.get(audience_choice, "general")] *)
Definition audience_map_get (audience_choice : string) : string :=
  if String.eqb audience_choice "1" then "children"
  else if String.eqb audience_choice "2" then "adults"
  else if String.eqb audience_choice "3" then "elderly"
  else if String.eqb audience_choice "4" then "general"
  else "general".

(** [not v] for what [entry.get] returned. *)
Definition falsy (v : option string) : bool :=
  match v with
  | Some s => Py.is_empty s
  | None => true
  end.

(** The two messages printed by the loop of lines 183-199. *)
Inductive warning : Type :=
| Skipping_entry_with_missing_field (e : entry)
| Frame_file_not_found (frame_path : string).

(** Lines 182-199: [for entry in selected_frames], giving [frames_data] and
    the warnings printed, both in the order of the document. *)
Fixpoint prepare_frames (path_exists : string -> bool) (frames_dir : string)
    (selected_frames : list entry) : list frame_info * list warning :=
  match selected_frames with
  | [] => ([], [])
  | e :: rest =>
      let (frames_data, warnings) :=
        prepare_frames path_exists frames_dir rest in
      match entry_frame_file e, entry_timestamp e with
      | Some file, Some ts =>
          if Py.is_empty file || Py.is_empty ts
          then (frames_data, Skipping_entry_with_missing_field e :: warnings)
          else
            let frame_path := Py.os_path_join frames_dir file in
            if negb (path_exists frame_path)
            then (frames_data, Frame_file_not_found frame_path :: warnings)
            else ({| timestamp := ts; image_path := frame_path;
                     frame_file := file |} :: frames_data, warnings)
      | _, _ =>
          (frames_data, Skipping_entry_with_missing_field e :: warnings)
      end
  end.

Fixpoint repeat_string (s : string) (n : nat) : string :=
  match n with
  | O => EmptyString
  | S n' => (s ++ repeat_string s n')%string
  end.

(** Lines 213-218: the head of the story file. *)
Definition story_header (prefix movie_style target_audience : string)
    : string :=
  ("视频故事分析: " ++ prefix ++ nl
   ++ "电影风格: " ++ movie_style ++ nl
   ++ "目标观众: " ++ target_audience ++ nl
   ++ repeat_string "=" 80 ++ nl ++ nl
   ++ "个性化时间戳描述" ++ nl
   ++ repeat_string "-" 40 ++ nl)%string.

(** Lines 213-220: what is written to the story file. *)
Definition story_text (prefix movie_style target_audience storyline : string)
    : string :=
  (story_header prefix movie_style target_audience ++ storyline ++ nl)%string.

(** What [main] reads from outside: the two tests at lines 166 and 169, the
    document [json.load] returns, [os.path.exists] on a frame path, the two
    collaborators of [analyze_all_frames_together], and whether the story
    file could be written. *)
Record world : Type := {
  selection_file_exists : bool;
  frames_dir_is_dir : bool;
  selected_frames : list entry;
  path_exists : string -> bool;
  encode_image_to_base64 : string -> result string;
  create_completion : list part -> result string;
  write_story : result unit
}.

(** How a run of [main] ends.  No constructor stands for an exception leaving
    [main]: none of the modelled steps lets one through. *)
Inductive outcome : Type :=
| exit_no_prefix
| exit_selected_file_not_found (selected_json_file : string)
| exit_frames_dir_not_found (frames_dir : string)
| exit_no_frames_in_file
| exit_no_valid_frames (warnings : list warning)
| story_saved (warnings : list warning) (output_story_file text : string)
| story_not_saved (warnings : list warning) (e : exn).

Definition main (w : world) (prefix style_choice audience_choice : string)
    : outcome :=
  if Py.is_empty prefix then exit_no_prefix
  else
    let movie_style := style_map_get style_choice in
    let target_audience := audience_map_get audience_choice in
    let selected_json_file :=
      ("../" ++ prefix ++ "_selected_frames.json")%string in
    let frames_dir := (prefix ++ "_extracted_frames")%string in
    let output_story_file := (prefix ++ "_storyscript.txt")%string in
    if negb (selection_file_exists w)
    then exit_selected_file_not_found selected_json_file
    else if negb (frames_dir_is_dir w)
    then exit_frames_dir_not_found frames_dir
    else
      match selected_frames w with
      | [] => exit_no_frames_in_file
      | _ :: _ =>
          let (frames_data, warnings) :=
            prepare_frames (path_exists w) frames_dir (selected_frames w) in
          match frames_data with
          | [] => exit_no_valid_frames warnings
          | _ :: _ =>
              let storyline :=
                analyze_all_frames_together (encode_image_to_base64 w)
                  (create_completion w) frames_data movie_style
                  target_audience in
              match write_story w with
              | Ok _ =>
                  story_saved warnings output_story_file
                    (story_text prefix movie_style target_audience storyline)
              | Raise e => story_not_saved warnings e
              end
          end
      end.

End ScriptGenerator.

(** ** Vocabulary of the statements *)

(** The lines the two parsers work on. *)
Definition log_lines (content : string) : list string :=
  Py.split_newline (Py.strip content).

(** A line holds a [pts_time:<float>] field, a [scene_score=<float>] field,
    a [frame:<int>] field: the search of the parsers finds it. *)
Definition has_pts_time (line : string) : bool :=
  match Py.re_search "pts_time:" Py.match_decimal line with
  | Some _ => true
  | None => false
  end.

Definition has_scene_score (line : string) : bool :=
  match Py.re_search "scene_score=" Py.match_decimal line with
  | Some _ => true
  | None => false
  end.

Definition has_frame_number (line : string) : bool :=
  match Py.re_search "frame:" Py.match_digits line with
  | Some _ => true
  | None => false
  end.

(** Every character of the text is white space; the empty text is. *)
Fixpoint all_space (s : string) : bool :=
  match s with
  | EmptyString => true
  | String c s' => Py.isspace c && all_space s'
  end.

(** A record of the scene log whose first line has no [frame:] field. *)
Definition log_without_frame_number : string :=
  "pts:1500 pts_time:1.5
lavfi.scene_score=0.420000".

(** The scene event is at or before the time of the frame: the test of
    line 79. *)
Definition at_or_before (frame_time : Q) (sc : SceneSelection.scene) : bool :=
  Qle_bool (SceneSelection.timestamp sc) frame_time.

(** The order of two scene events that follow each other in a sequence
    sorted by timestamp, and of two frames sorted by time. *)
Definition by_timestamp (a b : SceneSelection.scene) : Prop :=
  (SceneSelection.timestamp a <= SceneSelection.timestamp b)%Q.

Definition by_time (a b : SceneSelection.frame_row) : Prop :=
  (SceneSelection.Time_seconds a <= SceneSelection.Time_seconds b)%Q.

(** Scenario A of the specification, with one more event before the one at
    1.5 s: six frames sampled at 2 frames per second. *)
Definition scenario_A_files : list string :=
  ["frame_0001.jpg"; "frame_0002.jpg"; "frame_0003.jpg";
   "frame_0004.jpg"; "frame_0005.jpg"; "frame_0006.jpg"].

Definition scenario_A_frames : list SceneSelection.frame_row :=
  match SceneSelection.frame_sampler "frames" 2 scenario_A_files with
  | Ok rows => rows
  | Raise _ => []
  end.

Definition scenario_A_events : list SceneSelection.scene :=
  [ {| SceneSelection.timestamp := 5 # 10;
       SceneSelection.scene_score := 31 # 100 |};
    {| SceneSelection.timestamp := 15 # 10;
       SceneSelection.scene_score := 42 # 100 |} ].

(** The name of the entry ends in [.jpg]: the test of lines 53 and 292. *)
Definition is_jpg (f : string) : bool := Py.endswith f ".jpg".

(** The world [w] with another listing of the frames directory. *)
Definition with_listing (w : SceneSelection.world) (listing : list string)
    : SceneSelection.world :=
  {| SceneSelection.path_exists := SceneSelection.path_exists w;
     SceneSelection.listdir := Ok listing;
     SceneSelection.ffmpeg_log := SceneSelection.ffmpeg_log w;
     SceneSelection.write_table := SceneSelection.write_table w |}.

(** Two frames sampled at 3 frames per second and a scene event at 0.332 s,
    between the rounded and the exact time of the second frame. *)
Definition world_event_after_rounded_time : SceneSelection.world :=
  {| SceneSelection.path_exists := true;
     SceneSelection.listdir := Ok ["frame_0002.jpg"; "frame_0001.jpg"];
     SceneSelection.ffmpeg_log :=
       Ok "frame:1 pts:332 pts_time:0.332
lavfi.scene_score=0.500000";
     SceneSelection.write_table := Ok tt |}.

(** Two frames sampled at 40 frames per second and a scene event at
    0.028 s, between the timestamp 0.025 of the second frame and the time
    0.03 its row carries. *)
Definition world_event_at_28_ms : SceneSelection.world :=
  {| SceneSelection.path_exists := true;
     SceneSelection.listdir := Ok ["frame_0002.jpg"; "frame_0001.jpg"];
     SceneSelection.ffmpeg_log :=
       Ok "frame:1 pts:28 pts_time:0.028
lavfi.scene_score=0.500000";
     SceneSelection.write_table := Ok tt |}.

(** Four frames and a scene event at 0.5 s. *)
Definition world_event_between_frames : SceneSelection.world :=
  {| SceneSelection.path_exists := true;
     SceneSelection.listdir :=
       Ok ["frame_0001.jpg"; "frame_0002.jpg"; "frame_0003.jpg";
           "frame_0004.jpg"];
     SceneSelection.ffmpeg_log :=
       Ok "frame:15 pts:500 pts_time:0.5
lavfi.scene_score=0.420000";
     SceneSelection.write_table := Ok tt |}.

(** A frames directory that exists and holds no [.jpg] entry, and one that
    does not exist. *)
Definition world_no_frame : SceneSelection.world :=
  {| SceneSelection.path_exists := true;
     SceneSelection.listdir := Ok ["notes.txt"; "frame_0001.png"];
     SceneSelection.ffmpeg_log := Ok EmptyString;
     SceneSelection.write_table := Ok tt |}.

Definition world_no_directory : SceneSelection.world :=
  {| SceneSelection.path_exists := false;
     SceneSelection.listdir :=
       Raise (ExternalError "No such file or directory");
     SceneSelection.ffmpeg_log := Ok EmptyString;
     SceneSelection.write_table := Ok tt |}.

(** One frame in the directory, no scene event. *)
Definition world_one_frame : SceneSelection.world :=
  {| SceneSelection.path_exists := true;
     SceneSelection.listdir := Ok ["frame_0001.jpg"];
     SceneSelection.ffmpeg_log := Ok EmptyString;
     SceneSelection.write_table := Ok tt |}.

(** The value of a field of an entry, the empty text when absent. *)
Definition field (v : option string) : string :=
  match v with
  | Some s => s
  | None => EmptyString
  end.

(** The entry names a frame file and a timestamp, and the file, resolved
    against the frames directory, exists. *)
Definition resolves (path_exists : string -> bool) (frames_dir : string)
    (e : ScriptGenerator.entry) : bool :=
  negb (ScriptGenerator.falsy (ScriptGenerator.entry_frame_file e))
  && negb (ScriptGenerator.falsy (ScriptGenerator.entry_timestamp e))
  && path_exists
       (Py.os_path_join frames_dir
          (field (ScriptGenerator.entry_frame_file e))).

(** The frame packaged for an entry that resolves. *)
Definition info_of (frames_dir : string) (e : ScriptGenerator.entry)
    : ScriptGenerator.frame_info :=
  {| ScriptGenerator.timestamp := field (ScriptGenerator.entry_timestamp e);
     ScriptGenerator.image_path :=
       Py.os_path_join frames_dir (field (ScriptGenerator.entry_frame_file e));
     ScriptGenerator.frame_file :=
       field (ScriptGenerator.entry_frame_file e) |}.

(** The warning printed for an entry, none when it resolves. *)
Definition warning_for (path_exists : string -> bool) (frames_dir : string)
    (e : ScriptGenerator.entry) : list ScriptGenerator.warning :=
  if ScriptGenerator.falsy (ScriptGenerator.entry_frame_file e)
     || ScriptGenerator.falsy (ScriptGenerator.entry_timestamp e)
  then [ScriptGenerator.Skipping_entry_with_missing_field e]
  else if path_exists
            (Py.os_path_join frames_dir
               (field (ScriptGenerator.entry_frame_file e)))
  then []
  else [ScriptGenerator.Frame_file_not_found
          (Py.os_path_join frames_dir
             (field (ScriptGenerator.entry_frame_file e)))].

(** The run ended before the generation service was called and before the
    story file was opened. *)
Definition no_work_done (o : ScriptGenerator.outcome) : bool :=
  match o with
  | ScriptGenerator.story_saved _ _ _ => false
  | ScriptGenerator.story_not_saved _ _ => false
  | _ => true
  end.

Definition selection_entry (ts file : string) : ScriptGenerator.entry :=
  {| ScriptGenerator.entry_timestamp := Some ts;
     ScriptGenerator.entry_frame_file := Some file |}.

(** Scenarios C and D of the specification: three entries selected, the
    second frame file missing, and a generation service that fails. *)
Definition world_scenario_C : ScriptGenerator.world :=
  {| ScriptGenerator.selection_file_exists := true;
     ScriptGenerator.frames_dir_is_dir := true;
     ScriptGenerator.selected_frames :=
       [selection_entry "00:00:00.000" "frame_0001.jpg";
        selection_entry "00:00:01.000" "frame_0002.jpg";
        selection_entry "00:00:02.000" "frame_0003.jpg"];
     ScriptGenerator.path_exists :=
       fun p => negb (String.eqb p "clip_extracted_frames/frame_0002.jpg");
     ScriptGenerator.encode_image_to_base64 := fun _ => Ok "QUJD";
     ScriptGenerator.create_completion :=
       fun _ => Raise (ExternalError "Connection error.");
     ScriptGenerator.write_story := Ok tt |}.

(** One entry selected, with an empty timestamp; every file exists. *)
Definition world_empty_timestamp : ScriptGenerator.world :=
  {| ScriptGenerator.selection_file_exists := true;
     ScriptGenerator.frames_dir_is_dir := true;
     ScriptGenerator.selected_frames :=
       [selection_entry EmptyString "frame_0001.jpg"];
     ScriptGenerator.path_exists := fun _ => true;
     ScriptGenerator.encode_image_to_base64 := fun _ => Ok "QUJD";
     ScriptGenerator.create_completion := fun _ => Ok "00:00:00: ...";
     ScriptGenerator.write_story := Ok tt |}.

(** The four numbers [format_timestamp] prints: hours, minutes, seconds and
    milliseconds. *)
Definition timestamp_fields (seconds : Q) : Z * Z * Z * Z :=
  (Py.int_of_float (Py.float_floordiv seconds 3600),
   Py.int_of_float (Py.float_floordiv (Py.float_mod seconds 3600) 60),
   Py.int_of_float (Py.float_mod seconds 60),
   Py.int_of_float (Py.float_mul (Py.float_mod seconds 1) 1000)).

(** The number is a finite float: the rounding keeps it. *)
Definition is_float (x : Q) : bool :=
  Qeq_bool (Py.rnd x) x && Py.is_finite x.

(** The timestamp of the frame of index [i] at the rate [fps], not 0: the
    float [i / fps] of line 57. *)
Definition timestamp_of (i : nat) (fps : Q) : Q :=
  Py.rnd (inject_Z (Z.of_nat i) / fps).

(** The fractional part of a number. *)
Definition frac (x : Q) : Q := (x - inject_Z (Qfloor x))%Q.

(** The number lies in the binade of exponent [L]:
    [2 ^ L <= a < 2 ^ (L + 1)]. *)
Definition in_binade (L : Z) (a : Q) : Prop :=
  (2 ^ L <= a /\ a < 2 ^ (L + 1))%Q.

(** The significand [Py.rnd_pos] gives a number, and the value it has
    before the test of overflow. *)
Definition mantissa (a : Q) : Z :=
  Py.round_half_even (a / 2 ^ Py.binade a).

Definition unbounded (a : Q) : Q :=
  (inject_Z (mantissa a) * 2 ^ Py.binade a)%Q.

(** A scene change of [video_processor] without its frame number, as a
    scene of [scene_selection]. *)
Definition as_scene (sc : VideoProcessor.SceneChange) : SceneSelection.scene :=
  {| SceneSelection.timestamp := VideoProcessor.timestamp sc;
     SceneSelection.scene_score := VideoProcessor.scene_score sc |}.

(** Every character of the text is a digit. *)
Fixpoint all_digits (s : string) : bool :=
  match s with
  | EmptyString => true
  | String c s' => Py.isdigit c && all_digits s'
  end.

(** The parts of the request made for one frame: its image, then its label,
    and nothing when the image encodes to the empty text or cannot be
    read. *)
Definition parts_of_frame (encode : string -> result string)
    (info : ScriptGenerator.frame_info) : list ScriptGenerator.part :=
  match encode (ScriptGenerator.image_path info) with
  | Ok base64_image =>
      if Py.is_empty base64_image then []
      else [ScriptGenerator.image_url_part
              ("data:image/jpeg;base64," ++ base64_image)%string;
            ScriptGenerator.text_part
              (ScriptGenerator.nl ++ "[Frame at "
               ++ ScriptGenerator.timestamp info ++ "]")%string]
  | Raise _ => []
  end.

(** Three frames, and an encoder that reads the first, is denied the second
    and does not find the third. *)
Definition three_frames : list ScriptGenerator.frame_info :=
  [ {| ScriptGenerator.timestamp := "00:00:00.000";
       ScriptGenerator.image_path := "clip_extracted_frames/frame_0001.jpg";
       ScriptGenerator.frame_file := "frame_0001.jpg" |};
    {| ScriptGenerator.timestamp := "00:00:01.000";
       ScriptGenerator.image_path := "clip_extracted_frames/frame_0002.jpg";
       ScriptGenerator.frame_file := "frame_0002.jpg" |};
    {| ScriptGenerator.timestamp := "00:00:02.000";
       ScriptGenerator.image_path := "clip_extracted_frames/frame_0003.jpg";
       ScriptGenerator.frame_file := "frame_0003.jpg" |} ].

Definition encode_second_denied (image_path : string) : result string :=
  if String.eqb image_path "clip_extracted_frames/frame_0001.jpg"
  then Ok "QUJD"
  else if String.eqb image_path "clip_extracted_frames/frame_0002.jpg"
  then Raise (ExternalError "Permission denied")
  else Raise (ExternalError "No such file or directory").

(** The image of the frame can be read. *)
Definition readable (encode : string -> result string)
    (info : ScriptGenerator.frame_info) : bool :=
  match encode (ScriptGenerator.image_path info) with
  | Ok _ => true
  | Raise _ => false
  end.

(** ** video_processor.py: the search function *)

Module VideoSearch.

(** The dataclass [VideoMetadata]. *)
Record VideoMetadata : Type := {
  duration : Q;
  width : Z;
  height : Z;
  fps : Q;
  bitrate : Z;
  codec : string;
  format : string;
  size_mb : Q
}.

(** What [transcribe_audio] returns; a segment is kept as its text. *)
Record transcription : Type := {
  text : string;
  segments : list string
}.

(** The keyword arguments [search_video_content] reads, [None] for one that
    is not passed. *)
Record kwargs : Type := {
  scene_threshold : option Q;
  extract_frames : option bool;
  frame_fps : option Q;
  frames_output_dir : option string;
  transcribe : option bool;
  language : option string
}.

Definition no_kwargs : kwargs :=
  {| scene_threshold := None; extract_frames := None; frame_fps := None;
     frames_output_dir := None; transcribe := None; language := None |}.

(** [kwargs.get(key, default)] *)
Definition get {A : Type} (v : option A) (default : A) : A :=
  match v with
  | Some a => a
  | None => default
  end.

(** [x in [a, b]] on texts. *)
Definition in_list (x : string) (l : list string) : bool :=
  existsb (String.eqb x) l.

(** The dict [results["results"]]: a key is [None] until a step stores it. *)
Record results : Type := {
  metadata : option VideoMetadata;
  scene_changes : option (list VideoProcessor.SceneChange);
  frames : option string;
  transcription_result : option transcription
}.

Definition no_results : results :=
  {| metadata := None; scene_changes := None; frames := None;
     transcription_result := None |}.

(** [results["status"]], with [results["error"]] when it is an error. *)
Inductive status : Type :=
| success
| error (e : exn).

(** The dict [search_video_content] returns. *)
Record report : Type := {
  video_path : string;
  analysis_type : string;
  found : results;
  search_status : status
}.

(** What the methods of the processor meet outside: whether ffmpeg answers
    [-version], whether the video exists, what [get_video_metadata]
    returns or raises, the scene log ffmpeg leaves for a threshold, whether
    the extraction at a rate into a directory goes through, and what
    [transcribe_audio] returns or raises for a language. *)
Record world : Type := {
  ffmpeg_available : bool;
  video_exists : bool;
  get_video_metadata : result VideoMetadata;
  ffmpeg_log : Q -> result string;
  run_extraction : Q -> string -> result unit;
  transcribe_audio : option string -> result transcription
}.

(** [extract_frames]: the directory asked for is what it returns. *)
Definition extract_frames_to (w : world) (rate : Q) (output_dir : string)
    : result string :=
  _ <- run_extraction w rate output_dir ;;
  Ok output_dir.

(** Lines 255-256. *)
Definition metadata_step (w : world) (search_type : string) (r : results)
    : result results :=
  if in_list search_type ["metadata"; "all"]
  then
    m <- get_video_metadata w ;;
    Ok {| metadata := Some m; scene_changes := scene_changes r;
          frames := frames r;
          transcription_result := transcription_result r |}
  else Ok r.

(** Lines 258-260. *)
Definition scenes_step (w : world) (search_type : string) (kw : kwargs)
    (r : results) : result results :=
  if in_list search_type ["scenes"; "all"]
  then
    let threshold := get (scene_threshold kw) (3 # 10) in
    l <- VideoProcessor.detect_scene_changes (ffmpeg_log w threshold) ;;
    Ok {| metadata := metadata r; scene_changes := Some l;
          frames := frames r;
          transcription_result := transcription_result r |}
  else Ok r.

(** Lines 262-266. *)
Definition frames_step (w : world) (search_type : string) (kw : kwargs)
    (r : results) : result results :=
  if in_list search_type ["frames"; "all"]
  then
    if get (extract_frames kw) false
    then
      let rate := get (frame_fps kw) 2 in
      let output_dir := get (frames_output_dir kw) "frames" in
      d <- extract_frames_to w rate output_dir ;;
      Ok {| metadata := metadata r; scene_changes := scene_changes r;
            frames := Some d;
            transcription_result := transcription_result r |}
    else Ok r
  else Ok r.

(** Lines 268-275. *)
Definition transcription_step (w : world) (search_type : string)
    (kw : kwargs) (r : results) : result results :=
  if in_list search_type ["transcription"; "all"]
  then
    if get (transcribe kw) false
    then
      t <- transcribe_audio w (language kw) ;;
      Ok {| metadata := metadata r; scene_changes := scene_changes r;
            frames := frames r; transcription_result := Some t |}
    else Ok r
  else Ok r.

(** The statements of a [try] block run in turn on the dict: the first
    exception ends the block, and the dict keeps what was stored before
    it. *)
Fixpoint run_steps (steps : list (results -> result results)) (r : results)
    : results * status :=
  match steps with
  | [] => (r, success)
  | step :: rest =>
      match step r with
      | Ok r' => run_steps rest r'
      | Raise e => (r, error e)
      end
  end.

(** How a call of [search_video_content] or [ffmpeg_video_search] ends. *)
Inductive outcome : Type :=
| raises_RuntimeError
| raises_FileNotFoundError (video_path : string)
| returns (rep : report).

(** [FFmpegVideoProcessor.search_video_content] *)
Definition search_video_content (w : world) (path search_type : string)
    (kw : kwargs) : outcome :=
  if negb (video_exists w) then raises_FileNotFoundError path
  else
    let (r, st) :=
      run_steps [metadata_step w search_type;
                 scenes_step w search_type kw;
                 frames_step w search_type kw;
                 transcription_step w search_type kw] no_results in
    returns {| video_path := path; analysis_type := search_type;
               found := r; search_status := st |}.

(** [ffmpeg_video_search]: the processor is made, which checks ffmpeg, then
    asked. *)
Definition ffmpeg_video_search (w : world) (path search_type : string)
    (kw : kwargs) : outcome :=
  if negb (ffmpeg_available w) then raises_RuntimeError
  else search_video_content w path search_type kw.

End VideoSearch.

(** ** scene_selection.py: the chained [main] and the convenience function *)

Module SceneSelectionMain.

(** [organize_video_frames]: [fps] and [scene_threshold] as the keyword
    arguments give them, 2 and 0.3 otherwise.  The threshold reaches the run
    through the scene log of the world. *)
Definition organize_video_frames (w : SceneSelection.world)
    (video_path output_dir : string) (fps : option Q) : SceneSelection.report :=
  SceneSelection.organize_frames_table w video_path output_dir
    (VideoSearch.get fps 2).

(** How a run of [main] ends. *)
Inductive outcome : Type :=
| exit_no_video_file
| exit_no_video_processor
| raises_RuntimeError
| raises_FileNotFoundError (video_path : string)
| raises_KeyError (key : string)
| exit_frame_extraction_failed (e : exn)
| organized (frames_dir : string) (rep : SceneSelection.report).

(** The keyword arguments of the searches of [main]. *)
Definition scenes_kwargs : VideoSearch.kwargs :=
  {| VideoSearch.scene_threshold := Some (2 # 10);
     VideoSearch.extract_frames := None;
     VideoSearch.frame_fps := None;
     VideoSearch.frames_output_dir := None;
     VideoSearch.transcribe := None;
     VideoSearch.language := None |}.

Definition frames_kwargs (frames_output_dir : string) : VideoSearch.kwargs :=
  {| VideoSearch.scene_threshold := None;
     VideoSearch.extract_frames := Some true;
     VideoSearch.frame_fps := Some 1;
     VideoSearch.frames_output_dir := Some frames_output_dir;
     VideoSearch.transcribe := None;
     VideoSearch.language := None |}.

(** Lines 393-425: the third search and the organisation of the frames.
    [w3] is what the search meets, [wo] what
    [organize_existing_frames_table] meets after it. *)
Definition frames_stage (video_file frames_output_dir : string)
    (w3 : VideoSearch.world) (wo : SceneSelection.world) : outcome :=
  match VideoSearch.ffmpeg_video_search w3 video_file "frames"
          (frames_kwargs frames_output_dir) with
  | VideoSearch.raises_RuntimeError => raises_RuntimeError
  | VideoSearch.raises_FileNotFoundError p => raises_FileNotFoundError p
  | VideoSearch.returns results =>
      match VideoSearch.search_status results with
      | VideoSearch.success =>
          match VideoSearch.frames (VideoSearch.found results) with
          | None => raises_KeyError "frames"
          | Some frames_dir =>
              organized frames_output_dir
                (SceneSelection.organize_existing_frames_table wo
                   frames_output_dir 1)
          end
      | VideoSearch.error e => exit_frame_extraction_failed e
      end
  end.

(** Lines 380-425: the second search and what follows it. *)
Definition scenes_stage (video_file frames_output_dir : string)
    (w2 w3 : VideoSearch.world) (wo : SceneSelection.world) : outcome :=
  match VideoSearch.ffmpeg_video_search w2 video_file "scenes"
          scenes_kwargs with
  | VideoSearch.raises_RuntimeError => raises_RuntimeError
  | VideoSearch.raises_FileNotFoundError p => raises_FileNotFoundError p
  | VideoSearch.returns results =>
      match VideoSearch.search_status results with
      | VideoSearch.success =>
          match VideoSearch.scene_changes (VideoSearch.found results) with
          | None => raises_KeyError "scene_changes"
          | Some scene_changes =>
              frames_stage video_file frames_output_dir w3 wo
          end
      | VideoSearch.error _ =>
          frames_stage video_file frames_output_dir w3 wo
      end
  end.

Section Main.

(** [Path(video_file).stem] *)
Variable stem : string -> string.

(** [main]: [video_file] is the answer after [.strip()], [importable]
    whether [video_processor] can be imported, [w1], [w2] and [w3] what the
    three searches meet in turn, [wo] what
    [organize_existing_frames_table] meets after them. *)
Definition main (video_file : string) (importable : bool)
    (w1 w2 w3 : VideoSearch.world) (wo : SceneSelection.world) : outcome :=
  if Py.is_empty video_file then exit_no_video_file
  else
    let video_name := stem video_file in
    let frames_output_dir := (video_name ++ "_extracted_frames")%string in
    if negb importable then exit_no_video_processor
    else
      match VideoSearch.ffmpeg_video_search w1 video_file "metadata"
              VideoSearch.no_kwargs with
      | VideoSearch.raises_RuntimeError => raises_RuntimeError
      | VideoSearch.raises_FileNotFoundError p => raises_FileNotFoundError p
      | VideoSearch.returns results =>
          match VideoSearch.search_status results with
          | VideoSearch.success =>
              match VideoSearch.metadata (VideoSearch.found results) with
              | None => raises_KeyError "metadata"
              | Some metadata =>
                  scenes_stage video_file frames_output_dir w2 w3 wo
              end
          | VideoSearch.error _ =>
              scenes_stage video_file frames_output_dir w2 w3 wo
          end
      end.

End Main.

End SceneSelectionMain.

(** The call went through. *)
Definition is_ok {A : Type} (r : result A) : bool :=
  match r with
  | Ok _ => true
  | Raise _ => false
  end.

(** What the call returned, if it went through. *)
Definition ok_value {A : Type} (r : result A) : option A :=
  match r with
  | Ok a => Some a
  | Raise _ => None
  end.

(** The search type asks for the step of that name. *)
Definition asks_for (search_type step : string) : bool :=
  VideoSearch.in_list search_type [step; "all"].

(** The extraction and the transcription a search would run, if any. *)
Definition extraction_asked (search_type : string) (kw : VideoSearch.kwargs)
    : bool :=
  asks_for search_type "frames"
  && VideoSearch.get (VideoSearch.extract_frames kw) false.

Definition transcription_asked (search_type : string)
    (kw : VideoSearch.kwargs) : bool :=
  asks_for search_type "transcription"
  && VideoSearch.get (VideoSearch.transcribe kw) false.

(** Every step the search runs goes through. *)
Definition all_steps_ok (w : VideoSearch.world) (search_type : string)
    (kw : VideoSearch.kwargs) : bool :=
  (negb (asks_for search_type "metadata")
   || is_ok (VideoSearch.get_video_metadata w))
  && (negb (asks_for search_type "scenes")
      || is_ok (VideoSearch.ffmpeg_log w
                  (VideoSearch.get (VideoSearch.scene_threshold kw) (3 # 10))))
  && (negb (extraction_asked search_type kw)
      || is_ok (VideoSearch.run_extraction w
                  (VideoSearch.get (VideoSearch.frame_fps kw) 2)
                  (VideoSearch.get (VideoSearch.frames_output_dir kw)
                     "frames")))
  && (negb (transcription_asked search_type kw)
      || is_ok (VideoSearch.transcribe_audio w (VideoSearch.language kw))).

(** A run of the searches of [main] on a video that is there, with ffmpeg at
    hand, a metadata probe that fails and an extraction that goes
    through; and the same with the video missing. *)
Definition search_world_ok : VideoSearch.world :=
  {| VideoSearch.ffmpeg_available := true;
     VideoSearch.video_exists := true;
     VideoSearch.get_video_metadata := Raise (ExternalError "ffprobe");
     VideoSearch.ffmpeg_log := fun _ => Ok log_without_frame_number;
     VideoSearch.run_extraction := fun _ _ => Ok tt;
     VideoSearch.transcribe_audio :=
       fun _ => Raise (ExternalError "Whisper not installed") |}.

Definition search_world_no_video : VideoSearch.world :=
  {| VideoSearch.ffmpeg_available := true;
     VideoSearch.video_exists := false;
     VideoSearch.get_video_metadata := Raise (ExternalError "ffprobe");
     VideoSearch.ffmpeg_log := fun _ => Raise (ExternalError "ffmpeg");
     VideoSearch.run_extraction := fun _ _ => Raise (ExternalError "ffmpeg");
     VideoSearch.transcribe_audio :=
       fun _ => Raise (ExternalError "Whisper not installed") |}.

(** A stand-in for [Path(...).stem] on names of the form [<stem>.mp4]. *)
Definition stem_mp4 (video_file : string) : string :=
  substring 0 (String.length video_file - 4) video_file.

(** ** script_generator.py: the encoding of an image *)

Module Base64.

Definition alphabet : string :=
  "ABCDEFGHIJKLMNOPQRSTUVWXYZabcdefghijklmnopqrstuvwxyz0123456789+/".

(** The character of a 6-bit value. *)
Definition char_of (i : N) : ascii :=
  match String.get (N.to_nat i) alphabet with
  | Some c => c
  | None => "="%char
  end.

Definition pad : ascii := "="%char.

(** [base64.b64encode(data).decode("utf-8")]: three bytes give four
    characters, a last group of one or two bytes is padded with [=]. *)
Fixpoint b64encode (data : list ascii) : string :=
  match data with
  | [] => EmptyString
  | [a] =>
      let n := (N_of_ascii a * 65536)%N in
      String (char_of (n / 262144))
        (String (char_of ((n / 4096) mod 64))
           (String pad (String pad EmptyString)))
  | [a; b] =>
      let n := (N_of_ascii a * 65536 + N_of_ascii b * 256)%N in
      String (char_of (n / 262144))
        (String (char_of ((n / 4096) mod 64))
           (String (char_of ((n / 64) mod 64)) (String pad EmptyString)))
  | a :: b :: c :: rest =>
      let n := (N_of_ascii a * 65536 + N_of_ascii b * 256 + N_of_ascii c)%N in
      String (char_of (n / 262144))
        (String (char_of ((n / 4096) mod 64))
           (String (char_of ((n / 64) mod 64))
              (String (char_of (n mod 64)) (b64encode rest))))
  end.

(** [encode_image_to_base64]; [read_file] is the read of the bytes of the
    file, or the exception of [open] or of the read. *)
Definition encode_image_to_base64 (read_file : string -> result (list ascii))
    (image_path : string) : result string :=
  data <- read_file image_path ;;
  Ok (b64encode data).

End Base64.

(** The files of [three_frames]: three bytes, none, two bytes. *)
Definition read_three_files (image_path : string) : result (list ascii) :=
  if String.eqb image_path "clip_extracted_frames/frame_0001.jpg"
  then Ok (list_ascii_of_string "Man")
  else if String.eqb image_path "clip_extracted_frames/frame_0002.jpg"
  then Ok []
  else Ok (list_ascii_of_string "Ma").

(** The name ffmpeg gives the frame of number [k] for the pattern
    [frame_%04d.jpg] of lines 47 and 185: the number in decimal, padded with
    zeros to four digits. *)
Definition frame_name (k : nat) : string :=
  ("frame_" ++ Py.format_0d 4 (Z.of_nat k) ++ ".jpg")%string.

(** Each element is at most the next, in the order of [sorted]. *)
Fixpoint ascending (l : list string) : bool :=
  match l with
  | a :: (b :: _) as rest => String.leb a b && ascending rest
  | _ => true
  end.

(** * Properties *)

(** ** Rounding to binary64 *)

Section Binary64.

Local Open Scope Q_scope.

Lemma pow2_pos (e : Z) : 0 < 2 ^ e.
Proof. apply Qpower_0_lt. reflexivity. Qed.

Lemma pow2_add (a b : Z) : 2 ^ (a + b) == 2 ^ a * 2 ^ b.
Proof. apply Qpower_plus. discriminate. Qed.

Lemma pow2_le (a b : Z) : (a <= b)%Z -> 2 ^ a <= 2 ^ b.
Proof. intros H. apply Qpower_le_compat_l; [exact H|discriminate]. Qed.

Lemma pow2_lt (a b : Z) : (a < b)%Z -> 2 ^ a < 2 ^ b.
Proof. intros H. apply Qpower_lt_compat_l; [exact H|reflexivity]. Qed.

Lemma pow2_lt_inv (a b : Z) : 2 ^ a < 2 ^ b -> (a < b)%Z.
Proof. intros H. apply (Qpower_lt_compat_l_inv 2); [exact H|reflexivity]. Qed.

Lemma pow2_succ (a : Z) : 2 ^ (a + 1) == 2 * 2 ^ a.
Proof. rewrite pow2_add. change (2 ^ 1) with 2. ring. Qed.

Lemma pow2_inject (k : Z) : (0 <= k)%Z -> inject_Z (2 ^ k) == 2 ^ k.
Proof. intros H. now rewrite Zpower_Qpower. Qed.


Lemma in_binade_unique (L L' : Z) (a : Q) :
  in_binade L a -> in_binade L' a -> L = L'.
Proof.
  intros [H1 H2] [H3 H4].
  assert (A : (L < L' + 1)%Z)
    by (apply pow2_lt_inv; eapply Qle_lt_trans; eassumption).
  assert (B : (L' < L + 1)%Z)
    by (apply pow2_lt_inv; eapply Qle_lt_trans; eassumption).
  lia.
Qed.

Lemma ilog2_spec (a : Q) : 0 < a -> in_binade (Py.ilog2 a) a.
Proof.
  intros Ha. destruct a as [n d]. unfold Py.ilog2. cbn [Qnum Qden].
  assert (Hn : (0 < n)%Z) by (unfold Qlt in Ha; simpl in Ha; lia).
  pose proof (Z.log2_spec n Hn) as [Hn1 Hn2].
  pose proof (Z.log2_spec (Zpos d) ltac:(lia)) as [Hd1 Hd2].
  pose proof (Z.log2_nonneg n) as Ln. pose proof (Z.log2_nonneg (Zpos d)) as Ld.
  set (ln := Z.log2 n) in *. set (ld := Z.log2 (Zpos d)) in *.
  assert (Ea : n # d == inject_Z n / inject_Z (Zpos d)) by apply Qmake_Qdiv.
  assert (Hdpos : 0 < inject_Z (Zpos d)) by reflexivity.
  assert (Hnd : (n # d) * inject_Z (Zpos d) == inject_Z n).
  { rewrite Ea. field. discriminate. }
  assert (Qn1 : 2 ^ ln <= inject_Z n).
  { rewrite <- pow2_inject by lia. rewrite <- Zle_Qle. exact Hn1. }
  assert (Qn2 : inject_Z n < 2 ^ (ln + 1)).
  { rewrite <- pow2_inject by lia. rewrite <- Zlt_Qlt. replace (ln + 1)%Z with (Z.succ ln) by lia. exact Hn2. }
  assert (Qd1 : 2 ^ ld <= inject_Z (Zpos d)).
  { rewrite <- pow2_inject by lia. rewrite <- Zle_Qle. exact Hd1. }
  assert (Qd2 : inject_Z (Zpos d) < 2 ^ (ld + 1)).
  { rewrite <- pow2_inject by lia. rewrite <- Zlt_Qlt. replace (ld + 1)%Z with (Z.succ ld) by lia. exact Hd2. }
  set (D := inject_Z (Zpos d)) in *. set (N := inject_Z n) in *.
  set (a := n # d) in *.
  assert (Hup : a < 2 ^ (ln - ld + 1)).
  { apply (Qmult_lt_r _ _ D Hdpos). rewrite Hnd.
    eapply Qlt_le_trans; [exact Qn2|].
    replace (ln + 1)%Z with ((ln - ld + 1) + ld)%Z by lia.
    rewrite pow2_add. apply Qmult_le_l; [apply pow2_pos|exact Qd1]. }
  assert (Hlo : 2 ^ (ln - ld - 1) < a).
  { apply (Qmult_lt_r _ _ D Hdpos). rewrite Hnd.
    eapply Qlt_le_trans; [|exact Qn1].
    replace ln with ((ln - ld - 1) + (ld + 1))%Z at 2 by lia.
    rewrite pow2_add. apply Qmult_lt_l; [apply pow2_pos|exact Qd2]. }
  destruct (Qle_bool (2 ^ (ln - ld)) a) eqn:E.
  - apply Qle_bool_iff in E. split; assumption.
  - split; [apply Qlt_le_weak; exact Hlo|].
    replace (ln - ld - 1 + 1)%Z with (ln - ld)%Z by lia.
    apply Qnot_le_lt. intros C. apply Qle_bool_iff in C. congruence.
Qed.

Lemma ilog2_unique (L : Z) (a : Q) : in_binade L a -> Py.ilog2 a = L.
Proof.
  intros H. assert (Ha : 0 < a).
  { destruct H as [H _]. eapply Qlt_le_trans; [apply pow2_pos|exact H]. }
  exact (in_binade_unique _ _ a (ilog2_spec a Ha) H).
Qed.

Lemma ilog2_monotone (a b : Q) : 0 < a -> a <= b -> (Py.ilog2 a <= Py.ilog2 b)%Z.
Proof.
  intros Ha Hab. assert (Hb : 0 < b) by (eapply Qlt_le_trans; eassumption).
  destruct (ilog2_spec a Ha) as [A1 A2]. destruct (ilog2_spec b Hb) as [B1 B2].
  assert (H : (Py.ilog2 a < Py.ilog2 b + 1)%Z).
  { apply pow2_lt_inv. eapply Qle_lt_trans; [exact A1|].
    eapply Qle_lt_trans; [exact Hab|exact B2]. }
  lia.
Qed.

Lemma binade_monotone (a b : Q) : 0 < a -> a <= b -> (Py.binade a <= Py.binade b)%Z.
Proof.
  intros Ha Hab. unfold Py.binade. pose proof (ilog2_monotone a b Ha Hab). lia.
Qed.

Lemma round_half_even_monotone (x y : Q) :
  (x <= y)%Q -> (Py.round_half_even x <= Py.round_half_even y)%Z.
Proof.
  destruct x as [n1 d1], y as [n2 d2]. unfold Qle, Py.round_half_even.
  cbn [Qnum Qden]. intros H.
  pose proof (Z.div_mod n1 (Zpos d1) ltac:(lia)) as E1.
  pose proof (Z.div_mod n2 (Zpos d2) ltac:(lia)) as E2.
  pose proof (Z.mod_pos_bound n1 (Zpos d1) ltac:(lia)) as B1.
  pose proof (Z.mod_pos_bound n2 (Zpos d2) ltac:(lia)) as B2.
  set (q1 := (n1 / Zpos d1)%Z) in *. set (r1 := (n1 mod Zpos d1)%Z) in *.
  set (q2 := (n2 / Zpos d2)%Z) in *. set (r2 := (n2 mod Zpos d2)%Z) in *.
  set (D1 := Zpos d1) in *. set (D2 := Zpos d2) in *.
  assert (HD1 : (0 < D1)%Z) by (unfold D1; lia).
  assert (HD2 : (0 < D2)%Z) by (unfold D2; lia).
  assert (Hq : (q1 <= q2)%Z).
  { destruct (Z_le_gt_dec q1 q2) as [Hle|Hgt]; [exact Hle|]. exfalso.
    assert ((D1 * D2 * (q1 - q2) <= r2 * D1 - r1 * D2)%Z) by nia.
    assert ((D1 * D2 <= D1 * D2 * (q1 - q2))%Z) by nia.
    nia. }
  destruct (Z_le_lt_eq_dec q1 q2 Hq) as [Hlt|Heq].
  - destruct (2 * r1 ?= D1)%Z; destruct (2 * r2 ?= D2)%Z;
      try destruct (Z.even q1); try destruct (Z.even q2); lia.
  - assert (Hr : (r1 * D2 <= r2 * D1)%Z) by nia.
    rewrite <- Heq.
    destruct (Z.compare_spec (2 * r1) D1) as [C1|C1|C1];
      destruct (Z.compare_spec (2 * r2) D2) as [C2|C2|C2];
      try (destruct (Z.even q1); lia);
      exfalso; nia.
Qed.

Lemma round_half_even_close (x : Q) :
  (2 * Zpos (Qden x) * Py.round_half_even x - Zpos (Qden x) <= 2 * Qnum x
   /\ 2 * Qnum x <= 2 * Zpos (Qden x) * Py.round_half_even x + Zpos (Qden x))%Z.
Proof.
  destruct x as [n d]. unfold Py.round_half_even. cbn [Qnum Qden].
  pose proof (Z.div_mod n (Zpos d) ltac:(lia)) as E.
  pose proof (Z.mod_pos_bound n (Zpos d) ltac:(lia)) as B.
  set (q := (n / Zpos d)%Z) in *. set (r := (n mod Zpos d)%Z) in *.
  set (D := Zpos d) in *.
  destruct (Z.compare_spec (2 * r) D) as [C|C|C];
    try destruct (Z.even q); nia.
Qed.

(** The nearest integer is within a half. *)
Lemma round_half_even_half (x : Q) :
  inject_Z (Py.round_half_even x) - (1 # 2) <= x
  /\ x <= inject_Z (Py.round_half_even x) + (1 # 2).
Proof.
  pose proof (round_half_even_close x) as [Hlo Hhi].
  set (R := Py.round_half_even x) in *.
  destruct x as [n d]. cbn [Qnum Qden] in Hlo, Hhi.
  unfold Qle, Qminus, Qplus, Qopp, inject_Z. cbn [Qnum Qden].
  split; lia.
Qed.

Lemma round_half_even_Qeq (x y : Q) :
  x == y -> Py.round_half_even x = Py.round_half_even y.
Proof.
  intros E. apply Z.le_antisymm; apply round_half_even_monotone;
    rewrite E; apply Qle_refl.
Qed.

Lemma round_half_even_inject (z : Z) : Py.round_half_even (inject_Z z) = z.
Proof.
  unfold Py.round_half_even, inject_Z. cbn [Qnum Qden].
  rewrite Z.mod_1_r, Z.div_1_r. reflexivity.
Qed.

Lemma round_half_even_whole (x : Q) (z : Z) :
  x == inject_Z z -> Py.round_half_even x = z.
Proof.
  intros E. rewrite (round_half_even_Qeq _ _ E).
  apply round_half_even_inject.
Qed.

(** A number less than a half away from an integer rounds to it. *)
Lemma round_half_even_near (x : Q) (z : Z) :
  inject_Z z - (1 # 2) < x -> x < inject_Z z + (1 # 2) ->
  Py.round_half_even x = z.
Proof.
  intros Hlo Hhi. pose proof (round_half_even_half x) as [Rlo Rhi].
  set (R := Py.round_half_even x) in *.
  assert (A : inject_Z R < inject_Z (z + 1))
    by (rewrite inject_Z_plus; change (inject_Z 1) with 1; lra).
  assert (B : inject_Z z < inject_Z (R + 1))
    by (rewrite inject_Z_plus; change (inject_Z 1) with 1; lra).
  rewrite <- Zlt_Qlt in A, B. lia.
Qed.


Lemma binade_min (a : Q) : (-1074 <= Py.binade a)%Z.
Proof. unfold Py.binade. lia. Qed.

(** The scaled value of a positive number is below [2 ^ 53], and at least
    [2 ^ 52] unless the number is subnormal. *)
Lemma scaled_upper (a : Q) :
  0 < a -> a / 2 ^ Py.binade a < 2 ^ 53.
Proof.
  intros Ha. destruct (ilog2_spec a Ha) as [_ H].
  apply Qlt_shift_div_r; [apply pow2_pos|].
  eapply Qlt_le_trans; [exact H|].
  rewrite <- pow2_add. apply pow2_le. unfold Py.binade. lia.
Qed.

Lemma scaled_lower (a : Q) :
  0 < a -> (-1074 < Py.binade a)%Z -> 2 ^ 52 <= a / 2 ^ Py.binade a.
Proof.
  intros Ha Hb. destruct (ilog2_spec a Ha) as [H _].
  apply Qle_shift_div_l; [apply pow2_pos|].
  eapply Qle_trans; [|exact H].
  rewrite <- pow2_add. apply pow2_le. unfold Py.binade in *. lia.
Qed.



Lemma rnd_pos_unfold (a : Q) :
  Py.rnd_pos a = if Qle_bool Py.infinity (unbounded a) then Py.infinity else unbounded a.
Proof. reflexivity. Qed.

Lemma mantissa_upper (a : Q) : 0 < a -> (mantissa a <= 2 ^ 53)%Z.
Proof.
  intros Ha. unfold mantissa.
  rewrite <- (round_half_even_inject (2 ^ 53)).
  apply round_half_even_monotone. apply Qlt_le_weak.
  eapply Qlt_le_trans; [apply (scaled_upper a Ha)|].
  rewrite pow2_inject by lia. apply Qle_refl.
Qed.

Lemma mantissa_lower (a : Q) :
  0 < a -> (-1074 < Py.binade a)%Z -> (2 ^ 52 <= mantissa a)%Z.
Proof.
  intros Ha Hb. unfold mantissa.
  rewrite <- (round_half_even_inject (2 ^ 52)).
  apply round_half_even_monotone.
  rewrite pow2_inject by lia. now apply scaled_lower.
Qed.

Lemma mantissa_nonneg (a : Q) : 0 <= a -> (0 <= mantissa a)%Z.
Proof.
  intros Ha. unfold mantissa.
  rewrite <- (round_half_even_inject 0).
  apply round_half_even_monotone.
  apply Qle_shift_div_l; [apply pow2_pos|]. now rewrite Qmult_0_l.
Qed.

Lemma unbounded_monotone (a b : Q) :
  0 < a -> a <= b -> unbounded a <= unbounded b.
Proof.
  intros Ha Hab.
  assert (Hb : 0 < b) by (eapply Qlt_le_trans; eassumption).
  pose proof (binade_monotone a b Ha Hab) as He.
  unfold unbounded.
  destruct (Z_le_lt_eq_dec _ _ He) as [Hlt|Heq].
  - (* the Py.binade of [b] is higher *)
    pose proof (mantissa_upper a Ha) as Ma.
    assert (Hbn : (-1074 < Py.binade b)%Z) by (pose proof (binade_min a); lia).
    pose proof (mantissa_lower b Hb Hbn) as Mb.
    apply Qle_trans with (2 ^ 53 * 2 ^ Py.binade a).
    + apply Qmult_le_compat_r; [|apply Qlt_le_weak, pow2_pos].
      rewrite <- pow2_inject by lia. rewrite <- Zle_Qle. exact Ma.
    + apply Qle_trans with (2 ^ 52 * 2 ^ Py.binade b).
      * rewrite <- !pow2_add. apply pow2_le. lia.
      * apply Qmult_le_compat_r; [|apply Qlt_le_weak, pow2_pos].
        rewrite <- pow2_inject by lia. rewrite <- Zle_Qle. exact Mb.
  - unfold mantissa. rewrite Heq.
    apply Qmult_le_compat_r; [|apply Qlt_le_weak, pow2_pos].
    rewrite <- Zle_Qle. apply round_half_even_monotone.
    apply Qmult_le_compat_r; [exact Hab|].
    apply Qlt_le_weak, Qinv_lt_0_compat, pow2_pos.
Qed.

Lemma unbounded_zero (a : Q) : a == 0 -> unbounded a == 0.
Proof.
  intros E. unfold unbounded, mantissa.
  assert (H : a / 2 ^ Py.binade a == inject_Z 0).
  { generalize (Py.binade a). intros e. rewrite E. unfold Qdiv.
    now rewrite Qmult_0_l. }
  rewrite (round_half_even_whole _ 0 H). now rewrite Qmult_0_l.
Qed.

Lemma unbounded_nonneg (a : Q) : 0 <= a -> 0 <= unbounded a.
Proof.
  intros Ha. unfold unbounded.
  apply Qmult_le_0_compat; [|apply Qlt_le_weak, pow2_pos].
  change 0 with (inject_Z 0). rewrite <- Zle_Qle. now apply mantissa_nonneg.
Qed.

Lemma rnd_pos_nonneg (a : Q) : 0 <= a -> 0 <= Py.rnd_pos a.
Proof.
  intros Ha. rewrite rnd_pos_unfold.
  destruct (Qle_bool Py.infinity (unbounded a)).
  - apply Qlt_le_weak, pow2_pos.
  - now apply unbounded_nonneg.
Qed.

Lemma rnd_pos_monotone (a b : Q) :
  0 <= a -> a <= b -> Py.rnd_pos a <= Py.rnd_pos b.
Proof.
  intros Ha Hab.
  assert (H : unbounded a <= unbounded b).
  { destruct (Qlt_le_dec 0 a) as [Hpos|Hz].
    - now apply unbounded_monotone.
    - assert (E : a == 0) by (apply Qle_antisym; assumption).
      rewrite (unbounded_zero a E). apply unbounded_nonneg.
      eapply Qle_trans; eassumption. }
  rewrite !rnd_pos_unfold.
  destruct (Qle_bool Py.infinity (unbounded a)) eqn:Ea;
    destruct (Qle_bool Py.infinity (unbounded b)) eqn:Eb.
  - apply Qle_refl.
  - apply Qle_bool_iff in Ea.
    assert (C : Qle_bool Py.infinity (unbounded b) = true)
      by (apply Qle_bool_iff; eapply Qle_trans; eassumption).
    congruence.
  - apply Qlt_le_weak, Qnot_le_lt. intros C. apply Qle_bool_iff in C.
    congruence.
  - exact H.
Qed.

Lemma rnd_pos_zero (a : Q) : a == 0 -> Py.rnd_pos a == 0.
Proof.
  intros E. rewrite rnd_pos_unfold.
  destruct (Qle_bool Py.infinity (unbounded a)) eqn:C.
  - apply Qle_bool_iff in C. rewrite (unbounded_zero a E) in C.
    exfalso. revert C. apply Qlt_not_le. apply pow2_pos.
  - now apply unbounded_zero.
Qed.

Lemma rnd_unfold (x : Q) :
  Py.rnd x == if Qle_bool 0 x then Py.rnd_pos x else - Py.rnd_pos (- x).
Proof. unfold Py.rnd. apply Qred_correct. Qed.

(** Rounding keeps the order. *)
Lemma rnd_monotone (x y : Q) : x <= y -> Py.rnd x <= Py.rnd y.
Proof.
  intros H. rewrite !rnd_unfold.
  destruct (Qle_bool 0 x) eqn:Ex; destruct (Qle_bool 0 y) eqn:Ey.
  - apply Qle_bool_iff in Ex. now apply rnd_pos_monotone.
  - apply Qle_bool_iff in Ex.
    assert (C : Qle_bool 0 y = true)
      by (apply Qle_bool_iff; eapply Qle_trans; eassumption).
    congruence.
  - apply Qle_bool_iff in Ey.
    assert (Hx : 0 <= - x).
    { apply Qnot_lt_le. intros C.
      assert (A : 0 <= x) by lra. apply Qle_bool_iff in A. congruence. }
    pose proof (rnd_pos_nonneg (- x) Hx). pose proof (rnd_pos_nonneg y Ey).
    lra.
  - assert (Hy : 0 <= - y).
    { apply Qnot_lt_le. intros C.
      assert (A : 0 <= y) by lra. apply Qle_bool_iff in A. congruence. }
    assert (Hyx : - y <= - x) by lra.
    pose proof (rnd_pos_monotone (- y) (- x) Hy Hyx). lra.
Qed.

Lemma rnd_Qeq (x y : Q) : x == y -> Py.rnd x = Py.rnd y.
Proof.
  intros E.
  assert (H : Py.rnd x == Py.rnd y)
    by (apply Qle_antisym; apply rnd_monotone; rewrite E; apply Qle_refl).
  unfold Py.rnd in *. apply Qred_complete.
  rewrite !Qred_correct in H. exact H.
Qed.

Lemma rnd_nonneg (x : Q) : 0 <= x -> 0 <= Py.rnd x.
Proof.
  intros H. rewrite rnd_unfold.
  assert (E : Qle_bool 0 x = true) by now apply Qle_bool_iff.
  rewrite E. now apply rnd_pos_nonneg.
Qed.

Lemma Qred_whole (z : Z) : Qred (inject_Z z) = inject_Z z.
Proof.
  unfold Qred, inject_Z.
  pose proof (Z.ggcd_gcd z 1) as G.
  pose proof (Z.ggcd_correct_divisors z 1) as D.
  destruct (Z.ggcd z 1) as [g [aa bb]]. simpl in G.
  rewrite Z.gcd_1_r in G. subst g. destruct D as [Da Db].
  rewrite Z.mul_1_l in Da, Db. subst aa bb. reflexivity.
Qed.

Lemma ilog2_below (a : Q) (k : Z) : 0 < a -> a < 2 ^ k -> (Py.ilog2 a < k)%Z.
Proof.
  intros Ha H. destruct (ilog2_spec a Ha) as [L _].
  apply pow2_lt_inv. eapply Qle_lt_trans; eassumption.
Qed.

Lemma ilog2_above (a : Q) (k : Z) : 2 ^ k <= a -> (k <= Py.ilog2 a)%Z.
Proof.
  intros H.
  assert (Ha : 0 < a) by (eapply Qlt_le_trans; [apply pow2_pos|exact H]).
  destruct (ilog2_spec a Ha) as [_ U].
  assert (A : (k < Py.ilog2 a + 1)%Z)
    by (apply pow2_lt_inv; eapply Qle_lt_trans; eassumption).
  lia.
Qed.

Lemma unbounded_upper (a : Q) :
  0 < a -> unbounded a <= 2 ^ (Py.binade a + 53).
Proof.
  intros Ha. unfold unbounded.
  rewrite Z.add_comm, pow2_add.
  apply Qmult_le_compat_r; [|apply Qlt_le_weak, pow2_pos].
  rewrite <- pow2_inject by lia. rewrite <- Zle_Qle.
  now apply mantissa_upper.
Qed.

(** Below the overflow threshold nothing is capped. *)
Lemma rnd_pos_small (a : Q) :
  0 <= a -> a < Py.infinity -> Py.rnd_pos a == unbounded a.
Proof.
  intros Ha Hinf. rewrite rnd_pos_unfold.
  destruct (Qle_bool Py.infinity (unbounded a)) eqn:C; [|reflexivity].
  apply Qle_bool_iff in C. apply Qle_antisym; [exact C|].
  destruct (Qlt_le_dec 0 a) as [Hpos|Hz].
  - eapply Qle_trans; [apply (unbounded_upper a Hpos)|].
    unfold Py.infinity. apply pow2_le.
    pose proof (ilog2_below a 1024 Hpos Hinf). unfold Py.binade. lia.
  - assert (E : a == 0) by (apply Qle_antisym; assumption).
    rewrite (unbounded_zero a E). apply Qlt_le_weak, pow2_pos.
Qed.

(** A multiple of a power of two not finer than the binade is kept. *)
Lemma rnd_pos_grid (a : Q) (m k : Z) :
  0 < a -> a < Py.infinity ->
  a == inject_Z m * 2 ^ k -> (Py.binade a <= k)%Z ->
  Py.rnd_pos a == a.
Proof.
  intros Ha Hinf E Hk.
  rewrite (rnd_pos_small a (Qlt_le_weak _ _ Ha) Hinf).
  unfold unbounded, mantissa.
  set (e := Py.binade a) in *.
  assert (Ek : 2 ^ k == inject_Z (2 ^ (k - e)) * 2 ^ e).
  { rewrite pow2_inject by lia. rewrite <- pow2_add. 
    replace (k - e + e)%Z with k by lia. reflexivity. }
  assert (H : a / 2 ^ e == inject_Z (m * 2 ^ (k - e))).
  { rewrite inject_Z_mult. apply Qmult_inj_r with (z := 2 ^ e).
    - intros C. pose proof (pow2_pos e) as P. rewrite C in P.
      exact (Qlt_irrefl 0 P).
    - unfold Qdiv. rewrite <- Qmult_assoc.
      rewrite (Qmult_comm (/ 2 ^ e)), Qmult_inv_r, Qmult_1_r.
      + rewrite E, Ek. ring.
      + intros C. pose proof (pow2_pos e) as P. rewrite C in P.
        exact (Qlt_irrefl 0 P). }
  rewrite (round_half_even_whole _ _ H).
  rewrite inject_Z_mult, E, Ek. ring.
Qed.

Lemma rnd_pos_whole (z : Z) :
  (0 <= z <= 2 ^ 53)%Z -> Py.rnd_pos (inject_Z z) == inject_Z z.
Proof.
  intros [Hlo Hhi].
  destruct (Z_le_lt_eq_dec 0 z Hlo) as [Hpos|<-]; [|now apply rnd_pos_zero].
  assert (Ha : 0 < inject_Z z) by (change 0 with (inject_Z 0); now rewrite <- Zlt_Qlt).
  assert (Hq : inject_Z z <= 2 ^ 53)
    by (rewrite <- pow2_inject by lia; now rewrite <- Zle_Qle).
  assert (Hinf : inject_Z z < Py.infinity).
  { eapply Qle_lt_trans; [exact Hq|]. unfold Py.infinity. now apply pow2_lt. }
  assert (HL : (Py.ilog2 (inject_Z z) < 54)%Z).
  { apply ilog2_below; [exact Ha|].
    eapply Qle_lt_trans; [exact Hq|]. now apply pow2_lt. }
  destruct (Z_le_gt_dec (Py.binade (inject_Z z)) 0) as [Hb|Hb].
  - apply (rnd_pos_grid _ z 0 Ha Hinf); [|exact Hb].
    change (2 ^ 0) with 1. ring.
  - assert (E53 : z = (2 ^ 53)%Z).
    { apply Z.le_antisymm; [exact Hhi|].
      destruct (ilog2_spec _ Ha) as [L _].
      assert (L53 : 2 ^ 53 <= inject_Z z).
      { eapply Qle_trans; [|exact L]. apply pow2_le.
        unfold Py.binade in Hb. lia. }
      rewrite <- pow2_inject in L53 by lia. now rewrite <- Zle_Qle in L53. }
    apply (rnd_pos_grid _ (2 ^ 52) 1 Ha Hinf).
    + rewrite E53. rewrite !pow2_inject by lia. rewrite <- pow2_add.
      reflexivity.
    + unfold Py.binade in *. lia.
Qed.

(** An integer of at most 53 bits is a float. *)
Lemma rnd_whole (z : Z) :
  (Z.abs z <= 2 ^ 53)%Z -> Py.rnd (inject_Z z) = inject_Z z.
Proof.
  intros Hz. rewrite <- (Qred_whole z) at 2. unfold Py.rnd.
  apply Qred_complete.
  destruct (Qle_bool 0 (inject_Z z)) eqn:E.
  - apply Qle_bool_iff in E. change 0 with (inject_Z 0) in E.
    rewrite <- Zle_Qle in E. apply rnd_pos_whole. lia.
  - assert (Hneg : (z < 0)%Z).
    { destruct (Z_lt_le_dec z 0) as [H|H]; [exact H|].
      assert (C : Qle_bool 0 (inject_Z z) = true).
      { apply Qle_bool_iff. change 0 with (inject_Z 0).
        now rewrite <- Zle_Qle. }
      congruence. }
    rewrite <- inject_Z_opp. rewrite rnd_pos_whole by lia.
    rewrite inject_Z_opp. ring.
Qed.

(** The error of the rounding is at most half a unit of the binade. *)
Lemma unbounded_error (a : Q) :
  a - 2 ^ (Py.binade a - 1) <= unbounded a
  /\ unbounded a <= a + 2 ^ (Py.binade a - 1).
Proof.
  unfold unbounded, mantissa. set (e := Py.binade a).
  pose proof (round_half_even_half (a / 2 ^ e)) as [Hlo Hhi].
  set (m := inject_Z (Py.round_half_even (a / 2 ^ e))) in *.
  pose proof (pow2_pos e) as P.
  assert (Eh : 2 ^ (e - 1) == 2 ^ e * (1 # 2)).
  { unfold Z.sub. rewrite pow2_add. reflexivity. }
  assert (Ea : a == a / 2 ^ e * 2 ^ e) by (field; lra).
  rewrite Eh. split.
  - rewrite Ea at 1.
    setoid_replace (a / 2 ^ e * 2 ^ e - 2 ^ e * (1 # 2))
      with ((a / 2 ^ e - (1 # 2)) * 2 ^ e) by ring.
    apply Qmult_le_compat_r; lra.
  - rewrite Ea at 1.
    setoid_replace (a / 2 ^ e * 2 ^ e + 2 ^ e * (1 # 2))
      with ((a / 2 ^ e + (1 # 2)) * 2 ^ e) by ring.
    apply Qmult_le_compat_r; lra.
Qed.

(** In the normal range half a unit of the binade is at most [2 ^ -53]
    times the number. *)
Lemma normal_half_unit (a : Q) :
  2 ^ (-1022) <= a -> 2 ^ (Py.binade a - 1) <= a * 2 ^ (-53).
Proof.
  intros H.
  assert (Ha : 0 < a) by (eapply Qlt_le_trans; [apply pow2_pos|exact H]).
  pose proof (ilog2_above a _ H) as HL.
  destruct (ilog2_spec a Ha) as [L _].
  assert (Eb : Py.binade a = (Py.ilog2 a - 52)%Z) by (unfold Py.binade; lia).
  rewrite Eb.
  replace (Py.ilog2 a - 52 - 1)%Z with (Py.ilog2 a + -53)%Z by lia.
  rewrite pow2_add.
  apply Qmult_le_compat_r; [exact L|apply Qlt_le_weak, pow2_pos].
Qed.

Lemma rnd_of_nonneg (x : Q) : 0 <= x -> Py.rnd x == Py.rnd_pos x.
Proof.
  intros H. rewrite rnd_unfold.
  apply Qle_bool_iff in H. now rewrite H.
Qed.

(** The relative error of a rounding in the normal range. *)
Lemma rnd_relative_error (a : Q) :
  2 ^ (-1022) <= a -> a < Py.infinity ->
  a * (1 - 2 ^ (-53)) <= Py.rnd a /\ Py.rnd a <= a * (1 + 2 ^ (-53)).
Proof.
  intros H Hinf.
  assert (Ha : 0 < a) by (eapply Qlt_le_trans; [apply pow2_pos|exact H]).
  rewrite (rnd_of_nonneg a (Qlt_le_weak _ _ Ha)).
  rewrite (rnd_pos_small a (Qlt_le_weak _ _ Ha) Hinf).
  pose proof (unbounded_error a) as [Hlo Hhi].
  pose proof (normal_half_unit a H) as Hu.
  split; lra.
Qed.

Lemma rnd_infinity : Py.rnd Py.infinity == Py.infinity.
Proof. vm_compute. reflexivity. Qed.

(** A number that rounds to a finite float is below the threshold. *)
Lemma finite_rnd_below (a : Q) :
  0 <= a -> Py.is_finite (Py.rnd a) = true -> a < Py.infinity.
Proof.
  intros Ha Hf. apply Qnot_le_lt. intros C.
  pose proof (rnd_monotone _ _ C) as M. rewrite rnd_infinity in M.
  unfold Py.is_finite in Hf. apply negb_true_iff in Hf.
  assert (T : Qle_bool Py.infinity (Qabs (Py.rnd a)) = true).
  { apply Qle_bool_iff. rewrite Qabs_pos; [exact M|].
    now apply rnd_nonneg. }
  congruence.
Qed.

End Binary64.

(** ** The loop over pairs of lines *)

Section PairLoopFacts.

Variable A : Type.
Variable scan : string -> string -> list A.

(** The loop started at index [length pre], with what is left of the lines
    after [pre], appends what the pairs of [rest] give. *)
Lemma pair_loop_from (n : nat) :
  forall (rest pre : list string) (acc : list A) (fuel : nat),
    (List.length rest <= n)%nat ->
    (List.length rest <= fuel)%nat ->
    fold_left (loop_body scan (pre ++ rest))
      (Py.range_from fuel (List.length pre) (List.length (pre ++ rest)) 2) acc
    = acc ++ scan_pairs scan rest.
Proof.
  induction n as [|n IH]; intros rest pre acc fuel Hn Hfuel.
  - destruct rest; [|simpl in Hn; lia].
    rewrite app_nil_r. destruct fuel; simpl.
    + now rewrite app_nil_r.
    + rewrite Nat.ltb_irrefl. simpl. now rewrite app_nil_r.
  - destruct rest as [|a [|b rest]].
    + rewrite app_nil_r. destruct fuel; simpl.
      * now rewrite app_nil_r.
      * rewrite Nat.ltb_irrefl. simpl. now rewrite app_nil_r.
    + destruct fuel as [|fuel]; [simpl in Hfuel; lia|].
      assert (Hlen : List.length (pre ++ [a]) = (List.length pre + 1)%nat)
        by (rewrite length_app; reflexivity).
      simpl Py.range_from. rewrite Hlen.
      replace (List.length pre <? List.length pre + 1)%nat with true
        by (symmetry; apply Nat.ltb_lt; lia).
      assert (Hstop : Py.range_from fuel (List.length pre + 2)
                        (List.length pre + 1) 2 = []).
      { destruct fuel; simpl; [reflexivity|].
        replace (List.length pre + 2 <? List.length pre + 1)%nat with false
          by (symmetry; apply Nat.ltb_ge; lia).
        reflexivity. }
      rewrite Hstop. simpl. unfold loop_body. rewrite Hlen.
      rewrite Nat.ltb_irrefl. now rewrite app_nil_r.
    + destruct fuel as [|fuel]; [simpl in Hfuel; lia|].
      assert (Hlen : List.length (pre ++ a :: b :: rest)
                     = (List.length pre + 2 + List.length rest)%nat)
        by (rewrite length_app; simpl; lia).
      simpl Py.range_from.
      replace (List.length pre <? List.length (pre ++ a :: b :: rest))%nat
        with true by (symmetry; apply Nat.ltb_lt; lia).
      simpl fold_left.
      assert (Hbody : loop_body scan (pre ++ a :: b :: rest) acc
                        (List.length pre) = acc ++ scan a b).
      { unfold loop_body.
        replace (List.length pre + 1 <? List.length (pre ++ a :: b :: rest))%nat
          with true by (symmetry; apply Nat.ltb_lt; lia).
        rewrite nth_middle.
        replace (pre ++ a :: b :: rest) with ((pre ++ [a]) ++ b :: rest)
          by (rewrite <- app_assoc; reflexivity).
        replace (List.length pre + 1)%nat with (List.length (pre ++ [a]))
          by (rewrite length_app; reflexivity).
        rewrite nth_middle. reflexivity. }
      rewrite Hbody.
      replace (pre ++ a :: b :: rest) with ((pre ++ [a; b]) ++ rest)
        by (rewrite <- app_assoc; reflexivity).
      replace (List.length pre + 2)%nat with (List.length (pre ++ [a; b]))
        by (rewrite length_app; reflexivity).
      rewrite IH by (simpl in *; lia).
      simpl. now rewrite app_assoc.
Qed.

(** The loop by indices computes the reading by pairs. *)
Lemma pair_loop_scan_pairs (lines : list string) :
  pair_loop scan lines = scan_pairs scan lines.
Proof.
  unfold pair_loop, Py.range.
  exact (pair_loop_from (List.length lines) lines [] []
           (List.length lines) (le_n _) (le_n _)).
Qed.

End PairLoopFacts.

(** ** The Scene Event Parser *)

Lemma lstrip_all_space (s : string) :
  all_space s = true -> Py.lstrip s = EmptyString.
Proof.
  induction s as [|c s IH]; simpl; [reflexivity|].
  intros H. apply andb_prop in H as [Hc Hs]. rewrite Hc. auto.
Qed.

Lemma strip_all_space (s : string) :
  all_space s = true -> Py.strip s = EmptyString.
Proof.
  intros H. unfold Py.strip. now rewrite lstrip_all_space.
Qed.

(** C7. On a log text that is empty or made of white space only the parser
    of [scene_selection.detect_scene_changes] gives the empty list of
    events, and the function returns it rather than raising. *)
Theorem blank_log_gives_no_event (content : string) :
  all_space content = true ->
  SceneSelection.parse_scene_log content = []
  /\ SceneSelection.detect_scene_changes (Ok content) = Ok [].
Proof.
  intros H.
  assert (Hp : SceneSelection.parse_scene_log content = []).
  { unfold SceneSelection.parse_scene_log. rewrite strip_all_space by exact H.
    reflexivity. }
  split; [exact Hp|].
  unfold SceneSelection.detect_scene_changes. simpl. now rewrite Hp.
Qed.

Lemma blank_log_gives_no_event_witness :
  all_space (String " " (String Py.newline (String "009" EmptyString))) = true
  /\ SceneSelection.parse_scene_log
       (String " " (String Py.newline (String "009" EmptyString))) = []
  /\ all_space EmptyString = true
  /\ SceneSelection.detect_scene_changes (Ok EmptyString) = Ok [].
Proof.
  split; [reflexivity|]. split.
  - apply (blank_log_gives_no_event
             (String " " (String Py.newline (String "009" EmptyString)))).
    reflexivity.
  - split; [reflexivity|].
    apply (blank_log_gives_no_event EmptyString). reflexivity.
Defined.

(** The same holds of the parser of [FFmpegVideoProcessor]. *)
Lemma blank_log_gives_no_scene_change (content : string) :
  all_space content = true ->
  VideoProcessor.parse_scene_log content = [].
Proof.
  intros H. unfold VideoProcessor.parse_scene_log.
  rewrite strip_all_space by exact H. reflexivity.
Qed.

Lemma selection_scan_pair_length (frame_line score_line : string) :
  List.length (SceneSelection.scan_pair frame_line score_line)
  = if has_pts_time frame_line && has_scene_score score_line
    then 1%nat else 0%nat.
Proof.
  unfold SceneSelection.scan_pair, has_pts_time, has_scene_score.
  destruct (Py.re_search "pts_time:" Py.match_decimal frame_line);
    destruct (Py.re_search "scene_score=" Py.match_decimal score_line);
    reflexivity.
Qed.

Lemma processor_scan_pair_length (frame_line score_line : string) :
  List.length (VideoProcessor.scan_pair frame_line score_line)
  = if has_pts_time frame_line && has_frame_number frame_line
       && has_scene_score score_line
    then 1%nat else 0%nat.
Proof.
  unfold VideoProcessor.scan_pair, has_pts_time, has_frame_number,
    has_scene_score.
  destruct (Py.re_search "pts_time:" Py.match_decimal frame_line);
    destruct (Py.re_search "frame:" Py.match_digits frame_line);
    destruct (Py.re_search "scene_score=" Py.match_decimal score_line);
    reflexivity.
Qed.

(** C4, as the claim states it, fails on [FFmpegVideoProcessor]: the two
    lines of [log_without_frame_number] hold a [pts_time] and a
    [scene_score] field, the parser of [scene_selection] emits the event
    (at 1.5 s, with the float of 0.42 as score), that of [video_processor]
    emits nothing. *)
Lemma processor_requires_frame_number :
  log_lines log_without_frame_number
  = ["pts:1500 pts_time:1.5"; "lavfi.scene_score=0.420000"]
  /\ has_pts_time "pts:1500 pts_time:1.5" = true
  /\ has_scene_score "lavfi.scene_score=0.420000" = true
  /\ SceneSelection.parse_scene_log log_without_frame_number
     = [ {| SceneSelection.timestamp := 3 # 2;
            SceneSelection.scene_score :=
              7566047373982433 # 18014398509481984 |} ]
  /\ VideoProcessor.parse_scene_log log_without_frame_number = [].
Proof. repeat split; vm_compute; reflexivity. Qed.

(** C4, amended. Both parsers read the lines of the stripped text two by
    two, a last line without a partner apart, and a pair that gives nothing
    does not stop the pairs after it.  For [scene_selection] a pair gives
    one event when its first line holds [pts_time] and its second
    [scene_score], and nothing otherwise: the frame number plays no part.
    For [FFmpegVideoProcessor] the first line must hold the [frame:] field
    as well. *)
Theorem parsers_read_pairs (content : string) :
  SceneSelection.parse_scene_log content
  = scan_pairs SceneSelection.scan_pair (log_lines content)
  /\ VideoProcessor.parse_scene_log content
     = scan_pairs VideoProcessor.scan_pair (log_lines content)
  /\ (forall frame_line score_line,
        List.length (SceneSelection.scan_pair frame_line score_line)
        = if has_pts_time frame_line && has_scene_score score_line
          then 1%nat else 0%nat)
  /\ (forall frame_line score_line,
        List.length (VideoProcessor.scan_pair frame_line score_line)
        = if has_pts_time frame_line && has_frame_number frame_line
             && has_scene_score score_line
          then 1%nat else 0%nat).
Proof.
  split; [apply pair_loop_scan_pairs|].
  split; [apply pair_loop_scan_pairs|].
  split; [exact selection_scan_pair_length|exact processor_scan_pair_length].
Qed.

(** ** The Timeline Merger *)

Section Merger.

Import SceneSelection.

Lemma last_cons_default {A : Type} (l : list A) (x d : A) :
  last (x :: l) d = last l x.
Proof.
  revert x d. induction l as [|y l IH]; intros x d; [reflexivity|].
  change (last (x :: y :: l) d) with (last (y :: l) d).
  rewrite IH. symmetry. apply IH.
Qed.

Lemma later_events_filtered_out (t : Q) (sc : scene) (rest : list scene) :
  Forall (by_timestamp sc) rest ->
  at_or_before t sc = false ->
  filter (at_or_before t) rest = [].
Proof.
  intros Hall Hsc. induction Hall as [|x rest Hx Hall IH]; [reflexivity|].
  simpl. rewrite IH.
  assert (Hf : at_or_before t x = false).
  { unfold at_or_before in *. destruct (Qle_bool (timestamp x) t) eqn:E;
      [|reflexivity].
    apply Qle_bool_iff in E.
    assert (Hle : (timestamp sc <= t)%Q) by (eapply Qle_trans; eassumption).
    apply Qle_bool_iff in Hle. congruence. }
  now rewrite Hf.
Qed.

(** The inner loop on a sequence sorted by timestamp: the break loses no
    event at or before the frame. *)
Lemma scan_scenes_sorted (t : Q) (scene_changes : list scene) :
  StronglySorted by_timestamp scene_changes ->
  forall (n : Z) (s : Q),
    scan_scenes t scene_changes n s
    = ((n + Z.of_nat (List.length (filter (at_or_before t) scene_changes)))%Z,
       last (map scene_score (filter (at_or_before t) scene_changes)) s).
Proof.
  induction 1 as [|sc rest Hrest IH Hall]; intros n s.
  - simpl. now rewrite Z.add_0_r.
  - simpl. fold (at_or_before t sc).
    destruct (at_or_before t sc) eqn:E.
    + rewrite IH. cbn [List.length map].
      rewrite last_cons_default. f_equal. lia.
    + rewrite (later_events_filtered_out t sc rest Hall E). simpl.
      now rewrite Z.add_0_r.
Qed.

Lemma by_timestamp_transitive :
  Relations_1.Transitive by_timestamp.
Proof.
  intros a b c Hab Hbc. unfold by_timestamp in *.
  eapply Qle_trans; eassumption.
Qed.

Lemma scan_scenes_lower_bound (t : Q) (scene_changes : list scene) :
  forall (n : Z) (s : Q), (n <= fst (scan_scenes t scene_changes n s))%Z.
Proof.
  induction scene_changes as [|sc rest IH]; intros n s; simpl; [lia|].
  destruct (Qle_bool (timestamp sc) t); simpl; [|lia].
  specialize (IH (n + 1)%Z (scene_score sc)). lia.
Qed.

(** A later frame time never gives a smaller scene number, whatever the
    order of the events. *)
Lemma scan_scenes_monotone (t t' : Q) (scene_changes : list scene) :
  (t <= t')%Q ->
  forall (n : Z) (s s' : Q),
    (fst (scan_scenes t scene_changes n s)
     <= fst (scan_scenes t' scene_changes n s'))%Z.
Proof.
  intros Ht. induction scene_changes as [|sc rest IH]; intros n s s'; simpl;
    [lia|].
  destruct (Qle_bool (timestamp sc) t) eqn:E.
  - apply Qle_bool_iff in E.
    assert (E' : Qle_bool (timestamp sc) t' = true)
      by (apply Qle_bool_iff; eapply Qle_trans; eassumption).
    rewrite E'. apply IH.
  - simpl. destruct (Qle_bool (timestamp sc) t'); simpl; [|lia].
    pose proof (scan_scenes_lower_bound t' rest (n + 1) (scene_score sc)).
    lia.
Qed.

Lemma annotate_scene_number (scene_changes : list scene) (fr : frame_row) :
  Scene_Number (annotate scene_changes fr)
  = fst (scan_scenes (Time_seconds fr) scene_changes 1 0).
Proof.
  unfold annotate.
  destruct (scan_scenes (Time_seconds fr) scene_changes 1 0); reflexivity.
Qed.

Lemma annotate_scene_score (scene_changes : list scene) (fr : frame_row) :
  Scene_Score (annotate scene_changes fr)
  = snd (scan_scenes (Time_seconds fr) scene_changes 1 0).
Proof.
  unfold annotate.
  destruct (scan_scenes (Time_seconds fr) scene_changes 1 0); reflexivity.
Qed.

Lemma annotate_frame (scene_changes : list scene) (fr : frame_row) :
  frame (annotate scene_changes fr) = fr.
Proof.
  unfold annotate.
  destruct (scan_scenes (Time_seconds fr) scene_changes 1 0); reflexivity.
Qed.

Lemma sorted_neighbours {A : Type} (R : A -> A -> Prop) (l : list A) :
  Sorted R l ->
  forall (i : nat) (a b : A),
    nth_error l i = Some a -> nth_error l (S i) = Some b -> R a b.
Proof.
  induction 1 as [|x l Hl IH Hhd]; intros i a b Ha Hb.
  - destruct i; discriminate.
  - destruct i as [|i].
    + simpl in Ha. injection Ha as <-.
      destruct l as [|y l]; [discriminate|].
      simpl in Hb. injection Hb as <-. now inversion Hhd.
    + simpl in Ha. change (nth_error l (S i) = Some b) in Hb. eauto.
Qed.

End Merger.

(** C2. For scene events sorted by timestamp, the row the Timeline Merger
    makes of a frame carries scene number 1 + the number of events whose
    timestamp is at most the time of the frame (an event exactly at that time
    counted) and the score of the last of these events, or 0 when there is
    none.  The time of the frame is the [Time (seconds)] entry the loop
    reads. *)
Theorem merger_counts_events_at_or_before
    (frames_data : list SceneSelection.frame_row)
    (scene_changes : list SceneSelection.scene) :
  Sorted by_timestamp scene_changes ->
  forall (i : nat) (fr : SceneSelection.frame_row),
    nth_error frames_data i = Some fr ->
    exists row,
      nth_error
        (SceneSelection.add_scene_information frames_data scene_changes) i
      = Some row
      /\ SceneSelection.frame row = fr
      /\ SceneSelection.Scene_Number row
         = (1 + Z.of_nat
                  (List.length
                     (filter (at_or_before (SceneSelection.Time_seconds fr))
                        scene_changes)))%Z
      /\ SceneSelection.Scene_Score row
         = last (map SceneSelection.scene_score
                   (filter (at_or_before (SceneSelection.Time_seconds fr))
                      scene_changes)) 0.
Proof.
  intros Hsorted i fr Hi.
  apply Sorted_StronglySorted in Hsorted; [|exact by_timestamp_transitive].
  exists (SceneSelection.annotate scene_changes fr).
  split.
  - unfold SceneSelection.add_scene_information.
    rewrite nth_error_map, Hi. reflexivity.
  - split; [apply annotate_frame|].
    rewrite annotate_scene_number, annotate_scene_score.
    rewrite (scan_scenes_sorted _ _ Hsorted). simpl. auto.
Qed.

Lemma merger_counts_events_at_or_before_witness :
  Sorted by_timestamp scenario_A_events
  /\ exists fr row,
       nth_error scenario_A_frames 3 = Some fr
       /\ SceneSelection.Time_seconds fr = 3 # 2
       /\ nth_error
            (SceneSelection.add_scene_information scenario_A_frames
               scenario_A_events) 3 = Some row
       /\ SceneSelection.Scene_Number row = 3%Z
       /\ SceneSelection.Scene_Score row = 42 # 100.
Proof.
  assert (Hs : Sorted by_timestamp scenario_A_events).
  { repeat constructor. unfold by_timestamp, Qle. simpl. lia. }
  split; [exact Hs|].
  destruct (merger_counts_events_at_or_before scenario_A_frames
              scenario_A_events Hs 3 _ eq_refl)
    as [row [Hrow [_ [Hn Hsc]]]].
  eexists. exists row.
  split; [reflexivity|]. split; [reflexivity|].
  split; [exact Hrow|]. split; [exact Hn|exact Hsc].
Defined.

(** C5. When the frames come by non-decreasing time, the scene number of a
    row of the merged table is at least that of the row before it. *)
Theorem scene_number_non_decreasing
    (frames_data : list SceneSelection.frame_row)
    (scene_changes : list SceneSelection.scene) :
  Sorted by_time frames_data ->
  forall (i : nat) (prev row : SceneSelection.table_row),
    nth_error
      (SceneSelection.add_scene_information frames_data scene_changes) i
    = Some prev ->
    nth_error
      (SceneSelection.add_scene_information frames_data scene_changes) (S i)
    = Some row ->
    (SceneSelection.Scene_Number prev <= SceneSelection.Scene_Number row)%Z.
Proof.
  intros Hsorted i prev row Hprev Hrow.
  unfold SceneSelection.add_scene_information in *.
  rewrite nth_error_map in Hprev, Hrow.
  destruct (nth_error frames_data i) as [a|] eqn:Ea; [|discriminate].
  destruct (nth_error frames_data (S i)) as [b|] eqn:Eb; [|discriminate].
  simpl in Hprev, Hrow. injection Hprev as <-. injection Hrow as <-.
  rewrite !annotate_scene_number.
  apply scan_scenes_monotone.
  exact (sorted_neighbours by_time frames_data Hsorted i a b Ea Eb).
Qed.

Lemma scene_number_non_decreasing_witness :
  Sorted by_time scenario_A_frames
  /\ exists prev row,
       nth_error
         (SceneSelection.add_scene_information scenario_A_frames
            scenario_A_events) 2 = Some prev
       /\ nth_error
            (SceneSelection.add_scene_information scenario_A_frames
               scenario_A_events) 3 = Some row
       /\ (SceneSelection.Scene_Number prev
           <= SceneSelection.Scene_Number row)%Z.
Proof.
  assert (Hs : Sorted by_time scenario_A_frames).
  { repeat constructor; vm_compute; discriminate. }
  split; [exact Hs|].
  eexists. eexists.
  split; [reflexivity|]. split; [reflexivity|].
  apply (scene_number_non_decreasing scenario_A_frames scenario_A_events Hs
           2%nat); reflexivity.
Defined.

(** ** The Frame Sampler *)

Section Sampler.

Import SceneSelection.

Lemma make_row_fields (output_dir : string) (i : nat) (f : string) (t : Q)
    (row : frame_row) :
  make_row output_dir i f t = Ok row ->
  format_timestamp t = Ok (Timestamp row)
  /\ Time_seconds row = Py.round2 t
  /\ Frame_Number row = (Z.of_nat i + 1)%Z
  /\ Frame_File row = f
  /\ Frame_Path row = Py.os_path_join output_dir f.
Proof.
  unfold make_row.
  destruct (format_timestamp t) as [label|e]; [|discriminate].
  simpl. intros H. injection H as <-. simpl. auto 6.
Qed.

(** The label of a time can be made exactly when the time is finite. *)
Lemma format_timestamp_finite (t : Q) :
  is_ok (format_timestamp t) = Py.is_finite t.
Proof.
  unfold format_timestamp. destruct (Py.is_finite t); reflexivity.
Qed.

Lemma make_row_finite (output_dir : string) (i : nat) (f : string) (t : Q)
    (row : frame_row) :
  make_row output_dir i f t = Ok row -> Py.is_finite t = true.
Proof.
  intros H. apply make_row_fields in H as [H _].
  rewrite <- format_timestamp_finite, H. reflexivity.
Qed.

Lemma make_row_total (output_dir : string) (i : nat) (f : string) (t : Q) :
  Py.is_finite t = true -> exists row, make_row output_dir i f t = Ok row.
Proof.
  intros H. rewrite <- format_timestamp_finite in H. unfold make_row.
  destruct (format_timestamp t) as [label|e]; [|discriminate].
  simpl. eauto.
Qed.

Lemma make_row_not_finite (output_dir : string) (i : nat) (f : string)
    (t : Q) :
  Py.is_finite t = false ->
  make_row output_dir i f t
  = Raise (ValueError "cannot convert float NaN to integer").
Proof.
  intros H. unfold make_row, format_timestamp. now rewrite H.
Qed.

(** Whatever the rate, a row the loop made is the row of its index. *)
Lemma sample_from_rows (output_dir : string) (fps : Q)
    (frame_files : list string) :
  forall (i : nat) (rows : list frame_row),
    sample_from output_dir fps i frame_files = Ok rows ->
    List.length rows = List.length frame_files
    /\ forall (k : nat) (row : frame_row),
         nth_error rows k = Some row ->
         exists f t,
           nth_error frame_files k = Some f
           /\ frame_timestamp (i + k) fps = Ok t
           /\ make_row output_dir (i + k) f t = Ok row.
Proof.
  induction frame_files as [|f rest IH]; intros i rows H.
  - simpl in H. injection H as <-. split; [reflexivity|].
    intros [|k] row Hk; discriminate.
  - simpl in H.
    destruct (frame_timestamp i fps) as [t|e] eqn:Et; [|discriminate].
    simpl in H.
    destruct (make_row output_dir i f t) as [r|e] eqn:Em; [|discriminate].
    simpl in H.
    destruct (sample_from output_dir fps (S i) rest) as [rows'|e] eqn:Er;
      [|discriminate].
    simpl in H. injection H as <-.
    destruct (IH (S i) rows' Er) as [Hlen Hrows].
    split; [simpl; now rewrite Hlen|].
    intros [|k] row Hk.
    + simpl in Hk. injection Hk as <-. exists f, t.
      rewrite Nat.add_0_r. auto.
    + simpl in Hk. destruct (Hrows k row Hk) as [f' [t' [Hf [Ht Hrow]]]].
      exists f', t'. replace (i + S k)%nat with (S i + k)%nat by lia. auto.
Qed.

Lemma frame_timestamp_ok (i : nat) (fps : Q) :
  Qeq_bool fps 0 = false ->
  frame_timestamp i fps = Ok (timestamp_of i fps).
Proof.
  intros H. unfold frame_timestamp, Py.truediv. now rewrite H.
Qed.

(** At a rate other than 0 at which no timestamp overflows the loop goes
    through. *)
Lemma sample_from_total (output_dir : string) (fps : Q) :
  Qeq_bool fps 0 = false ->
  forall (frame_files : list string) (i : nat),
    (forall k : nat,
       (k < List.length frame_files)%nat ->
       Py.is_finite (timestamp_of (i + k) fps) = true) ->
    exists rows, sample_from output_dir fps i frame_files = Ok rows.
Proof.
  intros Hfps. induction frame_files as [|f rest IH]; intros i Hfin.
  - exists []. reflexivity.
  - destruct (IH (S i)) as [rows Hrows].
    { intros k Hk. replace (S i + k)%nat with (i + S k)%nat by lia.
      apply Hfin. simpl. lia. }
    assert (H0 : Py.is_finite (timestamp_of i fps) = true).
    { rewrite <- (Nat.add_0_r i). apply Hfin. simpl. lia. }
    destruct (make_row_total output_dir i f _ H0) as [row Hrow].
    simpl. rewrite (frame_timestamp_ok i fps Hfps). simpl.
    rewrite Hrow. simpl. rewrite Hrows. simpl. eauto.
Qed.

(** A timestamp that overflows ends the loop with the exception of
    [int]. *)
Lemma sample_from_overflow (output_dir : string) (fps : Q) :
  Qeq_bool fps 0 = false ->
  forall (frame_files : list string) (i k : nat),
    (k < List.length frame_files)%nat ->
    Py.is_finite (timestamp_of (i + k) fps) = false ->
    exists e, sample_from output_dir fps i frame_files = Raise e.
Proof.
  intros Hfps. induction frame_files as [|f rest IH]; intros i k Hk Hinf.
  - simpl in Hk. lia.
  - simpl. rewrite (frame_timestamp_ok i fps Hfps). simpl.
    destruct (make_row output_dir i f (timestamp_of i fps)) as [row|e] eqn:Em;
      simpl; [|eauto].
    destruct k as [|k].
    + rewrite Nat.add_0_r in Hinf.
      rewrite (make_row_not_finite _ _ _ _ Hinf) in Em. discriminate.
    + destruct (IH (S i) k) as [e He].
      * simpl in Hk. lia.
      * replace (S i + k)%nat with (i + S k)%nat by lia. exact Hinf.
      * rewrite He. simpl. eauto.
Qed.

Lemma positive_rate_not_zero (fps : Q) :
  (0 < fps)%Q -> Qeq_bool fps 0 = false.
Proof.
  intros H. destruct (Qeq_bool fps 0) eqn:E; [|reflexivity].
  apply Qeq_bool_iff in E. rewrite E in H.
  exfalso. exact (Qlt_irrefl 0 H).
Qed.

(** At a positive rate the timestamps never decrease. *)
Lemma timestamps_non_decreasing (fps : Q) (i j : nat) :
  (0 < fps)%Q -> (i <= j)%nat ->
  (timestamp_of i fps <= timestamp_of j fps)%Q.
Proof.
  intros Hfps Hij. unfold timestamp_of. apply rnd_monotone.
  unfold Qdiv. apply Qmult_le_compat_r.
  - rewrite <- Zle_Qle. lia.
  - now apply Qlt_le_weak, Qinv_lt_0_compat.
Qed.

Lemma timestamp_of_nonneg (fps : Q) (i : nat) :
  (0 < fps)%Q -> (0 <= timestamp_of i fps)%Q.
Proof.
  intros Hfps. unfold timestamp_of. apply rnd_nonneg.
  unfold Qdiv. apply Qmult_le_0_compat.
  - change 0%Q with (inject_Z 0). rewrite <- Zle_Qle. lia.
  - now apply Qlt_le_weak, Qinv_lt_0_compat.
Qed.

(** If the last timestamp is finite, all are. *)
Lemma timestamps_finite (fps : Q) (i j : nat) :
  (0 < fps)%Q -> (i <= j)%nat ->
  Py.is_finite (timestamp_of j fps) = true ->
  Py.is_finite (timestamp_of i fps) = true.
Proof.
  intros Hfps Hij Hj.
  pose proof (timestamps_non_decreasing fps i j Hfps Hij) as Hle.
  pose proof (timestamp_of_nonneg fps i Hfps) as Hi.
  pose proof (timestamp_of_nonneg fps j Hfps) as Hj0.
  unfold Py.is_finite in *. apply negb_true_iff in Hj.
  apply negb_true_iff.
  destruct (Qle_bool Py.infinity (Qabs (timestamp_of i fps))) eqn:E;
    [|reflexivity].
  apply Qle_bool_iff in E. rewrite Qabs_pos in E by exact Hi.
  assert (C : Qle_bool Py.infinity (Qabs (timestamp_of j fps)) = true).
  { apply Qle_bool_iff. rewrite Qabs_pos by exact Hj0.
    eapply Qle_trans; eassumption. }
  congruence.
Qed.

(** The error of a rounding below the overflow threshold: at most
    [2 ^ -53] times the number, or half the unit of the subnormal
    numbers. *)
Lemma rnd_error (a : Q) :
  (0 <= a)%Q -> (a < Py.infinity)%Q ->
  (a - (a * 2 ^ (-53) + 2 ^ (-1075)) <= Py.rnd a
   /\ Py.rnd a <= a + (a * 2 ^ (-53) + 2 ^ (-1075)))%Q.
Proof.
  intros Ha Hinf.
  pose proof (pow2_pos (-1075)) as P1.
  assert (P2 : (0 <= a * 2 ^ (-53))%Q).
  { apply Qmult_le_0_compat; [exact Ha|]. apply Qlt_le_weak, pow2_pos. }
  destruct (Qlt_le_dec 0 a) as [Hpos|Hz].
  - rewrite (rnd_of_nonneg a Ha), (rnd_pos_small a Ha Hinf).
    pose proof (unbounded_error a) as [Hlo Hhi].
    assert (Hu : (2 ^ (Py.binade a - 1)
                  <= a * 2 ^ (-53) + 2 ^ (-1075))%Q).
    { destruct (Z_le_gt_dec (Py.ilog2 a - 52) (-1074)) as [Hsub|Hnorm].
      - assert (Eb : Py.binade a = (-1074)%Z) by (unfold Py.binade; lia).
        rewrite Eb. change (-1074 - 1)%Z with (-1075)%Z. lra.
      - destruct (ilog2_spec a Hpos) as [L _].
        assert (Eb : Py.binade a = (Py.ilog2 a - 52)%Z)
          by (unfold Py.binade; lia).
        rewrite Eb.
        replace (Py.ilog2 a - 52 - 1)%Z with (Py.ilog2 a + -53)%Z by lia.
        rewrite pow2_add.
        assert (M : (2 ^ Py.ilog2 a * 2 ^ (-53) <= a * 2 ^ (-53))%Q)
          by (apply Qmult_le_compat_r;
              [exact L|apply Qlt_le_weak, pow2_pos]).
        lra. }
    split; lra.
  - assert (E : (a == inject_Z 0)%Q) by (apply Qle_antisym; assumption).
    rewrite (rnd_Qeq a _ E), rnd_whole by (simpl; lia).
    change (inject_Z 0) with 0%Q. split; lra.
Qed.

(** At a positive finite rate, and for at most [2 ^ 51] frames, the
    timestamps that do not overflow increase strictly. *)
Lemma timestamps_increase (fps : Q) (i j : nat) :
  (0 < fps)%Q -> (fps <= 2 ^ 1024)%Q ->
  (i < j)%nat -> (Z.of_nat j <= 2 ^ 51)%Z ->
  Py.is_finite (timestamp_of j fps) = true ->
  (timestamp_of i fps < timestamp_of j fps)%Q.
Proof.
  intros Hfps Hmax Hij Hj Hfin.
  apply Qlt_le_trans with (timestamp_of (S i) fps);
    [|apply timestamps_non_decreasing; [exact Hfps|lia]].
  assert (Hfin' : Py.is_finite (timestamp_of (S i) fps) = true)
    by (apply (timestamps_finite fps (S i) j); [exact Hfps|lia|exact Hfin]).
  set (u := (/ fps)%Q).
  assert (Hu : (2 ^ (-1024) <= u)%Q).
  { unfold u. apply Qle_shift_inv_l; [exact Hfps|].
    apply Qle_trans with (2 ^ (-1024) * 2 ^ 1024)%Q.
    - apply Qmult_le_l; [apply pow2_pos|exact Hmax].
    - rewrite <- pow2_add. apply Qle_refl. }
  assert (Pu : (0 < u)%Q)
    by (eapply Qlt_le_trans; [apply (pow2_pos (-1024))|exact Hu]).
  set (I := inject_Z (Z.of_nat i)).
  assert (HI0 : (0 <= I)%Q).
  { unfold I. change 0%Q with (inject_Z 0). rewrite <- Zle_Qle. lia. }
  assert (HI1 : (I <= 2251799813685247)%Q).
  { unfold I. change 2251799813685247%Q with (inject_Z (2 ^ 51 - 1)).
    rewrite <- Zle_Qle. lia. }
  assert (Ex : (inject_Z (Z.of_nat i) / fps == I * u)%Q) by reflexivity.
  assert (Ey : (inject_Z (Z.of_nat (S i)) / fps == I * u + u)%Q).
  { rewrite Nat2Z.inj_succ. unfold Z.succ. rewrite inject_Z_plus.
    unfold Qdiv. fold u. fold I. change (inject_Z 1) with 1%Q. ring. }
  assert (Hx0 : (0 <= I * u)%Q)
    by (apply Qmult_le_0_compat; [exact HI0|now apply Qlt_le_weak]).
  assert (HX : (I * u <= 2251799813685247 * u)%Q)
    by (apply Qmult_le_compat_r; [exact HI1|now apply Qlt_le_weak]).
  assert (Hy : (I * u + u < Py.infinity)%Q).
  { rewrite <- Ey. apply finite_rnd_below; [|exact Hfin'].
    rewrite Ey. lra. }
  assert (Hx : (I * u < Py.infinity)%Q) by lra.
  unfold timestamp_of.
  rewrite (rnd_Qeq _ _ Ex), (rnd_Qeq _ _ Ey).
  destruct (rnd_error (I * u) Hx0 Hx) as [_ Ux].
  destruct (rnd_error (I * u + u) ltac:(lra) Hy) as [Ly _].
  set (X := (I * u)%Q) in *.
  assert (D : (2 ^ (-1024) == 2251799813685248 * 2 ^ (-1075))%Q).
  { change 2251799813685248%Q with (2 ^ 51)%Q. rewrite <- pow2_add.
    reflexivity. }
  pose proof (pow2_pos (-1075)) as Pd.
  rewrite D in Hu.
  set (delta := (2 ^ (-1075))%Q) in *.
  change (2 ^ (-53))%Q with (1 # 9007199254740992)%Q in Ux, Ly.
  lra.
Qed.

End Sampler.

(** C6, as the claim states it, fails at the rate 0, which is not negative:
    the division of line 57 raises and no frame is produced.  It fails as
    well at a positive rate so small that a timestamp overflows: at the
    rate [2 ^ -1074], the smallest positive float, the timestamp of the
    second frame is infinite, [format_timestamp] raises and no frame is
    produced.  And the time a row carries in [Time (seconds)] is the rounded
    one: at 1000 frames per second the first two rows carry the same. *)
Lemma sampler_raises_at_rate_zero :
  (0 <= 0)%Q
  /\ SceneSelection.frame_sampler "frames" 0 ["frame_0001.jpg"]
     = Raise ZeroDivisionError
  /\ SceneSelection.organize_existing_frames_table world_one_frame "frames" 0
     = SceneSelection.status_error
         (SceneSelection.Exception_text ZeroDivisionError)
  /\ (0 < 2 ^ (-1074))%Q
  /\ is_float (2 ^ (-1074)) = true
  /\ SceneSelection.frame_sampler "frames" (2 ^ (-1074))
       ["frame_0001.jpg"; "frame_0002.jpg"]
     = Raise (ValueError "cannot convert float NaN to integer")
  /\ SceneSelection.organize_existing_frames_table
       (with_listing world_one_frame ["frame_0001.jpg"; "frame_0002.jpg"])
       "frames" (2 ^ (-1074))
     = SceneSelection.status_error
         (SceneSelection.Exception_text
            (ValueError "cannot convert float NaN to integer"))
  /\ exists r0 r1,
       SceneSelection.frame_sampler "frames" 1000
         ["frame_0001.jpg"; "frame_0002.jpg"] = Ok [r0; r1]
       /\ SceneSelection.Time_seconds r0 = SceneSelection.Time_seconds r1.
Proof.
  split; [apply Qle_refl|].
  split; [reflexivity|]. split; [reflexivity|].
  split; [reflexivity|].
  split; [vm_compute; reflexivity|].
  split; [vm_compute; reflexivity|].
  split; [vm_compute; reflexivity|].
  eexists. eexists. split; [vm_compute; reflexivity|reflexivity].
Qed.

(** C6, amended. At a positive rate at which no timestamp overflows the
    Frame Sampler gives one row per frame file.  The row at index [i] (from
    0) carries the file of that index, the frame number [i + 1], the label
    of the timestamp, which is the float [i / fps], and, as
    [Time (seconds)], that timestamp rounded to 2 decimals.  The timestamps
    never decrease with [i]; they increase strictly when the rate is a
    finite float (at most [2 ^ 1024]) and there are at most [2 ^ 51]
    frames. *)
Theorem frame_sampler_rows (output_dir : string) (fps : Q)
    (frame_files : list string) :
  (0 < fps)%Q ->
  (forall i : nat,
     (i < List.length frame_files)%nat ->
     Py.is_finite (timestamp_of i fps) = true) ->
  exists rows,
    SceneSelection.frame_sampler output_dir fps frame_files = Ok rows
    /\ List.length rows = List.length frame_files
    /\ (forall (i : nat) (row : SceneSelection.frame_row),
          nth_error rows i = Some row ->
          SceneSelection.frame_timestamp i fps = Ok (timestamp_of i fps)
          /\ nth_error frame_files i = Some (SceneSelection.Frame_File row)
          /\ SceneSelection.Frame_Number row = (Z.of_nat i + 1)%Z
          /\ SceneSelection.format_timestamp (timestamp_of i fps)
             = Ok (SceneSelection.Timestamp row)
          /\ SceneSelection.Time_seconds row
             = Py.round2 (timestamp_of i fps))
    /\ (forall i j : nat,
          (i <= j)%nat -> (timestamp_of i fps <= timestamp_of j fps)%Q)
    /\ ((fps <= 2 ^ 1024)%Q ->
        (Z.of_nat (List.length frame_files) <= 2 ^ 51)%Z ->
        forall i j : nat,
          (i < j)%nat -> (j < List.length frame_files)%nat ->
          (timestamp_of i fps < timestamp_of j fps)%Q).
Proof.
  intros Hfps Hfin.
  pose proof (positive_rate_not_zero fps Hfps) as Hnz.
  destruct (sample_from_total output_dir fps Hnz frame_files 0 Hfin)
    as [rows Hrows].
  exists rows. split; [exact Hrows|].
  destruct (sample_from_rows output_dir fps frame_files 0 rows Hrows)
    as [Hlen Hnth].
  split; [exact Hlen|]. split; [|split].
  - intros i row Hi.
    destruct (Hnth i row Hi) as [f [t [Hf [Ht Hrow]]]].
    simpl in Ht. rewrite (frame_timestamp_ok i fps Hnz) in Ht.
    injection Ht as <-.
    destruct (make_row_fields _ _ _ _ _ Hrow) as [Hl [Hr [Hn [Hfile _]]]].
    split; [apply (frame_timestamp_ok i fps Hnz)|].
    rewrite Hfile. auto.
  - intros i j Hij. now apply timestamps_non_decreasing.
  - intros Hmax Hcount i j Hij Hj.
    apply timestamps_increase; try assumption; [lia|].
    apply Hfin. exact Hj.
Qed.

Lemma frame_sampler_rows_witness :
  (0 < 40)%Q
  /\ exists r0 r1 r2,
       SceneSelection.frame_sampler "frames" 40
         ["frame_0001.jpg"; "frame_0002.jpg"; "frame_0003.jpg"]
       = Ok [r0; r1; r2]
       /\ SceneSelection.Frame_Number r1 = 2%Z
       /\ SceneSelection.Timestamp r1 = "00:00:00.025"
       /\ SceneSelection.Time_seconds r1 = Py.rnd (3 # 100)
       /\ (timestamp_of 1 40 < timestamp_of 2 40)%Q.
Proof.
  assert (H : (0 < 40)%Q) by reflexivity.
  split; [exact H|].
  destruct (frame_sampler_rows "frames" 40
              ["frame_0001.jpg"; "frame_0002.jpg"; "frame_0003.jpg"] H)
    as [rows [Hrows [Hlen [Hnth [_ Hinc]]]]].
  { intros i Hi. simpl in Hi.
    destruct i as [|[|[|i]]]; [vm_compute; reflexivity ..|lia]. }
  destruct rows as [|r0 [|r1 [|r2 [|r3 rows]]]]; try discriminate.
  exists r0, r1, r2. split; [exact Hrows|].
  destruct (Hnth 1%nat r1 eq_refl) as [_ [_ [Hn [Hl Hr]]]].
  split; [exact Hn|].
  split.
  - assert (E : SceneSelection.format_timestamp (timestamp_of 1 40)
                = Ok "00:00:00.025") by (vm_compute; reflexivity).
    rewrite E in Hl. now injection Hl.
  - split.
    + rewrite Hr. vm_compute. reflexivity.
    + apply Hinc; [vm_compute; discriminate|vm_compute; discriminate| |];
        simpl; lia.
Defined.

(** ** The table of a run *)

Section Table.

Import SceneSelection.

(** What a table that was built is made of. *)
Lemma build_table_ok (w : world) (frames_dir : string) (fps : Q)
    (rep : report) :
  build_table w frames_dir fps = Ok rep ->
  exists listing frames_data scene_changes total_scenes,
    listdir w = Ok listing
    /\ frame_sampler frames_dir fps (frame_files_of listing) = Ok frames_data
    /\ detect_scene_changes (ffmpeg_log w) = Ok scene_changes
    /\ scene_number_max (add_scene_information frames_data scene_changes)
       = Ok total_scenes
    /\ rep = status_success
               (List.length (add_scene_information frames_data scene_changes))
               total_scenes
               (add_scene_information frames_data scene_changes) frames_dir.
Proof.
  unfold build_table. intros H.
  destruct (listdir w) as [listing|e] eqn:El; [|discriminate]. simpl in H.
  destruct (frame_sampler frames_dir fps (frame_files_of listing))
    as [frames_data|e] eqn:Es; [|discriminate]. simpl in H.
  destruct (detect_scene_changes (ffmpeg_log w)) as [scene_changes|e] eqn:Ed;
    [|discriminate]. simpl in H.
  destruct (write_table w) as [u|e]; [|discriminate]. simpl in H.
  destruct (scene_number_max (add_scene_information frames_data scene_changes))
    as [total_scenes|e] eqn:Emax; [|discriminate]. simpl in H.
  injection H as <-.
  exists listing, frames_data, scene_changes, total_scenes.
  repeat split; assumption.
Qed.

(** A successful report of either function comes from a table that was
    built. *)
Lemma success_is_built (w : world) (video_path dir : string) (fps : Q)
    (n : nat) (s : Z) (df : list table_row) (d : string) :
  organize_existing_frames_table w dir fps = status_success n s df d
  \/ organize_frames_table w video_path dir fps = status_success n s df d ->
  build_table w dir fps = Ok (status_success n s df d).
Proof.
  unfold organize_existing_frames_table, organize_frames_table, catch.
  intros [H|H]; destruct (negb (path_exists w)); try discriminate;
    destruct (build_table w dir fps); try discriminate; now subst.
Qed.

Lemma filter_none {A : Type} (p : A -> bool) (l : list A) :
  (forall x, In x l -> p x = false) -> filter p l = [].
Proof.
  induction l as [|x l IH]; intros H; [reflexivity|].
  simpl. rewrite (H x (or_introl eq_refl)).
  apply IH. intros y Hy. apply H. now right.
Qed.

Lemma filter_twice {A : Type} (p : A -> bool) (l : list A) :
  filter p (filter p l) = filter p l.
Proof.
  induction l as [|x l IH]; [reflexivity|].
  simpl. destruct (p x) eqn:E; [|exact IH].
  simpl. rewrite E. now rewrite IH.
Qed.

(** With no frame file the run ends in the handler of the [try]. *)
Lemma build_table_without_frames (w : world) (frames_dir : string) (fps : Q)
    (listing : list string) :
  listdir w = Ok listing ->
  frame_files_of listing = [] ->
  exists e, build_table w frames_dir fps = Raise e.
Proof.
  intros Hl Hf. unfold build_table. rewrite Hl. simpl. rewrite Hf. simpl.
  destruct (detect_scene_changes (ffmpeg_log w)) as [scs|e]; simpl;
    [|eauto].
  destruct (write_table w) as [u|e]; simpl; eauto.
Qed.

End Table.

(** C1, as the claim states it, fails: the Timeline Merger compares the
    rounded time.  Two frames at 3 frames per second and a scene event at
    0.332 s: the second frame has as timestamp the float of 1/3, after the
    event, and would take scene number 2 and score 0.5; its row carries the
    time 0.33, before the event, and scene number 1 and score 0. *)
Lemma rounded_time_decides_the_scene :
  exists row0 row1 event,
    SceneSelection.organize_existing_frames_table
      world_event_after_rounded_time "frames" 3
    = SceneSelection.status_success 2 1 [row0; row1] "frames"
    /\ SceneSelection.frame_timestamp 1 3 = Ok (Py.rnd (1 # 3))
    /\ SceneSelection.detect_scene_changes
         (SceneSelection.ffmpeg_log world_event_after_rounded_time)
       = Ok [event]
    /\ SceneSelection.timestamp event = Py.rnd (332 # 1000)
    /\ SceneSelection.scene_score event = 1 # 2
    /\ (SceneSelection.timestamp event <= Py.rnd (1 # 3))%Q
    /\ SceneSelection.scan_scenes (Py.rnd (1 # 3)) [event] 1 0
       = (2%Z, 1 # 2)
    /\ SceneSelection.Time_seconds (SceneSelection.frame row1)
       = Py.rnd (33 # 100)
    /\ (SceneSelection.Time_seconds (SceneSelection.frame row1)
        < SceneSelection.timestamp event)%Q
    /\ SceneSelection.Scene_Number row1 = 1%Z
    /\ SceneSelection.Scene_Score row1 = 0.
Proof.
  eexists. eexists. eexists.
  split; [vm_compute; reflexivity|].
  split; [vm_compute; reflexivity|].
  split; [vm_compute; reflexivity|].
  split; [vm_compute; reflexivity|].
  split; [vm_compute; reflexivity|].
  split; [vm_compute; discriminate|].
  split; [vm_compute; reflexivity|].
  split; [vm_compute; reflexivity|].
  split; [vm_compute; reflexivity|].
  split; vm_compute; reflexivity.
Qed.

(** C1, amended. In a table either function reports, the row at index [i]
    comes from the timestamp [t], the float [i / fps]: its label is the
    format of [t] itself, its [Time (seconds)] is [t] rounded to 2 decimals,
    and its scene number and score are those the Timeline Merger finds on
    comparing that rounded time with the timestamps of the scene events. *)
Theorem table_rows_compare_rounded_time (w : SceneSelection.world)
    (video_path dir : string) (fps : Q) (n : nat) (s : Z)
    (df : list SceneSelection.table_row) (d : string) :
  SceneSelection.organize_existing_frames_table w dir fps
  = SceneSelection.status_success n s df d
  \/ SceneSelection.organize_frames_table w video_path dir fps
     = SceneSelection.status_success n s df d ->
  exists scene_changes,
    SceneSelection.detect_scene_changes (SceneSelection.ffmpeg_log w)
    = Ok scene_changes
    /\ forall (i : nat) (row : SceneSelection.table_row),
         nth_error df i = Some row ->
         exists t,
           SceneSelection.frame_timestamp i fps = Ok t
           /\ t = timestamp_of i fps
           /\ SceneSelection.format_timestamp t
              = Ok (SceneSelection.Timestamp (SceneSelection.frame row))
           /\ SceneSelection.Time_seconds (SceneSelection.frame row)
              = Py.round2 t
           /\ (SceneSelection.Scene_Number row, SceneSelection.Scene_Score row)
              = SceneSelection.scan_scenes (Py.round2 t) scene_changes 1 0.
Proof.
  intros H. apply success_is_built in H.
  destruct (build_table_ok w dir fps _ H)
    as [listing [frames_data [scene_changes [total [_ [Hs [Hd [_ Hrep]]]]]]]].
  injection Hrep as _ _ Hdf _.
  exists scene_changes. split; [exact Hd|].
  intros i row Hi. subst df.
  unfold SceneSelection.add_scene_information in Hi.
  rewrite nth_error_map in Hi.
  destruct (nth_error frames_data i) as [fr|] eqn:Efr; [|discriminate].
  simpl in Hi. injection Hi as <-.
  destruct (sample_from_rows dir fps _ 0 frames_data Hs) as [_ Hrows].
  destruct (Hrows i fr Efr) as [f [t [_ [Ht Hrow]]]].
  simpl in Ht. exists t. split; [exact Ht|].
  destruct (make_row_fields _ _ _ _ _ Hrow) as [Hl [Hr _]].
  split.
  - unfold SceneSelection.frame_timestamp, Py.truediv in Ht.
    destruct (Qeq_bool fps 0); [discriminate|]. now injection Ht.
  - rewrite annotate_frame. split; [exact Hl|]. split; [exact Hr|].
    rewrite <- Hr. unfold SceneSelection.annotate.
    destruct (SceneSelection.scan_scenes
                (SceneSelection.Time_seconds fr) scene_changes 1 0).
    reflexivity.
Qed.

Lemma table_rows_compare_rounded_time_witness :
  exists row0 row1 event,
    SceneSelection.organize_existing_frames_table
      world_event_at_28_ms "frames" 40
    = SceneSelection.status_success 2 2 [row0; row1] "frames"
    /\ SceneSelection.detect_scene_changes
         (SceneSelection.ffmpeg_log world_event_at_28_ms)
       = Ok [event]
    /\ SceneSelection.timestamp event = Py.rnd (28 # 1000)
    /\ SceneSelection.Timestamp (SceneSelection.frame row1) = "00:00:00.025"
    /\ SceneSelection.Time_seconds (SceneSelection.frame row1)
       = Py.rnd (3 # 100)
    /\ (SceneSelection.Scene_Number row1, SceneSelection.Scene_Score row1)
       = SceneSelection.scan_scenes (Py.rnd (3 # 100)) [event] 1 0
    /\ SceneSelection.Scene_Number row1 = 2%Z.
Proof.
  destruct (SceneSelection.organize_existing_frames_table
              world_event_at_28_ms "frames" 40) as [err|n s df d] eqn:H;
    [vm_compute in H; discriminate|].
  destruct (table_rows_compare_rounded_time world_event_at_28_ms
              EmptyString "frames" 40 n s df d (or_introl H))
    as [scene_changes [Hd Hrows]].
  assert (Hv : SceneSelection.organize_existing_frames_table
                 world_event_at_28_ms "frames" 40
               = SceneSelection.status_success n s df d) by exact H.
  vm_compute in Hv. injection Hv as <- <- <- <-.
  assert (Hd' : SceneSelection.detect_scene_changes
                  (SceneSelection.ffmpeg_log world_event_at_28_ms)
                = Ok scene_changes) by exact Hd.
  vm_compute in Hd'. injection Hd' as <-.
  destruct (Hrows 1%nat _ eq_refl) as [t [Ht [Et [Hl [Hr Hsc]]]]].
  assert (Er : Py.round2 t = Py.rnd (3 # 100))
    by (rewrite Et; vm_compute; reflexivity).
  assert (El : SceneSelection.format_timestamp t = Ok "00:00:00.025")
    by (rewrite Et; vm_compute; reflexivity).
  rewrite Er in Hr, Hsc. rewrite El in Hl.
  apply (f_equal (fun r => match r with
                           | Ok label => label
                           | Raise _ => EmptyString
                           end)) in Hl.
  eexists. eexists. eexists.
  split; [reflexivity|]. split; [exact Hd|].
  split; [vm_compute; reflexivity|].
  split; [symmetry; exact Hl|]. split; [exact Hr|].
  split; [exact Hsc|]. reflexivity.
Defined.

(** C3. When the frames directory does not exist
    [organize_existing_frames_table] reports the error
    [Frames directory not found]; when it exists and holds no entry ending in
    [.jpg] the run ends in the handler of the [try] and the report is an
    error as well.  In neither case is the report a success. *)
Theorem no_frames_is_reported_as_error (w : SceneSelection.world)
    (frames_dir : string) (fps : Q) :
  (SceneSelection.path_exists w = false ->
   SceneSelection.organize_existing_frames_table w frames_dir fps
   = SceneSelection.status_error
       (SceneSelection.Frames_directory_not_found frames_dir))
  /\ (forall listing : list string,
        SceneSelection.path_exists w = true ->
        SceneSelection.listdir w = Ok listing ->
        (forall f, In f listing -> is_jpg f = false) ->
        exists e,
          SceneSelection.organize_existing_frames_table w frames_dir fps
          = SceneSelection.status_error (SceneSelection.Exception_text e)).
Proof.
  unfold SceneSelection.organize_existing_frames_table. split.
  - intros H. now rewrite H.
  - intros listing Hex Hl Hnone. rewrite Hex. simpl.
    assert (Hf : SceneSelection.frame_files_of listing = []).
    { unfold SceneSelection.frame_files_of. fold is_jpg.
      now rewrite (filter_none is_jpg listing Hnone). }
    destruct (build_table_without_frames w frames_dir fps listing Hl Hf)
      as [e He].
    exists e. now rewrite He.
Qed.

Lemma no_frames_is_reported_as_error_witness :
  SceneSelection.organize_existing_frames_table world_no_directory
    "clip_extracted_frames" 1
  = SceneSelection.status_error
      (SceneSelection.Frames_directory_not_found "clip_extracted_frames")
  /\ exists e,
       SceneSelection.organize_existing_frames_table world_no_frame
         "clip_extracted_frames" 1
       = SceneSelection.status_error (SceneSelection.Exception_text e).
Proof.
  split.
  - apply (proj1 (no_frames_is_reported_as_error world_no_directory
                    "clip_extracted_frames" 1)).
    reflexivity.
  - apply (proj2 (no_frames_is_reported_as_error world_no_frame
                    "clip_extracted_frames" 1)
             ["notes.txt"; "frame_0001.png"]).
    + reflexivity.
    + reflexivity.
    + intros f [<-|[<-|[]]]; reflexivity.
Defined.

(** The same input to [organize_frames_table]: no frame extracted, no
    success reported. *)
Lemma no_extracted_frames_is_reported_as_error (w : SceneSelection.world)
    (video_path output_dir : string) (fps : Q) (listing : list string) :
  SceneSelection.listdir w = Ok listing ->
  (forall f, In f listing -> is_jpg f = false) ->
  exists err,
    SceneSelection.organize_frames_table w video_path output_dir fps
    = SceneSelection.status_error err.
Proof.
  intros Hl Hnone. unfold SceneSelection.organize_frames_table.
  destruct (negb (SceneSelection.path_exists w)); [eauto|].
  assert (Hf : SceneSelection.frame_files_of listing = []).
  { unfold SceneSelection.frame_files_of. fold is_jpg.
    now rewrite (filter_none is_jpg listing Hnone). }
  destruct (build_table_without_frames w output_dir fps listing Hl Hf)
    as [e He].
  rewrite He. simpl. eauto.
Qed.

(** The report reads the listing through [frame_files_of] only. *)
Lemma report_of_frame_files (w : SceneSelection.world) (dir : string)
    (fps : Q) (l l' : list string) :
  SceneSelection.frame_files_of l = SceneSelection.frame_files_of l' ->
  SceneSelection.organize_existing_frames_table (with_listing w l) dir fps
  = SceneSelection.organize_existing_frames_table (with_listing w l') dir fps.
Proof.
  intros H.
  unfold SceneSelection.organize_existing_frames_table,
    SceneSelection.build_table, with_listing.
  simpl. now rewrite H.
Qed.

Lemma string_length_append (s1 s2 : string) :
  String.length (s1 ++ s2)%string = (String.length s1 + String.length s2)%nat.
Proof. induction s1 as [|c s1 IH]; simpl; [reflexivity|now rewrite IH]. Qed.

Lemma endswith_append (s t : string) :
  Py.endswith (s ++ t)%string t = true.
Proof.
  unfold Py.endswith. rewrite string_length_append.
  replace (String.length t <=? String.length s + String.length t)%nat
    with true by (symmetry; apply Nat.leb_le; lia).
  replace (String.length s + String.length t - String.length t)%nat
    with (String.length s) by lia.
  cbn [andb]. apply String.eqb_eq.
  induction s as [|c s IH]; simpl.
  - induction t as [|c t IHt]; simpl; [reflexivity|now rewrite IHt].
  - exact IH.
Qed.

(** A text is its first [k] characters followed by the rest. *)
Lemma substring_split (s : string) :
  forall k : nat,
    (k <= String.length s)%nat ->
    s = (substring 0 k s ++ substring k (String.length s - k) s)%string.
Proof.
  induction s as [|c s IH]; intros k Hk.
  - simpl in Hk. assert (k = 0%nat) by lia. subst k. reflexivity.
  - destruct k as [|k].
    + cbn [substring String.length Nat.sub append].
      f_equal. specialize (IH 0%nat ltac:(lia)).
      rewrite Nat.sub_0_r in IH.
      assert (E0 : substring 0 0 s = EmptyString) by (destruct s; reflexivity).
      rewrite E0 in IH. exact IH.
    + cbn [substring String.length Nat.sub append].
      f_equal. apply IH. simpl in Hk. lia.
Qed.

(** [s.endswith(suffix)] holds exactly of the texts made of some text
    followed by the suffix. *)
Lemma endswith_iff (s suffix : string) :
  Py.endswith s suffix = true
  <-> exists stem, s = (stem ++ suffix)%string.
Proof.
  split.
  - unfold Py.endswith. intros H. apply andb_prop in H as [Hlen Heq].
    apply Nat.leb_le in Hlen. apply String.eqb_eq in Heq.
    exists (substring 0 (String.length s - String.length suffix) s).
    rewrite <- Heq at 2.
    replace (String.length suffix)
      with (String.length s - (String.length s - String.length suffix))%nat
      at 3 by lia.
    apply substring_split. lia.
  - intros [stem ->]. apply endswith_append.
Qed.

(** The files of the rows are the frame files, in their order. *)
Lemma sample_from_files (output_dir : string) (fps : Q)
    (frame_files : list string) :
  forall (i : nat) (rows : list SceneSelection.frame_row),
    SceneSelection.sample_from output_dir fps i frame_files = Ok rows ->
    map SceneSelection.Frame_File rows = frame_files.
Proof.
  intros i rows H.
  destruct (sample_from_rows output_dir fps frame_files i rows H)
    as [Hlen Hrows].
  apply nth_error_ext. intros k. rewrite nth_error_map.
  destruct (nth_error rows k) as [row|] eqn:Ek.
  - destruct (Hrows k row Ek) as [f [t [Hf [_ Hrow]]]].
    destruct (make_row_fields _ _ _ _ _ Hrow) as [_ [_ [_ [Hfile _]]]].
    simpl. now rewrite Hfile, Hf.
  - simpl. symmetry. apply nth_error_None.
    apply nth_error_None in Ek. lia.
Qed.

(** C10. The frame files of a run are the entries of the listing whose name
    ends in [.jpg] (is some text followed by [.jpg]), each as often as
    listed, in the order of [sorted].  In a table either function reports,
    the rows are one per frame file, in that order, the row at index [i]
    carrying frame number [i + 1].  The other entries play no part: the
    report is the one of the listing without them, so that indices, frame
    numbers and timestamps are those among the [.jpg] entries; with no
    [.jpg] entry the report is that of an empty directory, an error. *)
Theorem frame_files_are_the_sorted_jpg_entries (listing : list string) :
  (forall f,
     is_jpg f = true <-> exists stem, f = (stem ++ ".jpg")%string)
  /\ Permutation (filter is_jpg listing)
       (SceneSelection.frame_files_of listing)
  /\ Sorted (fun a b => String.leb a b = true)
       (SceneSelection.frame_files_of listing)
  /\ (forall f,
        In f (SceneSelection.frame_files_of listing)
        <-> In f listing /\ is_jpg f = true)
  /\ (forall (w : SceneSelection.world) (video_path dir : string) (fps : Q)
        (n : nat) (s : Z) (df : list SceneSelection.table_row) (d : string),
        SceneSelection.organize_existing_frames_table
          (with_listing w listing) dir fps
        = SceneSelection.status_success n s df d
        \/ SceneSelection.organize_frames_table
             (with_listing w listing) video_path dir fps
           = SceneSelection.status_success n s df d ->
        n = List.length (filter is_jpg listing)
        /\ map (fun row =>
                  SceneSelection.Frame_File (SceneSelection.frame row)) df
           = SceneSelection.frame_files_of listing
        /\ forall (i : nat) (row : SceneSelection.table_row),
             nth_error df i = Some row ->
             SceneSelection.Frame_Number (SceneSelection.frame row)
             = (Z.of_nat i + 1)%Z
             /\ SceneSelection.Frame_Path (SceneSelection.frame row)
                = Py.os_path_join dir
                    (SceneSelection.Frame_File (SceneSelection.frame row)))
  /\ (forall (w : SceneSelection.world) (dir : string) (fps : Q),
        SceneSelection.organize_existing_frames_table
          (with_listing w listing) dir fps
        = SceneSelection.organize_existing_frames_table
            (with_listing w (filter is_jpg listing)) dir fps)
  /\ ((forall f, In f listing -> is_jpg f = false) ->
      forall (w : SceneSelection.world) (dir : string) (fps : Q),
        SceneSelection.organize_existing_frames_table
          (with_listing w listing) dir fps
        = SceneSelection.organize_existing_frames_table
            (with_listing w []) dir fps
        /\ exists err,
             SceneSelection.organize_existing_frames_table
               (with_listing w listing) dir fps
             = SceneSelection.status_error err).
Proof.
  assert (Hperm : Permutation (filter is_jpg listing)
                    (SceneSelection.frame_files_of listing))
    by apply StringSort.Permuted_sort.
  split; [intros f; apply endswith_iff|].
  split; [exact Hperm|]. split.
  { exact (StringSort.Sorted_sort (filter is_jpg listing)). }
  split.
  { intros f. rewrite <- filter_In. split; intros H.
    - eapply Permutation_in; [apply Permutation_sym; exact Hperm|exact H].
    - eapply Permutation_in; [exact Hperm|exact H]. }
  split.
  { intros w video_path dir fps n s df d H. apply success_is_built in H.
    destruct (build_table_ok _ dir fps _ H)
      as [listing' [frames_data [scs [total [Hl [Hs [_ [_ Hrep]]]]]]]].
    simpl in Hl. injection Hl as <-.
    injection Hrep as Hn _ Hdf _. subst df.
    destruct (sample_from_rows dir fps _ 0 frames_data Hs) as [Hlen Hrows].
    unfold SceneSelection.add_scene_information in *.
    rewrite length_map in Hn.
    split.
    - rewrite Hn, Hlen. symmetry. now apply Permutation_length.
    - split.
      + rewrite map_map.
        rewrite (map_ext _ SceneSelection.Frame_File)
          by (intros fr; now rewrite annotate_frame).
        exact (sample_from_files dir fps _ 0 frames_data Hs).
      + intros i row Hi. rewrite nth_error_map in Hi.
        destruct (nth_error frames_data i) as [fr|] eqn:Efr; [|discriminate].
        simpl in Hi. injection Hi as <-. rewrite annotate_frame.
        destruct (Hrows i fr Efr) as [f [t [_ [_ Hrow]]]].
        destruct (make_row_fields _ _ _ _ _ Hrow)
          as [_ [_ [Hnum [Hfile Hpath]]]].
        simpl in Hnum. rewrite Hfile. auto. }
  split.
  { intros w dir fps. apply report_of_frame_files.
    unfold SceneSelection.frame_files_of. fold is_jpg.
    now rewrite filter_twice. }
  intros Hnone w dir fps. split.
  - apply report_of_frame_files.
    unfold SceneSelection.frame_files_of. fold is_jpg.
    now rewrite (filter_none is_jpg listing Hnone).
  - unfold SceneSelection.organize_existing_frames_table.
    destruct (negb (SceneSelection.path_exists (with_listing w listing)));
      [eauto|].
    assert (Hf : SceneSelection.frame_files_of listing = []).
    { unfold SceneSelection.frame_files_of. fold is_jpg.
      now rewrite (filter_none is_jpg listing Hnone). }
    destruct (build_table_without_frames (with_listing w listing) dir fps
                listing eq_refl Hf) as [e He].
    rewrite He. simpl. eauto.
Qed.

Lemma frame_files_are_the_sorted_jpg_entries_witness :
  is_jpg "frame_0002.jpg" = true
  /\ is_jpg "notes.txt" = false
  /\ SceneSelection.frame_files_of
       ["frame_0002.jpg"; "notes.txt"; "frame_0001.jpg"; "frame_0003.png"]
     = ["frame_0001.jpg"; "frame_0002.jpg"]
  /\ exists row0 row1,
       SceneSelection.organize_existing_frames_table
         (with_listing world_one_frame
            ["frame_0002.jpg"; "notes.txt"; "frame_0001.jpg";
             "frame_0003.png"]) "frames" 1
       = SceneSelection.status_success 2 1 [row0; row1] "frames"
       /\ map (fun row =>
                 SceneSelection.Frame_File (SceneSelection.frame row))
            [row0; row1]
          = ["frame_0001.jpg"; "frame_0002.jpg"]
       /\ SceneSelection.Frame_Number (SceneSelection.frame row1) = 2%Z
       /\ SceneSelection.Frame_Path (SceneSelection.frame row1)
          = "frames/frame_0002.jpg".
Proof.
  pose proof (frame_files_are_the_sorted_jpg_entries
                ["frame_0002.jpg"; "notes.txt"; "frame_0001.jpg";
                 "frame_0003.png"])
    as [Hjpg [_ [_ [_ [Hrows _]]]]].
  split; [apply Hjpg; exists "frame_0002"; reflexivity|].
  split; [reflexivity|]. split; [vm_compute; reflexivity|].
  destruct (SceneSelection.organize_existing_frames_table
              (with_listing world_one_frame
                 ["frame_0002.jpg"; "notes.txt"; "frame_0001.jpg";
                  "frame_0003.png"]) "frames" 1)
    as [err|n s df d] eqn:H; [vm_compute in H; discriminate|].
  destruct (Hrows world_one_frame EmptyString "frames" 1 n s df d
              (or_introl H)) as [_ [Hfiles Hnth]].
  vm_compute in H. injection H as <- <- <- <-.
  destruct (Hnth 1%nat _ eq_refl) as [Hnum Hpath].
  eexists. eexists. split; [reflexivity|].
  split; [exact Hfiles|]. split; [exact Hnum|exact Hpath].
Defined.

(** ** Rounding keeps the order of the frames *)

Lemma round2_monotone (x y : Q) :
  (x <= y)%Q -> (Py.round2 x <= Py.round2 y)%Q.
Proof.
  intros H. unfold Py.round2. apply rnd_monotone.
  assert (H100 : (x * 100 <= y * 100)%Q)
    by (apply Qmult_le_compat_r; [exact H|discriminate]).
  pose proof (round_half_even_monotone _ _ H100).
  unfold Qle. cbn [Qnum Qden]. lia.
Qed.

Lemma neighbours_sorted {A : Type} (R : A -> A -> Prop) (l : list A) :
  (forall (i : nat) (a b : A),
     nth_error l i = Some a -> nth_error l (S i) = Some b -> R a b) ->
  Sorted R l.
Proof.
  induction l as [|x l IH]; intros H; constructor.
  - apply IH. intros i a b Ha Hb. exact (H (S i) a b Ha Hb).
  - destruct l as [|y l]; constructor.
    exact (H 0%nat x y eq_refl eq_refl).
Qed.

(** At a positive rate the rows leave the Frame Sampler by non-decreasing
    [Time (seconds)]. *)
Lemma sampled_frames_sorted (output_dir : string) (fps : Q)
    (frame_files : list string) (rows : list SceneSelection.frame_row) :
  (0 < fps)%Q ->
  SceneSelection.frame_sampler output_dir fps frame_files = Ok rows ->
  Sorted by_time rows.
Proof.
  intros Hfps Hrows. apply neighbours_sorted. intros i a b Ha Hb.
  pose proof (positive_rate_not_zero fps Hfps) as Hnz.
  destruct (sample_from_rows output_dir fps frame_files 0 rows Hrows)
    as [_ Hnth].
  destruct (Hnth i a Ha) as [fa [ta [_ [Hta Hra]]]].
  destruct (Hnth (S i) b Hb) as [fb [tb [_ [Htb Hrb]]]].
  change (0 + i)%nat with i in Hta. change (0 + S i)%nat with (S i) in Htb.
  rewrite (frame_timestamp_ok i fps Hnz) in Hta.
  rewrite (frame_timestamp_ok (S i) fps Hnz) in Htb.
  injection Hta as <-. injection Htb as <-.
  destruct (make_row_fields _ _ _ _ _ Hra) as [_ [Ea _]].
  destruct (make_row_fields _ _ _ _ _ Hrb) as [_ [Eb _]].
  unfold by_time. rewrite Ea, Eb.
  apply round2_monotone.
  apply timestamps_non_decreasing; [exact Hfps|lia].
Qed.

(** The invariant of the Timeline Merger on the table of a run: at a
    positive rate the scene numbers never decrease down the table. *)
Lemma table_scene_numbers_non_decreasing (w : SceneSelection.world)
    (video_path dir : string) (fps : Q) (n : nat) (s : Z)
    (df : list SceneSelection.table_row) (d : string) :
  (0 < fps)%Q ->
  SceneSelection.organize_existing_frames_table w dir fps
  = SceneSelection.status_success n s df d
  \/ SceneSelection.organize_frames_table w video_path dir fps
     = SceneSelection.status_success n s df d ->
  forall (i : nat) (prev row : SceneSelection.table_row),
    nth_error df i = Some prev ->
    nth_error df (S i) = Some row ->
    (SceneSelection.Scene_Number prev <= SceneSelection.Scene_Number row)%Z.
Proof.
  intros Hfps H i prev row Hprev Hrow. apply success_is_built in H.
  destruct (build_table_ok w dir fps _ H)
    as [listing [frames_data [scene_changes [total [_ [Hs [_ [_ Hrep]]]]]]]].
  injection Hrep as _ _ Hdf _. subst df.
  pose proof (sampled_frames_sorted _ _ _ _ Hfps Hs) as Hsorted.
  unfold SceneSelection.add_scene_information in Hprev, Hrow.
  rewrite nth_error_map in Hprev, Hrow.
  destruct (nth_error frames_data i) as [a|] eqn:Ea; [|discriminate].
  destruct (nth_error frames_data (S i)) as [b|] eqn:Eb; [|discriminate].
  simpl in Hprev, Hrow. injection Hprev as <-. injection Hrow as <-.
  rewrite !annotate_scene_number.
  apply scan_scenes_monotone.
  exact (sorted_neighbours by_time frames_data Hsorted i a b Ea Eb).
Qed.

(** ** The Narration Bridge *)

Section Bridge.

Import ScriptGenerator.

(** The loop of [main] keeps the entries that resolve, in their order, and
    prints one warning for each of the others, in their order. *)
Lemma prepare_frames_resolved (path_exists : string -> bool)
    (frames_dir : string) (selected_frames : list entry) :
  prepare_frames path_exists frames_dir selected_frames
  = (map (info_of frames_dir)
       (filter (resolves path_exists frames_dir) selected_frames),
     flat_map (warning_for path_exists frames_dir) selected_frames).
Proof.
  induction selected_frames as [|e rest IH]; [reflexivity|].
  simpl. rewrite IH. unfold resolves, warning_for, info_of.
  destruct e as [[ts|] [file|]]; simpl; try reflexivity.
  - destruct (Py.is_empty file); simpl; [reflexivity|].
    destruct (Py.is_empty ts); simpl; [reflexivity|].
    destruct (path_exists (Py.os_path_join frames_dir file)); reflexivity.
  - destruct (Py.is_empty file); reflexivity.
Qed.

Lemma analyze_when_create_raises (encode : string -> result string)
    (create : list part -> result string) (frames_data : list frame_info)
    (movie_style target_audience : string) (parts : list part) (e : exn) :
  image_parts encode frames_data = Ok parts ->
  create (text_part
            (prompt_text movie_style target_audience
               (style_instructions_of movie_style)
               (audience_instructions_of target_audience)) :: parts)
  = Raise e ->
  analyze_all_frames_together encode create frames_data movie_style
    target_audience
  = ("Error: " ++ str_exn e)%string.
Proof.
  intros Hp Hc. unfold analyze_all_frames_together.
  rewrite Hp. simpl. now rewrite Hc.
Qed.

(** [main] from the loop on, once the three tests at its head are passed. *)
Lemma main_after_tests (w : world)
    (prefix style_choice audience_choice : string) :
  Py.is_empty prefix = false ->
  selection_file_exists w = true ->
  frames_dir_is_dir w = true ->
  main w prefix style_choice audience_choice
  = match selected_frames w with
    | [] => exit_no_frames_in_file
    | _ :: _ =>
        let (frames_data, warnings) :=
          prepare_frames (path_exists w) (prefix ++ "_extracted_frames")%string
            (selected_frames w) in
        match frames_data with
        | [] => exit_no_valid_frames warnings
        | _ :: _ =>
            match write_story w with
            | Ok _ =>
                story_saved warnings (prefix ++ "_storyscript.txt")%string
                  (story_text prefix (style_map_get style_choice)
                     (audience_map_get audience_choice)
                     (analyze_all_frames_together (encode_image_to_base64 w)
                        (create_completion w) frames_data
                        (style_map_get style_choice)
                        (audience_map_get audience_choice)))
            | Raise e => story_not_saved warnings e
            end
        end
    end.
Proof.
  intros Hp Hs Hd. unfold main. rewrite Hp, Hs, Hd. reflexivity.
Qed.

End Bridge.

(** C8, as the claim states it, fails on an entry that is skipped although
    its frame file exists: the one entry of the document has an empty
    timestamp, its file is in the frames directory, and the run ends with no
    valid frame. *)
Lemma entry_with_empty_timestamp_is_skipped :
  ScriptGenerator.selected_frames world_empty_timestamp
  = [selection_entry EmptyString "frame_0001.jpg"]
  /\ ScriptGenerator.path_exists world_empty_timestamp
       (Py.os_path_join "clip_extracted_frames" "frame_0001.jpg") = true
  /\ ScriptGenerator.main world_empty_timestamp "clip" "5" "4"
     = ScriptGenerator.exit_no_valid_frames
         [ScriptGenerator.Skipping_entry_with_missing_field
            (selection_entry EmptyString "frame_0001.jpg")].
Proof. repeat split. Qed.

(** C8, amended. Past the tests on the prefix, the selection file and the
    frames directory, [main] goes on with the entries that name a frame file
    and a timestamp and whose file, resolved against the frames directory,
    exists, in the order of the document.  Every other entry is skipped with
    a printed warning; so is in particular every entry whose file does not
    exist.  When no entry is left the run ends there, without a call of the
    generation service and without a story file; otherwise the story is made
    from the entries left. *)
Theorem bridge_proceeds_with_resolved_entries (w : ScriptGenerator.world)
    (prefix style_choice audience_choice : string) :
  Py.is_empty prefix = false ->
  ScriptGenerator.selection_file_exists w = true ->
  ScriptGenerator.frames_dir_is_dir w = true ->
  let frames_dir := (prefix ++ "_extracted_frames")%string in
  let resolved :=
    filter (resolves (ScriptGenerator.path_exists w) frames_dir)
      (ScriptGenerator.selected_frames w) in
  let warnings :=
    flat_map (warning_for (ScriptGenerator.path_exists w) frames_dir)
      (ScriptGenerator.selected_frames w) in
  (forall e,
     In e (ScriptGenerator.selected_frames w) ->
     ScriptGenerator.path_exists w
       (Py.os_path_join frames_dir (field (ScriptGenerator.entry_frame_file e)))
     = false ->
     ~ In e resolved
     /\ warning_for (ScriptGenerator.path_exists w) frames_dir e <> [])
  /\ (resolved = [] ->
      no_work_done
        (ScriptGenerator.main w prefix style_choice audience_choice) = true
      /\ (ScriptGenerator.main w prefix style_choice audience_choice
          = ScriptGenerator.exit_no_frames_in_file
          \/ ScriptGenerator.main w prefix style_choice audience_choice
             = ScriptGenerator.exit_no_valid_frames warnings))
  /\ (resolved <> [] ->
      ScriptGenerator.main w prefix style_choice audience_choice
      = match ScriptGenerator.write_story w with
        | Ok _ =>
            ScriptGenerator.story_saved warnings
              (prefix ++ "_storyscript.txt")%string
              (ScriptGenerator.story_text prefix
                 (ScriptGenerator.style_map_get style_choice)
                 (ScriptGenerator.audience_map_get audience_choice)
                 (ScriptGenerator.analyze_all_frames_together
                    (ScriptGenerator.encode_image_to_base64 w)
                    (ScriptGenerator.create_completion w)
                    (map (info_of frames_dir) resolved)
                    (ScriptGenerator.style_map_get style_choice)
                    (ScriptGenerator.audience_map_get audience_choice)))
        | Raise e => ScriptGenerator.story_not_saved warnings e
        end).
Proof.
  intros Hp Hs Hd frames_dir resolved warnings.
  pose proof (main_after_tests w prefix style_choice audience_choice Hp Hs Hd)
    as Hmain.
  rewrite prepare_frames_resolved in Hmain.
  fold frames_dir in Hmain. fold resolved in Hmain. fold warnings in Hmain.
  split; [|split].
  - intros e Hin Hmissing. split.
    + unfold resolved. rewrite filter_In. intros [_ Hr].
      unfold resolves in Hr. rewrite Hmissing in Hr.
      now rewrite andb_false_r in Hr.
    + unfold warning_for. rewrite Hmissing.
      destruct (ScriptGenerator.falsy (ScriptGenerator.entry_frame_file e)
                || ScriptGenerator.falsy (ScriptGenerator.entry_timestamp e));
        discriminate.
  - intros Hnone. rewrite Hmain, Hnone.
    destruct (ScriptGenerator.selected_frames w); simpl; auto.
  - intros Hsome. rewrite Hmain.
    destruct (ScriptGenerator.selected_frames w) as [|e0 rest] eqn:Edoc.
    + exfalso. apply Hsome. reflexivity.
    + destruct resolved as [|r rs]; [now exfalso|]. reflexivity.
Qed.

Lemma bridge_proceeds_with_resolved_entries_witness :
  exists text,
    ScriptGenerator.main world_scenario_C "clip" "1" "1"
    = ScriptGenerator.story_saved
        [ScriptGenerator.Frame_file_not_found
           "clip_extracted_frames/frame_0002.jpg"]
        "clip_storyscript.txt" text.
Proof.
  destruct (bridge_proceeds_with_resolved_entries world_scenario_C "clip"
              "1" "1" eq_refl eq_refl eq_refl) as [_ [_ H]].
  eexists. rewrite H.
  - vm_compute. reflexivity.
  - vm_compute. discriminate.
Defined.

Lemma string_append_assoc (a b c : string) :
  ((a ++ b) ++ c)%string = (a ++ b ++ c)%string.
Proof. induction a as [|x a IH]; simpl; [reflexivity|now rewrite IH]. Qed.

(** The text of the story file, spelled out: lines 213-220. *)
Lemma story_text_spelled (prefix movie_style target_audience
    storyline : string) :
  ScriptGenerator.story_text prefix movie_style target_audience storyline
  = ("视频故事分析: " ++ prefix ++ "
电影风格: " ++ movie_style ++ "
目标观众: " ++ target_audience ++ "
================================================================================

个性化时间戳描述
----------------------------------------
" ++ storyline ++ "
")%string.
Proof.
  unfold ScriptGenerator.story_text, ScriptGenerator.story_header,
    ScriptGenerator.nl.
  rewrite !string_append_assoc. reflexivity.
Qed.

(** C9. When the call of the generation service raises,
    [analyze_all_frames_together] returns the text [Error: ] followed by the
    message of the exception, and [main] writes the story file all the same:
    the header with the prefix, the style and the audience, then that text
    as the body. *)
Theorem failed_generation_is_written_to_the_story (w : ScriptGenerator.world)
    (prefix style_choice audience_choice : string)
    (frames_data : list ScriptGenerator.frame_info)
    (warnings : list ScriptGenerator.warning)
    (parts : list ScriptGenerator.part) (e : exn) :
  Py.is_empty prefix = false ->
  ScriptGenerator.selection_file_exists w = true ->
  ScriptGenerator.frames_dir_is_dir w = true ->
  ScriptGenerator.prepare_frames (ScriptGenerator.path_exists w)
    (prefix ++ "_extracted_frames")%string (ScriptGenerator.selected_frames w)
  = (frames_data, warnings) ->
  frames_data <> [] ->
  ScriptGenerator.image_parts (ScriptGenerator.encode_image_to_base64 w)
    frames_data = Ok parts ->
  ScriptGenerator.create_completion w
    (ScriptGenerator.text_part
       (ScriptGenerator.prompt_text
          (ScriptGenerator.style_map_get style_choice)
          (ScriptGenerator.audience_map_get audience_choice)
          (ScriptGenerator.style_instructions_of
             (ScriptGenerator.style_map_get style_choice))
          (ScriptGenerator.audience_instructions_of
             (ScriptGenerator.audience_map_get audience_choice))) :: parts)
  = Raise e ->
  ScriptGenerator.write_story w = Ok tt ->
  ScriptGenerator.analyze_all_frames_together
    (ScriptGenerator.encode_image_to_base64 w)
    (ScriptGenerator.create_completion w) frames_data
    (ScriptGenerator.style_map_get style_choice)
    (ScriptGenerator.audience_map_get audience_choice)
  = ("Error: " ++ ScriptGenerator.str_exn e)%string
  /\ ScriptGenerator.main w prefix style_choice audience_choice
     = ScriptGenerator.story_saved warnings
         (prefix ++ "_storyscript.txt")%string
         ("视频故事分析: " ++ prefix ++ "
电影风格: " ++ ScriptGenerator.style_map_get style_choice ++ "
目标观众: " ++ ScriptGenerator.audience_map_get audience_choice ++ "
================================================================================

个性化时间戳描述
----------------------------------------
" ++ "Error: " ++ ScriptGenerator.str_exn e ++ "
")%string.
Proof.
  intros Hp Hs Hd Hprep Hne Hparts Hcreate Hwrite.
  pose proof (analyze_when_create_raises _ _ _ _ _ _ _ Hparts Hcreate)
    as Hstory.
  split; [exact Hstory|].
  rewrite (main_after_tests w prefix style_choice audience_choice Hp Hs Hd).
  rewrite Hprep.
  destruct (ScriptGenerator.selected_frames w) as [|e0 rest].
  - simpl in Hprep. injection Hprep as <- _. now exfalso.
  - destruct frames_data as [|f fs]; [now exfalso|].
    rewrite Hwrite, Hstory, story_text_spelled. reflexivity.
Qed.

Lemma failed_generation_is_written_to_the_story_witness :
  ScriptGenerator.main world_scenario_C "clip" "3" "2"
  = ScriptGenerator.story_saved
      [ScriptGenerator.Frame_file_not_found
         "clip_extracted_frames/frame_0002.jpg"]
      "clip_storyscript.txt"
      "视频故事分析: clip
电影风格: dramatic
目标观众: adults
================================================================================

个性化时间戳描述
----------------------------------------
Error: Connection error.
".
Proof.
  refine (proj2 (failed_generation_is_written_to_the_story world_scenario_C
                   "clip" "3" "2" _ _ _ (ExternalError "Connection error.")
                   eq_refl eq_refl eq_refl eq_refl _ eq_refl eq_refl eq_refl)).
  discriminate.
Defined.

(** ** The scenarios of the specification *)

(** Scenario A: 2 frames per second, six frames, one scene event at 1.5 s
    with score 0.42. *)
Example scenario_A_table :
  exists df,
    SceneSelection.organize_existing_frames_table
      {| SceneSelection.path_exists := true;
         SceneSelection.listdir := Ok scenario_A_files;
         SceneSelection.ffmpeg_log :=
           Ok "frame:3 pts:1500 pts_time:1.5
lavfi.scene_score=0.42
";
         SceneSelection.write_table := Ok tt |} "frames" 2
    = SceneSelection.status_success 6 2 df "frames"
    /\ map SceneSelection.Scene_Number df = [1; 1; 1; 2; 2; 2]%Z
    /\ map SceneSelection.Scene_Score df
       = [0; 0; 0; Py.rnd (42 # 100); Py.rnd (42 # 100); Py.rnd (42 # 100)]
    /\ map (fun r => SceneSelection.Timestamp (SceneSelection.frame r)) df
       = ["00:00:00.000"; "00:00:00.500"; "00:00:01.000";
          "00:00:01.500"; "00:00:02.000"; "00:00:02.500"].
Proof.
  eexists. split; [vm_compute; reflexivity|].
  repeat split; vm_compute; reflexivity.
Qed.

(** With no scene event every frame is in scene 1 with score 0. *)
Example no_event_one_scene (frames_data : list SceneSelection.frame_row) :
  Forall (fun row => SceneSelection.Scene_Number row = 1%Z
                     /\ SceneSelection.Scene_Score row = 0)
    (SceneSelection.add_scene_information frames_data []).
Proof.
  unfold SceneSelection.add_scene_information.
  apply Forall_forall. intros row Hin. apply in_map_iff in Hin.
  destruct Hin as [fr [<- _]]. split; reflexivity.
Qed.

(** Parsing is a function of the text: a garbled pair in the middle of a
    log is left out and the pairs after it are read. *)
Example garbled_pair_is_skipped :
  SceneSelection.parse_scene_log
    "frame:1 pts:500 pts_time:0.5
lavfi.scene_score=0.31
frame:2 pts:900 pts_time:
lavfi.scene_score=0.77
frame:3 pts:1500 pts_time:1.5
lavfi.scene_score=0.42
frame:4 pts:2000 pts_time:2.0"
  = [ {| SceneSelection.timestamp := 1 # 2;
         SceneSelection.scene_score := Py.rnd (31 # 100) |};
      {| SceneSelection.timestamp := 3 # 2;
         SceneSelection.scene_score := Py.rnd (42 # 100) |} ].
Proof. vm_compute. reflexivity. Qed.

(** * Further properties of the code *)

(** ** The report of a run *)

Section Report.

Import SceneSelection.

Lemma scan_scenes_upper_bound (t : Q) (scene_changes : list scene) :
  forall (n : Z) (s : Q),
    (fst (scan_scenes t scene_changes n s)
     <= n + Z.of_nat (List.length scene_changes))%Z.
Proof.
  induction scene_changes as [|sc rest IH]; intros n s.
  - simpl. lia.
  - cbn [scan_scenes List.length].
    destruct (Qle_bool (timestamp sc) t).
    + specialize (IH (n + 1)%Z (scene_score sc)). lia.
    + simpl. lia.
Qed.

Lemma fold_max_in (l : list Z) (a : Z) :
  fold_left Z.max l a = a \/ In (fold_left Z.max l a) l.
Proof.
  revert a. induction l as [|x l IH]; intros a; [now left|].
  simpl. destruct (IH (Z.max a x)) as [H|H].
  - rewrite H. destruct (Z.max_spec a x) as [[_ E]|[_ E]]; rewrite E; auto.
  - auto.
Qed.

Lemma fold_max_sorted (l : list Z) (a : Z) :
  Sorted Z.le (a :: l) -> fold_left Z.max l a = last l a.
Proof.
  revert a. induction l as [|x l IH]; intros a H; [reflexivity|].
  inversion H as [|? ? Hl Hhd]; subst. inversion Hhd; subst.
  cbn [fold_left]. rewrite Z.max_r by assumption.
  rewrite (IH x Hl). symmetry. apply last_cons_default.
Qed.

Lemma last_nth_error {A : Type} (l : list A) (a x : A) :
  nth_error (a :: l) (List.length l) = Some x -> last l a = x.
Proof.
  revert a. induction l as [|y l IH]; intros a H.
  - simpl in H. now injection H.
  - rewrite last_cons_default. apply IH. exact H.
Qed.

Lemma annotate_bounds (scene_changes : list scene) (fr : frame_row) :
  (1 <= Scene_Number (annotate scene_changes fr)
   <= 1 + Z.of_nat (List.length scene_changes))%Z.
Proof.
  rewrite annotate_scene_number. split.
  - apply scan_scenes_lower_bound.
  - apply scan_scenes_upper_bound.
Qed.

(** What a table that was built is made of, the write of the files
    included. *)
Lemma build_table_steps (w : world) (frames_dir : string) (fps : Q) :
  build_table w frames_dir fps
  = match listdir w with
    | Raise e => Raise e
    | Ok listing =>
        match frame_sampler frames_dir fps (frame_files_of listing) with
        | Raise e => Raise e
        | Ok frames_data =>
            match detect_scene_changes (ffmpeg_log w) with
            | Raise e => Raise e
            | Ok scene_changes =>
                match write_table w with
                | Raise e => Raise e
                | Ok _ =>
                    match scene_number_max
                            (add_scene_information frames_data scene_changes)
                    with
                    | Raise e => Raise e
                    | Ok total =>
                        Ok (status_success
                              (List.length
                                 (add_scene_information frames_data
                                    scene_changes))
                              total
                              (add_scene_information frames_data scene_changes)
                              frames_dir)
                    end
                end
            end
        end
    end.
Proof.
  unfold build_table.
  destruct (listdir w); simpl; [|reflexivity].
  destruct (frame_sampler _ _ _); simpl; [|reflexivity].
  destruct (detect_scene_changes _); simpl; [|reflexivity].
  destruct (write_table w); simpl; [|reflexivity].
  destruct (scene_number_max _); reflexivity.
Qed.

Lemma frame_files_not_empty (listing : list string) :
  frame_files_of listing <> []
  <-> exists f, In f listing /\ is_jpg f = true.
Proof.
  assert (Hperm : Permutation (filter is_jpg listing) (frame_files_of listing))
    by apply StringSort.Permuted_sort.
  split.
  - intros Hne. destruct (frame_files_of listing) as [|f rest] eqn:E;
      [now exfalso|].
    exists f. apply filter_In.
    eapply Permutation_in; [apply Permutation_sym; exact Hperm|now left].
  - intros [f Hf] E. rewrite E in Hperm.
    apply Permutation_sym, Permutation_nil in Hperm.
    apply filter_In in Hf. rewrite Hperm in Hf. exact Hf.
Qed.

End Report.

(** X1. [organize_existing_frames_table] reports a success exactly when the
    frames directory exists, its listing can be read and holds an entry
    ending in [.jpg], the rate is not 0, no timestamp [i / fps] of a frame
    overflows, the scene log could be produced and read, and the two files
    of the table could be written. *)
Theorem existing_frames_success_exactly_when (w : SceneSelection.world)
    (frames_dir : string) (fps : Q) :
  (exists n s df d,
     SceneSelection.organize_existing_frames_table w frames_dir fps
     = SceneSelection.status_success n s df d)
  <-> SceneSelection.path_exists w = true
      /\ (exists listing,
            SceneSelection.listdir w = Ok listing
            /\ (exists f, In f listing /\ is_jpg f = true)
            /\ forall i : nat,
                 (i < List.length (filter is_jpg listing))%nat ->
                 Py.is_finite (timestamp_of i fps) = true)
      /\ ~ (fps == 0)%Q
      /\ (exists content, SceneSelection.ffmpeg_log w = Ok content)
      /\ SceneSelection.write_table w = Ok tt.
Proof.
  assert (Hcount : forall listing,
             List.length (SceneSelection.frame_files_of listing)
             = List.length (filter is_jpg listing)).
  { intros listing. symmetry. apply Permutation_length.
    apply StringSort.Permuted_sort. }
  unfold SceneSelection.organize_existing_frames_table.
  rewrite build_table_steps. split.
  - intros [n [s [df [d H]]]].
    destruct (SceneSelection.path_exists w); [|discriminate].
    split; [reflexivity|]. simpl in H.
    destruct (SceneSelection.listdir w) as [listing|e]; [|discriminate].
    destruct (SceneSelection.frame_sampler frames_dir fps
                (SceneSelection.frame_files_of listing))
      as [frames_data|e] eqn:Es; [|discriminate].
    destruct (SceneSelection.ffmpeg_log w) as [content|e]; [|discriminate].
    simpl in H.
    destruct (SceneSelection.write_table w) as [[]|e]; [|discriminate].
    destruct (SceneSelection.frame_files_of listing) as [|f0 rest] eqn:Ef.
    + simpl in Es. injection Es as <-. discriminate.
    + assert (Hnz : Qeq_bool fps 0 = false).
      { unfold SceneSelection.frame_sampler in Es. simpl in Es.
        unfold SceneSelection.frame_timestamp, Py.truediv in Es.
        destruct (Qeq_bool fps 0); [discriminate|reflexivity]. }
      split.
      * exists listing. split; [reflexivity|]. split.
        -- apply frame_files_not_empty. rewrite Ef. discriminate.
        -- intros i Hi. rewrite <- Hcount, Ef in Hi.
           destruct (Py.is_finite (timestamp_of i fps)) eqn:Efin;
             [reflexivity|].
           destruct (sample_from_overflow frames_dir fps Hnz (f0 :: rest)
                       0 i Hi Efin) as [e He].
           unfold SceneSelection.frame_sampler in Es. congruence.
      * split; [|split; [eauto|reflexivity]].
        now apply Qeq_bool_neq.
  - intros [Hex [[listing [Hl [Hf Hfin]]] [Hfps [[content Hc] Hw]]]].
    rewrite Hex, Hl, Hc, Hw. simpl.
    assert (Hnz : Qeq_bool fps 0 = false).
    { destruct (Qeq_bool fps 0) eqn:E; [|reflexivity].
      exfalso. apply Hfps. now apply Qeq_bool_iff. }
    rewrite <- Hcount in Hfin.
    destruct (sample_from_total frames_dir fps Hnz
                (SceneSelection.frame_files_of listing) 0 Hfin)
      as [rows Hrows].
    unfold SceneSelection.frame_sampler. rewrite Hrows.
    destruct (sample_from_rows _ _ _ _ _ Hrows) as [Hlen _].
    apply frame_files_not_empty in Hf.
    destruct rows as [|r rows].
    + exfalso. destruct (SceneSelection.frame_files_of listing);
        [now apply Hf|discriminate].
    + simpl. eauto.
Qed.

(** X2. In a report of success, [total_frames] is the number of entries of
    the listing that end in [.jpg] and the number of rows of the table, the
    directory reported is the one given, and [total_scenes] is the scene
    number of one of the rows, between 1 and 1 + the number of scene events;
    at a positive rate it is the scene number of the last row. *)
Theorem report_totals (w : SceneSelection.world)
    (video_path dir : string) (fps : Q) (n : nat) (s : Z)
    (df : list SceneSelection.table_row) (d : string) :
  SceneSelection.organize_existing_frames_table w dir fps
  = SceneSelection.status_success n s df d
  \/ SceneSelection.organize_frames_table w video_path dir fps
     = SceneSelection.status_success n s df d ->
  exists listing scene_changes,
    SceneSelection.listdir w = Ok listing
    /\ SceneSelection.detect_scene_changes (SceneSelection.ffmpeg_log w)
       = Ok scene_changes
    /\ n = List.length (filter is_jpg listing)
    /\ List.length df = n
    /\ d = dir
    /\ (1 <= s <= 1 + Z.of_nat (List.length scene_changes))%Z
    /\ (exists row, In row df /\ SceneSelection.Scene_Number row = s)
    /\ ((0 < fps)%Q ->
        forall row,
          nth_error df (n - 1) = Some row ->
          SceneSelection.Scene_Number row = s).
Proof.
  intros H. apply success_is_built in H.
  destruct (build_table_ok w dir fps _ H)
    as [listing [frames_data [scene_changes [total H']]]].
  destruct H' as [Hl [Hs [Hd [Hmax Hrep]]]].
  injection Hrep as Hn Htot Hdf Hdir. subst s df d.
  exists listing, scene_changes.
  split; [exact Hl|]. split; [exact Hd|].
  destruct (sample_from_rows dir fps _ 0 frames_data Hs) as [Hlen _].
  assert (Hcount : List.length
                     (SceneSelection.add_scene_information frames_data
                        scene_changes)
                   = List.length (filter is_jpg listing)).
  { unfold SceneSelection.add_scene_information. rewrite length_map, Hlen.
    symmetry. apply Permutation_length. apply StringSort.Permuted_sort. }
  split; [now rewrite Hn|]. split; [now rewrite Hn|].
  split; [reflexivity|].
  unfold SceneSelection.add_scene_information in *.
  destruct frames_data as [|fr rest]; [discriminate|].
  simpl in Hmax. injection Hmax as Hmax.
  set (row0 := SceneSelection.annotate scene_changes fr) in *.
  set (rows := map (SceneSelection.annotate scene_changes) rest) in *.
  assert (Hin : In total (map SceneSelection.Scene_Number (row0 :: rows))).
  { rewrite <- Hmax.
    destruct (fold_max_in (map SceneSelection.Scene_Number rows)
                (SceneSelection.Scene_Number row0)) as [E|E].
    - rewrite E. now left.
    - now right. }
  apply in_map_iff in Hin. destruct Hin as [row [Hrow Hin]].
  split.
  - rewrite <- Hrow. destruct Hin as [<-|Hin].
    + apply annotate_bounds.
    + apply in_map_iff in Hin. destruct Hin as [fr' [<- _]].
      apply annotate_bounds.
  - split; [exists row; split; [exact Hin|exact Hrow]|].
    intros Hfps rowl Hlast.
    pose proof (sampled_frames_sorted _ _ _ _ Hfps Hs) as Hsorted.
    assert (Hsn : Sorted Z.le
                    (map SceneSelection.Scene_Number (row0 :: rows))).
    { apply neighbours_sorted. intros i a b Ha Hb.
      change (row0 :: rows)
        with (map (SceneSelection.annotate scene_changes) (fr :: rest))
        in Ha, Hb.
      rewrite map_map, nth_error_map in Ha, Hb.
      destruct (nth_error (fr :: rest) i) as [fa|] eqn:Ea; [|discriminate].
      destruct (nth_error (fr :: rest) (S i)) as [fb|] eqn:Eb;
        [|discriminate].
      simpl in Ha, Hb. injection Ha as <-. injection Hb as <-.
      rewrite !annotate_scene_number. apply scan_scenes_monotone.
      exact (sorted_neighbours by_time _ Hsorted i fa fb Ea Eb). }
    cbn [map] in Hsn. rewrite (fold_max_sorted _ _ Hsn) in Hmax.
    rewrite <- Hmax. symmetry.
    apply last_nth_error.
    rewrite Hn, length_map in Hlast. cbn [List.length] in Hlast.
    replace (S (List.length rest) - 1)%nat with (List.length rest) in Hlast
      by lia.
    unfold rows. rewrite !length_map.
    change (SceneSelection.Scene_Number row0
            :: map SceneSelection.Scene_Number
                 (map (SceneSelection.annotate scene_changes) rest))
      with (map SceneSelection.Scene_Number
              (map (SceneSelection.annotate scene_changes) (fr :: rest))).
    rewrite nth_error_map, Hlast. reflexivity.
Qed.

Lemma report_totals_witness :
  exists listing scene_changes,
    SceneSelection.listdir world_event_after_rounded_time = Ok listing
    /\ SceneSelection.detect_scene_changes
         (SceneSelection.ffmpeg_log world_event_after_rounded_time)
       = Ok scene_changes
    /\ 2%nat = List.length (filter is_jpg listing)
    /\ (1 <= 1 <= 1 + Z.of_nat (List.length scene_changes))%Z.
Proof.
  destruct (SceneSelection.organize_existing_frames_table
              world_event_after_rounded_time "frames" 3)
    as [err|n s df d] eqn:H; [vm_compute in H; discriminate|].
  destruct (report_totals world_event_after_rounded_time EmptyString
              "frames" 3 n s df d (or_introl H))
    as [listing [scene_changes [Hl [Hd [Hn [_ [_ [Hs _]]]]]]]].
  vm_compute in H. injection H as <- <- _ _.
  exists listing, scene_changes. auto.
Defined.

Lemma existing_frames_success_exactly_when_witness :
  exists n s df d,
    SceneSelection.organize_existing_frames_table world_event_at_28_ms
      "frames" 40
    = SceneSelection.status_success n s df d.
Proof.
  apply (proj2 (existing_frames_success_exactly_when world_event_at_28_ms
                  "frames" 40)).
  split; [reflexivity|]. split.
  - exists ["frame_0002.jpg"; "frame_0001.jpg"]. split; [reflexivity|].
    split.
    + exists "frame_0001.jpg". split; [right; now left|reflexivity].
    + intros i Hi. change (i < 2)%nat in Hi.
      destruct i as [|[|i]]; [vm_compute; reflexivity ..|lia].
  - split; [discriminate|]. split; [|reflexivity].
    eexists. reflexivity.
Defined.

(** ** How far the rounded time is from the timestamp *)

Lemma round2_decimal_close (t : Q) :
  ((Py.round_half_even (t * 100) # 100) - (1 # 200) <= t
   /\ t <= (Py.round_half_even (t * 100) # 100) + (1 # 200))%Q.
Proof.
  pose proof (round_half_even_close (t * 100)) as [Hlo Hhi].
  set (R := Py.round_half_even (t * 100)) in *.
  destruct t as [n d]. cbn [Qnum Qden Qmult] in Hlo, Hhi.
  unfold Qle, Qminus, Qplus, Qopp. cbn [Qnum Qden].
  rewrite ?Pos2Z.inj_mul in *. split; nia.
Qed.

Lemma hundredths (n : Z) : ((n # 100) * 100 == inject_Z n)%Q.
Proof. unfold Qeq, Qmult, inject_Z. cbn [Qnum Qden]. lia. Qed.

(** The float of a decimal with two places, below [2 ^ 32], is within
    [2 ^ -20] of the decimal. *)
Lemma rnd_hundredths_close (n : Z) :
  (0 <= n)%Z -> (n # 100 <= 2 ^ 32 + 1)%Q ->
  ((n # 100) - (1 # 1000000) <= Py.rnd (n # 100)
   /\ Py.rnd (n # 100) <= (n # 100) + (1 # 1000000))%Q.
Proof.
  intros Hn Hmax.
  destruct (Z_le_lt_eq_dec 0 n Hn) as [Hpos|<-].
  - assert (Hq : (2 ^ (-1022) <= n # 100)%Q).
    { apply Qle_trans with (1 # 100)%Q; [vm_compute; discriminate|].
      unfold Qle. cbn [Qnum Qden]. lia. }
    assert (Hinf : (n # 100 < Py.infinity)%Q).
    { eapply Qle_lt_trans; [exact Hmax|]. reflexivity. }
    destruct (rnd_relative_error _ Hq Hinf) as [L U].
    change (2 ^ (-53))%Q with (1 # 9007199254740992)%Q in L, U.
    change (2 ^ 32)%Q with 4294967296%Q in Hmax.
    split; lra.
  - assert (E : Py.rnd (0 # 100) = 0%Q)
      by (rewrite (rnd_Qeq _ (inject_Z 0)); [now rewrite rnd_whole|reflexivity]).
    rewrite E. split; vm_compute; discriminate.
Qed.

(** The time a row carries is within 0.0051 s of a timestamp from 0 to
    [2 ^ 32] s. *)
Lemma round2_close (t : Q) :
  (0 <= t)%Q -> (t <= 2 ^ 32)%Q ->
  (Py.round2 t - (51 # 10000) <= t /\ t <= Py.round2 t + (51 # 10000))%Q.
Proof.
  intros Hlo Hhi. unfold Py.round2.
  destruct (round2_decimal_close t) as [Dlo Dhi].
  set (n := Py.round_half_even (t * 100)) in *.
  assert (Hn : (0 <= n)%Z).
  { unfold n. rewrite <- (round_half_even_inject 0).
    apply round_half_even_monotone.
    change (inject_Z 0) with (0 * 100)%Q.
    apply Qmult_le_compat_r; [exact Hlo|discriminate]. }
  assert (Hmax : (n # 100 <= 2 ^ 32 + 1)%Q) by lra.
  destruct (rnd_hundredths_close n Hn Hmax) as [L U].
  split; lra.
Qed.

Lemma scan_scenes_same_tests (t t' : Q)
    (scene_changes : list SceneSelection.scene) :
  Forall (fun sc => Qle_bool (SceneSelection.timestamp sc) t
                    = Qle_bool (SceneSelection.timestamp sc) t')
    scene_changes ->
  forall (n : Z) (s : Q),
    SceneSelection.scan_scenes t scene_changes n s
    = SceneSelection.scan_scenes t' scene_changes n s.
Proof.
  induction 1 as [|sc rest Hsc Hrest IH]; intros n s; [reflexivity|].
  simpl. rewrite Hsc.
  destruct (Qle_bool (SceneSelection.timestamp sc) t'); [apply IH|reflexivity].
Qed.

Lemma Qle_bool_same (a t t' : Q) :
  ((a <= t)%Q <-> (a <= t')%Q) -> Qle_bool a t = Qle_bool a t'.
Proof.
  intros H. destruct (Qle_bool a t) eqn:E, (Qle_bool a t') eqn:E';
    try reflexivity.
  - apply Qle_bool_iff in E. apply H in E. apply Qle_bool_iff in E.
    congruence.
  - apply Qle_bool_iff in E'. apply H in E'. apply Qle_bool_iff in E'.
    congruence.
Qed.

(** The row of index [i] of a table that was built. *)
Lemma built_row (w : SceneSelection.world) (dir : string) (fps : Q)
    (n : nat) (s : Z) (df : list SceneSelection.table_row) (d : string) :
  SceneSelection.build_table w dir fps
  = Ok (SceneSelection.status_success n s df d) ->
  exists scene_changes,
    SceneSelection.detect_scene_changes (SceneSelection.ffmpeg_log w)
    = Ok scene_changes
    /\ forall (i : nat) (row : SceneSelection.table_row),
         nth_error df i = Some row ->
         exists f fr,
           SceneSelection.frame_timestamp i fps = Ok (timestamp_of i fps)
           /\ SceneSelection.make_row dir i f (timestamp_of i fps) = Ok fr
           /\ row = SceneSelection.annotate scene_changes fr.
Proof.
  intros H.
  destruct (build_table_ok w dir fps _ H)
    as [listing [frames_data [scene_changes [total [_ [Hs [Hd [_ Hrep]]]]]]]].
  injection Hrep as _ _ Hdf _. subst df.
  exists scene_changes. split; [exact Hd|].
  intros i row Hi.
  unfold SceneSelection.add_scene_information in Hi.
  rewrite nth_error_map in Hi.
  destruct (nth_error frames_data i) as [fr|] eqn:Efr; [|discriminate].
  simpl in Hi. injection Hi as <-.
  destruct (sample_from_rows dir fps _ 0 frames_data Hs) as [_ Hrows].
  destruct (Hrows i fr Efr) as [f [t [_ [Ht Hrow]]]].
  simpl in Ht.
  assert (Et : t = timestamp_of i fps).
  { unfold SceneSelection.frame_timestamp, Py.truediv in Ht.
    destruct (Qeq_bool fps 0); [discriminate|]. now injection Ht. }
  subst t. exists f, fr. auto.
Qed.

Lemma annotate_scan (scene_changes : list SceneSelection.scene)
    (fr : SceneSelection.frame_row) :
  (SceneSelection.Scene_Number (SceneSelection.annotate scene_changes fr),
   SceneSelection.Scene_Score (SceneSelection.annotate scene_changes fr))
  = SceneSelection.scan_scenes (SceneSelection.Time_seconds fr)
      scene_changes 1 0.
Proof.
  unfold SceneSelection.annotate.
  destruct (SceneSelection.scan_scenes _ scene_changes 1 0). reflexivity.
Qed.

(** X3. At a positive rate the time a row carries is within 0.0051 s of the
    timestamp of its frame, for timestamps up to [2 ^ 32] s: 0.005 s for the
    rounding to two decimals, the rest for the float of that decimal.  When
    no scene event has its timestamp that close to the timestamp [t] of a
    frame (each is at most [t - 0.0051] or above [t + 0.0051]), the scene
    number and the score of the row are those the comparison with [t] itself
    gives. *)
Theorem rounding_harmless_away_from_events (w : SceneSelection.world)
    (video_path dir : string) (fps : Q) (n : nat) (s : Z)
    (df : list SceneSelection.table_row) (d : string) :
  (0 < fps)%Q ->
  SceneSelection.organize_existing_frames_table w dir fps
  = SceneSelection.status_success n s df d
  \/ SceneSelection.organize_frames_table w video_path dir fps
     = SceneSelection.status_success n s df d ->
  exists scene_changes,
    SceneSelection.detect_scene_changes (SceneSelection.ffmpeg_log w)
    = Ok scene_changes
    /\ forall (i : nat) (row : SceneSelection.table_row),
         nth_error df i = Some row ->
         (timestamp_of i fps <= 2 ^ 32)%Q ->
         (SceneSelection.Time_seconds (SceneSelection.frame row)
          - (51 # 10000) <= timestamp_of i fps)%Q
         /\ (timestamp_of i fps
             <= SceneSelection.Time_seconds (SceneSelection.frame row)
                + (51 # 10000))%Q
         /\ (Forall
               (fun sc =>
                  (SceneSelection.timestamp sc
                   <= timestamp_of i fps - (51 # 10000))%Q
                  \/ (timestamp_of i fps + (51 # 10000)
                      < SceneSelection.timestamp sc)%Q)
               scene_changes ->
             (SceneSelection.Scene_Number row, SceneSelection.Scene_Score row)
             = SceneSelection.scan_scenes (timestamp_of i fps)
                 scene_changes 1 0).
Proof.
  intros Hfps H. apply success_is_built in H.
  destruct (built_row w dir fps n s df d H) as [scene_changes [Hd Hrows]].
  exists scene_changes. split; [exact Hd|].
  intros i row Hi Hmax. destruct (Hrows i row Hi) as [f [fr [_ [Hrow ->]]]].
  destruct (make_row_fields _ _ _ _ _ Hrow) as [_ [Hr _]].
  rewrite annotate_frame, Hr.
  pose proof (round2_close _ (timestamp_of_nonneg fps i Hfps) Hmax)
    as [Hlo Hhi].
  split; [exact Hlo|]. split; [exact Hhi|].
  intros Hfar. rewrite annotate_scan, Hr.
  apply scan_scenes_same_tests.
  eapply Forall_impl; [|exact Hfar].
  intros sc Hsc. cbn beta in Hsc. apply Qle_bool_same.
  destruct Hsc as [Hsc|Hsc]; split; intros Hle; lra.
Qed.

Lemma rounding_harmless_away_from_events_witness :
  exists row0 row1 row2 row3 event,
    SceneSelection.organize_existing_frames_table
      world_event_between_frames "frames" 3
    = SceneSelection.status_success 4 2 [row0; row1; row2; row3] "frames"
    /\ SceneSelection.detect_scene_changes
         (SceneSelection.ffmpeg_log world_event_between_frames)
       = Ok [event]
    /\ SceneSelection.timestamp event = 1 # 2
    /\ timestamp_of 2 3 = Py.rnd (2 # 3)
    /\ SceneSelection.Time_seconds (SceneSelection.frame row2)
       = Py.rnd (67 # 100)
    /\ (SceneSelection.Time_seconds (SceneSelection.frame row2)
        - (51 # 10000) <= timestamp_of 2 3)%Q
    /\ (SceneSelection.Scene_Number row2, SceneSelection.Scene_Score row2)
       = SceneSelection.scan_scenes (timestamp_of 2 3) [event] 1 0
    /\ SceneSelection.Scene_Number row2 = 2%Z.
Proof.
  assert (Hfps : (0 < 3)%Q) by reflexivity.
  destruct (SceneSelection.organize_existing_frames_table
              world_event_between_frames "frames" 3)
    as [err|n s df d] eqn:H; [vm_compute in H; discriminate|].
  destruct (rounding_harmless_away_from_events world_event_between_frames
              EmptyString "frames" 3 n s df d Hfps (or_introl H))
    as [scene_changes [Hd Hrows]].
  vm_compute in H. injection H as <- <- <- <-.
  assert (Hd' := Hd). vm_compute in Hd'. injection Hd' as <-.
  destruct (Hrows 2%nat _ eq_refl) as [Hlo [_ Hsame]];
    [vm_compute; discriminate|].
  eexists. eexists. eexists. eexists. eexists.
  split; [reflexivity|]. split; [exact Hd|].
  split; [vm_compute; reflexivity|].
  split; [vm_compute; reflexivity|].
  split; [vm_compute; reflexivity|].
  split; [exact Hlo|]. split; [|reflexivity].
  apply Hsame.
  constructor; [left; vm_compute; discriminate|constructor].
Defined.

(** ** Rates at which the rounding changes nothing *)

Lemma scan_scenes_Qeq (t t' : Q) (scene_changes : list SceneSelection.scene)
    (n : Z) (s : Q) :
  (t == t')%Q ->
  SceneSelection.scan_scenes t scene_changes n s
  = SceneSelection.scan_scenes t' scene_changes n s.
Proof.
  intros E. apply scan_scenes_same_tests.
  apply Forall_forall. intros sc _. apply Qle_bool_same. now rewrite E.
Qed.

(** The float of a decimal with two places and at most 52 bits is kept by
    [round(x, 2)]. *)
Lemma round2_of_hundredths (n : Z) :
  (0 <= n < 2 ^ 52)%Z -> Py.round2 (Py.rnd (n # 100)) = Py.rnd (n # 100).
Proof.
  intros [Hlo Hhi]. unfold Py.round2. apply rnd_Qeq.
  assert (E : Py.round_half_even (Py.rnd (n # 100) * 100) = n).
  { destruct (Z_le_lt_eq_dec 0 n Hlo) as [Hpos|<-].
    - assert (Hq : (2 ^ (-1022) <= n # 100)%Q).
      { apply Qle_trans with (1 # 100)%Q; [vm_compute; discriminate|].
        unfold Qle. cbn [Qnum Qden]. lia. }
      assert (Hn : (inject_Z n <= 4503599627370495)%Q).
      { change 4503599627370495%Q with (inject_Z (2 ^ 52 - 1)).
        rewrite <- Zle_Qle. lia. }
      assert (Hn0 : (1 <= inject_Z n)%Q).
      { change 1%Q with (inject_Z 1). rewrite <- Zle_Qle. lia. }
      pose proof (hundredths n) as Hh.
      assert (Hinf : (n # 100 < Py.infinity)%Q).
      { apply Qle_lt_trans with 4503599627370495%Q; [|reflexivity]. lra. }
      destruct (rnd_relative_error _ Hq Hinf) as [L U].
      change (2 ^ (-53))%Q with (1 # 9007199254740992)%Q in L, U.
      apply round_half_even_near; lra.
    - apply round_half_even_whole.
      rewrite (rnd_Qeq _ (inject_Z 0)) by reflexivity.
      rewrite rnd_whole by (simpl; lia). reflexivity. }
  rewrite E. reflexivity.
Qed.

(** At a whole rate that divides 100 the timestamps are floats of decimals
    with two places. *)
Lemma timestamp_of_hundredths (p : positive) (k : Z) (i : nat) :
  (Zpos p * k = 100)%Z ->
  timestamp_of i (inject_Z (Zpos p)) = Py.rnd (Z.of_nat i * k # 100).
Proof.
  intros Hk. unfold timestamp_of. apply rnd_Qeq.
  unfold Qeq, Qdiv, Qinv, Qmult, inject_Z. cbn [Qnum Qden].
  rewrite Pos.mul_1_l, Z.mul_1_r.
  change (Zpos 100) with 100%Z. rewrite <- Hk. ring.
Qed.

(** X4. At a whole rate that divides 100, such as the rate 1 of [main] and
    the default rate 2, the time a row carries equals the timestamp of its
    frame, for the first [2 ^ 45] frames, and the scene number and the score
    of such a row are those the comparison with the timestamp itself
    gives. *)
Theorem rounding_exact_at_divisors_of_100 (w : SceneSelection.world)
    (video_path dir : string) (p : positive) (n : nat) (s : Z)
    (df : list SceneSelection.table_row) (d : string) :
  (Zpos p | 100)%Z ->
  SceneSelection.organize_existing_frames_table w dir (inject_Z (Zpos p))
  = SceneSelection.status_success n s df d
  \/ SceneSelection.organize_frames_table w video_path dir
       (inject_Z (Zpos p))
     = SceneSelection.status_success n s df d ->
  exists scene_changes,
    SceneSelection.detect_scene_changes (SceneSelection.ffmpeg_log w)
    = Ok scene_changes
    /\ forall (i : nat) (row : SceneSelection.table_row),
         nth_error df i = Some row ->
         (Z.of_nat i < 2 ^ 45)%Z ->
         SceneSelection.Time_seconds (SceneSelection.frame row)
         = timestamp_of i (inject_Z (Zpos p))
         /\ (SceneSelection.Scene_Number row, SceneSelection.Scene_Score row)
            = SceneSelection.scan_scenes
                (timestamp_of i (inject_Z (Zpos p))) scene_changes 1 0.
Proof.
  intros [k Hk] H. apply success_is_built in H.
  destruct (built_row w dir _ n s df d H) as [scene_changes [Hd Hrows]].
  exists scene_changes. split; [exact Hd|].
  intros i row Hi Hmax. destruct (Hrows i row Hi) as [f [fr [_ [Hrow ->]]]].
  destruct (make_row_fields _ _ _ _ _ Hrow) as [_ [Hr _]].
  assert (Hk' : (Zpos p * k = 100)%Z) by lia.
  assert (E : Py.round2 (timestamp_of i (inject_Z (Zpos p)))
              = timestamp_of i (inject_Z (Zpos p))).
  { rewrite (timestamp_of_hundredths p k i Hk').
    apply round2_of_hundredths. nia. }
  rewrite annotate_frame, annotate_scan, Hr, E. auto.
Qed.

Lemma rounding_exact_at_divisors_of_100_witness :
  exists row0 row1 row2 row3 event,
    SceneSelection.organize_existing_frames_table
      world_event_between_frames "frames" (inject_Z (Zpos 5))
    = SceneSelection.status_success 4 2 [row0; row1; row2; row3] "frames"
    /\ SceneSelection.detect_scene_changes
         (SceneSelection.ffmpeg_log world_event_between_frames)
       = Ok [event]
    /\ SceneSelection.Time_seconds (SceneSelection.frame row3)
       = timestamp_of 3 5
    /\ timestamp_of 3 5 = Py.rnd (6 # 10)
    /\ (SceneSelection.Scene_Number row3, SceneSelection.Scene_Score row3)
       = SceneSelection.scan_scenes (timestamp_of 3 5) [event] 1 0
    /\ SceneSelection.Scene_Number row3 = 2%Z.
Proof.
  assert (Hdiv : (Zpos 5 | 100)%Z) by (exists 20%Z; reflexivity).
  destruct (SceneSelection.organize_existing_frames_table
              world_event_between_frames "frames" (inject_Z (Zpos 5)))
    as [err|n s df d] eqn:H; [vm_compute in H; discriminate|].
  destruct (rounding_exact_at_divisors_of_100 world_event_between_frames
              EmptyString "frames" 5 n s df d Hdiv (or_introl H))
    as [scene_changes [Hd Hrows]].
  vm_compute in H. injection H as <- <- <- <-.
  assert (Hd' := Hd). vm_compute in Hd'. injection Hd' as <-.
  destruct (Hrows 3%nat _ eq_refl) as [Ht Hsc]; [reflexivity|].
  eexists. eexists. eexists. eexists. eexists.
  split; [reflexivity|]. split; [exact Hd|].
  split; [exact Ht|]. split; [vm_compute; reflexivity|].
  split; [exact Hsc|reflexivity].
Defined.

(** ** The label of a timestamp *)

Lemma floor_unique (x : Q) (z : Z) :
  (inject_Z z <= x)%Q -> (x < inject_Z z + 1)%Q -> Qfloor x = z.
Proof.
  intros Hlo Hhi.
  pose proof (Qfloor_le x) as Fl. pose proof (Qlt_floor x) as Fh.
  rewrite inject_Z_plus in Fh. change (inject_Z 1) with 1%Q in Fh.
  assert (H1 : (inject_Z z < inject_Z (Qfloor x + 1))%Q)
    by (rewrite inject_Z_plus; change (inject_Z 1) with 1%Q; lra).
  assert (H2 : (inject_Z (Qfloor x) < inject_Z (z + 1))%Q)
    by (rewrite inject_Z_plus; change (inject_Z 1) with 1%Q; lra).
  rewrite <- Zlt_Qlt in H1, H2. lia.
Qed.

Lemma floor_bounds (x : Q) :
  (inject_Z (Qfloor x) <= x /\ x < inject_Z (Qfloor x) + 1)%Q.
Proof.
  split; [apply Qfloor_le|].
  pose proof (Qlt_floor x) as H. rewrite inject_Z_plus in H. exact H.
Qed.

Lemma floor_div_bounds (x c : Q) :
  (0 < c)%Q ->
  (c * inject_Z (Qfloor (x / c)) <= x
   /\ x < c * inject_Z (Qfloor (x / c)) + c)%Q.
Proof.
  intros Hc. destruct (floor_bounds (x / c)) as [Hlo Hhi].
  assert (E : (x == c * (x / c))%Q) by (field; lra).
  split.
  - rewrite E at 2. apply Qmult_le_l; assumption.
  - rewrite E at 1.
    setoid_replace (c * inject_Z (Qfloor (x / c)) + c)%Q
      with (c * (inject_Z (Qfloor (x / c)) + 1))%Q by ring.
    apply Qmult_lt_l; assumption.
Qed.

Lemma floor_div_unique (x c : Q) (z : Z) :
  (0 < c)%Q ->
  (c * inject_Z z <= x)%Q -> (x < c * inject_Z z + c)%Q ->
  Qfloor (x / c) = z.
Proof.
  intros Hc Hlo Hhi.
  assert (E : (x == c * (x / c))%Q) by (field; lra).
  apply floor_unique.
  - rewrite E in Hlo. now apply Qmult_le_l in Hlo.
  - rewrite E in Hhi.
    setoid_replace (c * inject_Z z + c)%Q
      with (c * (inject_Z z + 1))%Q in Hhi by ring.
    now apply Qmult_lt_l in Hhi.
Qed.

Lemma int_of_float_nonneg (x : Q) :
  (0 <= x)%Q -> Py.int_of_float x = Qfloor x.
Proof.
  intros H. unfold Py.int_of_float.
  apply Qle_bool_iff in H. now rewrite H.
Qed.

Lemma int_of_float_whole (z : Z) : Py.int_of_float (inject_Z z) = z.
Proof.
  unfold Py.int_of_float.
  destruct (Qle_bool 0 (inject_Z z)); [apply Qfloor_Z|apply Qceiling_Z].
Qed.

Lemma whole_between (z lo hi : Z) :
  (inject_Z lo - 1 < inject_Z z)%Q -> (inject_Z z < inject_Z hi)%Q ->
  (lo <= z < hi)%Z.
Proof.
  intros Hlo Hhi. rewrite <- Zlt_Qlt in Hhi.
  assert (H : (inject_Z (lo - 1) < inject_Z z)%Q).
  { replace (lo - 1)%Z with (lo + -1)%Z by lia. rewrite inject_Z_plus.
    change (inject_Z (-1)) with (-1 # 1)%Q. lra. }
  rewrite <- Zlt_Qlt in H. lia.
Qed.

Section FloatDivMod.

Local Open Scope Q_scope.

Lemma lt_false (a b : Q) : b <= a -> Py.lt a b = false.
Proof.
  intros H. unfold Py.lt. apply Qle_bool_iff in H. now rewrite H.
Qed.

(** The remainder of a time that is not negative by a positive divisor. *)
Lemma fmod_nonneg (vx wx : Q) :
  0 <= vx -> 0 < wx ->
  Py.fmod vx wx == vx - wx * inject_Z (Qfloor (vx / wx))
  /\ 0 <= Py.fmod vx wx /\ Py.fmod vx wx < wx.
Proof.
  intros Hv Hw. unfold Py.fmod.
  assert (Hq : 0 <= vx / wx).
  { unfold Qdiv. apply Qmult_le_0_compat; [exact Hv|].
    now apply Qlt_le_weak, Qinv_lt_0_compat. }
  rewrite (int_of_float_nonneg _ Hq).
  destruct (floor_div_bounds vx wx Hw) as [Hlo Hhi].
  split; [reflexivity|]. split; lra.
Qed.

Lemma wrong_sign_nonneg (m wx : Q) :
  0 <= m -> 0 < wx -> Py.wrong_sign m wx = false.
Proof.
  intros Hm Hw. unfold Py.wrong_sign.
  rewrite (lt_false wx 0) by now apply Qlt_le_weak.
  rewrite (lt_false m 0) by exact Hm.
  simpl. apply andb_false_r.
Qed.

Lemma float_mod_nonneg (vx wx : Q) :
  0 <= vx -> 0 < wx -> Py.float_mod vx wx = Py.fmod vx wx.
Proof.
  intros Hv Hw. unfold Py.float_mod.
  destruct (fmod_nonneg vx wx Hv Hw) as [_ [Hm _]].
  now rewrite (wrong_sign_nonneg _ _ Hm Hw).
Qed.

(** The quotient of a time that is not negative by a whole divisor, when
    the multiple of the divisor below the time has at most 53 bits. *)
Lemma float_floordiv_nonneg (vx : Q) (c : Z) :
  0 <= vx -> (0 < c)%Z ->
  (c * Qfloor (vx / inject_Z c) <= 2 ^ 53)%Z ->
  Py.float_floordiv vx (inject_Z c) = inject_Z (Qfloor (vx / inject_Z c)).
Proof.
  intros Hv Hc Hmax.
  assert (Hw : 0 < inject_Z c)
    by (change 0 with (inject_Z 0); now rewrite <- Zlt_Qlt).
  destruct (fmod_nonneg vx (inject_Z c) Hv Hw) as [Em [Hm _]].
  set (K := Qfloor (vx / inject_Z c)) in *.
  assert (HK : (0 <= K)%Z).
  { unfold K. change 0%Z with (Qfloor 0). apply Qfloor_resp_le.
    unfold Qdiv. apply Qmult_le_0_compat; [exact Hv|].
    now apply Qlt_le_weak, Qinv_lt_0_compat. }
  unfold Py.float_floordiv.
  rewrite (wrong_sign_nonneg _ _ Hm Hw).
  assert (E1 : Py.rnd (vx - Py.fmod vx (inject_Z c)) = inject_Z (c * K)).
  { rewrite (rnd_Qeq _ (inject_Z (c * K))).
    - apply rnd_whole. nia.
    - rewrite Em, inject_Z_mult. ring. }
  rewrite E1.
  assert (E2 : Py.rnd (inject_Z (c * K) / inject_Z c) = inject_Z K).
  { rewrite (rnd_Qeq _ (inject_Z K)).
    - apply rnd_whole. nia.
    - rewrite inject_Z_mult. field. lra. }
  rewrite E2.
  destruct (Qeq_bool (inject_Z K) 0) eqn:E0.
  - apply Qeq_bool_iff in E0. change 0 with (inject_Z 0) in E0.
    apply (proj1 (inject_Z_injective K 0)) in E0. now rewrite E0.
  - rewrite Qfloor_Z.
    assert (E3 : Py.rnd (inject_Z K - inject_Z K) = 0).
    { rewrite (rnd_Qeq _ (inject_Z 0)) by ring. now rewrite rnd_whole. }
    rewrite E3. rewrite lt_false by discriminate. reflexivity.
Qed.

(** A finite float from [1/2] on is a multiple of [2 ^ -53]. *)
Lemma float_grid (s : Q) :
  1 # 2 <= s -> is_float s = true ->
  exists M : Z, s == inject_Z M * 2 ^ (-53).
Proof.
  intros Hs Hf. unfold is_float in Hf. apply andb_prop in Hf as [Hr Hfin].
  apply Qeq_bool_iff in Hr.
  assert (Hpos : 0 < s) by lra.
  assert (Hinf : s < Py.infinity).
  { unfold Py.is_finite in Hfin. apply negb_true_iff in Hfin.
    apply Qnot_le_lt. intros C.
    assert (T : Qle_bool Py.infinity (Qabs s) = true).
    { apply Qle_bool_iff. rewrite Qabs_pos; [exact C|lra]. }
    congruence. }
  rewrite (rnd_of_nonneg s (Qlt_le_weak _ _ Hpos)) in Hr.
  rewrite (rnd_pos_small s (Qlt_le_weak _ _ Hpos) Hinf) in Hr.
  unfold unbounded in Hr.
  assert (He : (-53 <= Py.binade s)%Z).
  { assert (L : (-1 <= Py.ilog2 s)%Z) by (apply ilog2_above; exact Hs).
    unfold Py.binade. lia. }
  exists (mantissa s * 2 ^ (Py.binade s + 53))%Z.
  rewrite <- Hr at 1.
  rewrite inject_Z_mult, pow2_inject by lia.
  rewrite <- Qmult_assoc, <- pow2_add.
  replace (Py.binade s + 53 + -53)%Z with (Py.binade s) by lia.
  reflexivity.
Qed.

(** The fractional part of a finite float that is not negative is at most
    [1 - 2 ^ -53]. *)
Lemma frac_of_float (s : Q) :
  0 <= s -> is_float s = true -> frac s <= 1 - 2 ^ (-53).
Proof.
  intros Hs Hf. unfold frac.
  destruct (floor_bounds s) as [Flo Fhi].
  destruct (Qlt_le_dec s (1 # 2)) as [Hsmall|Hbig].
  - assert (E : Qfloor s = 0%Z).
    { apply floor_unique; change (inject_Z 0) with 0; lra. }
    rewrite E. change (inject_Z 0) with 0.
    change (2 ^ (-53)) with (1 # 9007199254740992). lra.
  - destruct (float_grid s Hbig Hf) as [M HM].
    set (F := Qfloor s) in *.
    set (J := (M - F * 2 ^ 53)%Z).
    assert (EJ : s - inject_Z F == inject_Z J * 2 ^ (-53)).
    { unfold J. unfold Z.sub. rewrite inject_Z_plus, inject_Z_opp,
        inject_Z_mult.
      rewrite HM.
      change (inject_Z (2 ^ 53)) with (2 ^ 53).
      change (2 ^ 53) with 9007199254740992.
      change (2 ^ (-53)) with (1 # 9007199254740992). field. }
    assert (HJ : (J < 2 ^ 53)%Z).
    { rewrite Zlt_Qlt.
      assert (A : inject_Z J * 2 ^ (-53) < 1) by (rewrite <- EJ; lra).
      change (2 ^ (-53)) with (1 # 9007199254740992) in A.
      change (inject_Z (2 ^ 53)) with 9007199254740992. lra. }
    rewrite EJ.
    assert (B : inject_Z J <= 9007199254740991).
    { change 9007199254740991 with (inject_Z (2 ^ 53 - 1)).
      rewrite <- Zle_Qle. lia. }
    change (2 ^ (-53)) with (1 # 9007199254740992). lra.
Qed.

(** What [int] makes of the float of a number that is not negative: its
    floor, or one more when the rounding reaches the next whole number. *)
Lemma int_of_rnd (y : Q) :
  0 <= y -> y <= 2 ^ 52 ->
  (Qfloor y <= Py.int_of_float (Py.rnd y) <= Qfloor y + 1)%Z.
Proof.
  intros Hlo Hhi. destruct (floor_bounds y) as [Flo Fhi].
  set (k := Qfloor y) in *.
  assert (Hk : (0 <= k)%Z).
  { unfold k. change 0%Z with (Qfloor 0). now apply Qfloor_resp_le. }
  assert (Hk' : (k <= 2 ^ 52)%Z).
  { rewrite Zle_Qle. change (inject_Z (2 ^ 52)) with (2 ^ 52). lra. }
  assert (L : inject_Z k <= Py.rnd y).
  { rewrite <- (rnd_whole k) by lia. apply rnd_monotone. exact Flo. }
  assert (U : Py.rnd y <= inject_Z (k + 1)).
  { rewrite <- (rnd_whole (k + 1)) by lia. apply rnd_monotone.
    rewrite inject_Z_plus. change (inject_Z 1) with 1. lra. }
  assert (P : 0 <= Py.rnd y) by now apply rnd_nonneg.
  rewrite (int_of_float_nonneg _ P).
  split.
  - rewrite <- (Qfloor_Z k). now apply Qfloor_resp_le.
  - rewrite <- (Qfloor_Z (k + 1)). now apply Qfloor_resp_le.
Qed.

End FloatDivMod.

(** The fields of the label of a time from 0 to [2 ^ 53] s: hours, minutes
    and seconds are the digits of the floor of the time, in base 60 above
    the second; the milliseconds are the floor of 1000 times the fractional
    part, or one more; for a float they are below 1000. *)
Lemma timestamp_fields_facts (seconds : Q) :
  (0 <= seconds)%Q -> (seconds <= 2 ^ 53)%Q ->
  let '(h, m, sec, ms) := timestamp_fields seconds in
  (0 <= h)%Z /\ (0 <= m < 60)%Z /\ (0 <= sec < 60)%Z
  /\ (h * 3600 + m * 60 + sec = Qfloor seconds)%Z
  /\ (Qfloor (frac seconds * 1000) <= ms
      <= Qfloor (frac seconds * 1000) + 1)%Z
  /\ (0 <= ms <= 1000)%Z
  /\ (is_float seconds = true -> ms <= 999)%Z
  /\ ms = Py.int_of_float (Py.rnd (frac seconds * 1000)).
Proof.
  intros Hlo Hhi. unfold timestamp_fields.
  (* hours *)
  destruct (floor_div_bounds seconds 3600 ltac:(reflexivity)) as [Hh1 Hh2].
  set (h := Qfloor (seconds / 3600)) in *.
  assert (Hh0 : (0 <= h)%Z).
  { unfold h. change 0%Z with (Qfloor 0). apply Qfloor_resp_le.
    unfold Qdiv. apply Qmult_le_0_compat; [exact Hlo|discriminate]. }
  assert (Eh : Py.float_floordiv seconds 3600 = inject_Z h).
  { apply (float_floordiv_nonneg seconds 3600 Hlo); [reflexivity|].
    change (Qfloor (seconds / inject_Z 3600)) with h.
    rewrite Zle_Qle, inject_Z_mult.
    change (inject_Z 3600) with 3600%Q.
    change (inject_Z (2 ^ 53)) with (2 ^ 53)%Q. lra. }
  rewrite Eh, int_of_float_whole.
  (* minutes *)
  rewrite (float_mod_nonneg seconds 3600 Hlo ltac:(reflexivity)).
  destruct (fmod_nonneg seconds 3600 Hlo ltac:(reflexivity))
    as [Er [Hr1 Hr2]].
  fold h in Er. set (r := Py.fmod seconds 3600) in *.
  destruct (floor_div_bounds r 60 ltac:(reflexivity)) as [Hm1 Hm2].
  set (m := Qfloor (r / 60)) in *.
  assert (Hm : (0 <= m < 60)%Z).
  { apply whole_between.
    - change (inject_Z 0) with 0%Q. lra.
    - change (inject_Z 60) with 60%Q. lra. }
  assert (Em : Py.float_floordiv r 60 = inject_Z m).
  { apply (float_floordiv_nonneg r 60 Hr1); [reflexivity|].
    change (Qfloor (r / inject_Z 60)) with m.
    change (2 ^ 53)%Z with 9007199254740992%Z. lia. }
  rewrite Em, int_of_float_whole.
  (* seconds *)
  rewrite (float_mod_nonneg seconds 60 Hlo ltac:(reflexivity)).
  destruct (fmod_nonneg seconds 60 Hlo ltac:(reflexivity))
    as [Er2 [Hs1 Hs2]].
  assert (H60 : Qfloor (seconds / 60) = (h * 60 + m)%Z).
  { apply floor_div_unique; [reflexivity| |];
      rewrite inject_Z_plus, inject_Z_mult;
      change (inject_Z 60) with 60%Q; lra. }
  rewrite H60 in Er2. set (r2 := Py.fmod seconds 60) in *.
  rewrite (int_of_float_nonneg r2 Hs1).
  destruct (floor_bounds r2) as [Hsec1 Hsec2].
  set (sec := Qfloor r2) in *.
  assert (Hsec : (0 <= sec < 60)%Z).
  { apply whole_between.
    - change (inject_Z 0) with 0%Q. lra.
    - change (inject_Z 60) with 60%Q. lra. }
  assert (Hfl : Qfloor seconds = (h * 3600 + m * 60 + sec)%Z).
  { rewrite inject_Z_plus, inject_Z_mult in Er2.
    change (inject_Z 60) with 60%Q in Er2.
    apply floor_unique; rewrite !inject_Z_plus, !inject_Z_mult;
      change (inject_Z 60) with 60%Q; change (inject_Z 3600) with 3600%Q;
      lra. }
  (* milliseconds *)
  rewrite (float_mod_nonneg seconds 1 Hlo ltac:(reflexivity)).
  destruct (fmod_nonneg seconds 1 Hlo ltac:(reflexivity))
    as [Ef [Hf1 Hf2]].
  assert (Efrac : (Py.fmod seconds 1 == frac seconds)%Q).
  { rewrite Ef. unfold frac.
    assert (E1 : Qfloor (seconds / 1) = Qfloor seconds)
      by (apply Qfloor_comp; field).
    rewrite E1. ring. }
  unfold Py.float_mul.
  rewrite (rnd_Qeq (Py.fmod seconds 1 * 1000) (frac seconds * 1000))
    by (now rewrite Efrac).
  rewrite Efrac in Hf1, Hf2.
  set (y := (frac seconds * 1000)%Q) in *.
  assert (Hy1 : (0 <= y)%Q) by (unfold y; lra).
  assert (Hy2 : (y < 1000)%Q) by (unfold y; lra).
  assert (Hy3 : (y <= 2 ^ 52)%Q)
    by (change (2 ^ 52)%Q with 4503599627370496%Q; lra).
  pose proof (int_of_rnd y Hy1 Hy3) as Hms.
  set (ms := Py.int_of_float (Py.rnd y)) in *.
  destruct (floor_bounds y) as [Hk1 Hk2].
  assert (Hk : (0 <= Qfloor y < 1000)%Z).
  { apply whole_between.
    - change (inject_Z 0) with 0%Q. lra.
    - change (inject_Z 1000) with 1000%Q. lra. }
  split; [exact Hh0|]. split; [exact Hm|]. split; [exact Hsec|].
  split; [now rewrite Hfl|]. split; [exact Hms|]. split; [lia|].
  split; [|reflexivity].
  intros Hfloat.
  pose proof (frac_of_float seconds Hlo Hfloat) as Hfr.
  change (2 ^ (-53))%Q with (1 # 9007199254740992)%Q in Hfr.
  set (B := (1000 - (1000 # 9007199254740992))%Q).
  assert (HyB : (y <= B)%Q) by (unfold y, B; lra).
  pose proof (rnd_monotone _ _ HyB) as HB.
  assert (EB : (Py.rnd B < 1000)%Q) by (vm_compute; reflexivity).
  assert (P : (0 <= Py.rnd y)%Q) by now apply rnd_nonneg.
  unfold ms. rewrite (int_of_float_nonneg _ P).
  destruct (floor_bounds (Py.rnd y)) as [G1 G2].
  assert (G : (inject_Z (Qfloor (Py.rnd y)) < inject_Z 1000)%Q)
    by (change (inject_Z 1000) with 1000%Q; lra).
  rewrite <- Zlt_Qlt in G. lia.
Qed.

Lemma finite_in_range (seconds : Q) :
  (0 <= seconds)%Q -> (seconds <= 2 ^ 53)%Q ->
  Py.is_finite seconds = true.
Proof.
  intros Hlo Hhi. unfold Py.is_finite. apply negb_true_iff.
  destruct (Qle_bool Py.infinity (Qabs seconds)) eqn:E; [|reflexivity].
  apply Qle_bool_iff in E. rewrite Qabs_pos in E by exact Hlo.
  exfalso. revert E. apply Qlt_not_le.
  eapply Qle_lt_trans; [exact Hhi|]. reflexivity.
Qed.

Lemma format_timestamp_of_fields (seconds : Q) :
  Py.is_finite seconds = true ->
  let '(h, m, sec, ms) := timestamp_fields seconds in
  SceneSelection.format_timestamp seconds
  = Ok (Py.format_0d 2 h ++ ":" ++ Py.format_0d 2 m ++ ":"
        ++ Py.format_0d 2 sec ++ "." ++ Py.format_0d 3 ms)%string.
Proof.
  intros H. unfold timestamp_fields, SceneSelection.format_timestamp.
  now rewrite H.
Qed.

(** X5. The label [format_timestamp] makes of a time from 0 to [2 ^ 53] s
    is made of the zero-padded hours, minutes and seconds of the floor of
    that time, minutes and seconds below 60, and of three digits or more
    for the milliseconds: the floor of 1000 times the fractional part of
    the time, or one more when the float of that product is the next whole
    number; for a time that is a float they are at most 999. *)
Theorem format_timestamp_fields (seconds : Q) :
  (0 <= seconds)%Q -> (seconds <= 2 ^ 53)%Q ->
  let '(h, m, sec, ms) := timestamp_fields seconds in
  SceneSelection.format_timestamp seconds
  = Ok (Py.format_0d 2 h ++ ":" ++ Py.format_0d 2 m ++ ":"
        ++ Py.format_0d 2 sec ++ "." ++ Py.format_0d 3 ms)%string
  /\ (0 <= m < 60)%Z /\ (0 <= sec < 60)%Z
  /\ ((h * 60 + m) * 60 + sec = Qfloor seconds)%Z
  /\ (Qfloor (frac seconds * 1000) <= ms
      <= Qfloor (frac seconds * 1000) + 1)%Z
  /\ (is_float seconds = true -> ms <= 999)%Z.
Proof.
  intros Hlo Hhi.
  pose proof (timestamp_fields_facts seconds Hlo Hhi) as H.
  pose proof (format_timestamp_of_fields seconds
                (finite_in_range seconds Hlo Hhi)) as L.
  destruct (timestamp_fields seconds) as [[[h m] sec] ms].
  destruct H as [_ [Hm [Hsec [Hfl [Hms [_ [Hmax _]]]]]]].
  split; [exact L|]. split; [exact Hm|]. split; [exact Hsec|].
  split; [rewrite <- Hfl; ring|]. split; [exact Hms|exact Hmax].
Qed.

Lemma format_timestamp_fields_witness :
  (0 <= Py.rnd (12 # 10))%Q /\ (Py.rnd (12 # 10) <= 2 ^ 53)%Q
  /\ timestamp_fields (Py.rnd (12 # 10)) = (0, 0, 1, 199)%Z
  /\ SceneSelection.format_timestamp (Py.rnd (12 # 10)) = Ok "00:00:01.199"
  /\ Qfloor (frac (Py.rnd (12 # 10)) * 1000) = 199%Z.
Proof.
  assert (Hlo : (0 <= Py.rnd (12 # 10))%Q) by (vm_compute; discriminate).
  assert (Hhi : (Py.rnd (12 # 10) <= 2 ^ 53)%Q) by (vm_compute; discriminate).
  split; [exact Hlo|]. split; [exact Hhi|].
  pose proof (format_timestamp_fields (Py.rnd (12 # 10)) Hlo Hhi) as H.
  assert (E : timestamp_fields (Py.rnd (12 # 10)) = (0, 0, 1, 199)%Z)
    by (vm_compute; reflexivity).
  rewrite E in H. destruct H as [L _].
  split; [exact E|]. split; [exact L|]. vm_compute. reflexivity.
Defined.

Lemma format_0d_width (width bound : nat) :
  forallb (fun k => (String.length (Py.format_0d width (Z.of_nat k))
                     =? width)%nat) (seq 0 bound) = true ->
  forall z : Z,
    (0 <= z < Z.of_nat bound)%Z ->
    String.length (Py.format_0d width z) = width.
Proof.
  intros Hall z Hz. rewrite forallb_forall in Hall.
  specialize (Hall (Z.to_nat z)).
  rewrite Z2Nat.id in Hall by lia.
  apply Nat.eqb_eq. apply Hall. apply in_seq. lia.
Qed.

(** X6. For a time that is a float from 0 up to, not including, 100 hours
    [format_timestamp] returns a label of exactly 12 characters, the width
    of [HH:MM:SS.mmm]. *)
Theorem format_timestamp_width (seconds : Q) :
  is_float seconds = true ->
  (0 <= seconds)%Q -> (seconds < 360000)%Q ->
  exists label,
    SceneSelection.format_timestamp seconds = Ok label
    /\ String.length label = 12%nat.
Proof.
  intros Hfloat Hlo Hhi.
  assert (Hhi' : (seconds <= 2 ^ 53)%Q)
    by (change (2 ^ 53)%Q with 9007199254740992%Q; lra).
  pose proof (timestamp_fields_facts seconds Hlo Hhi') as H.
  pose proof (format_timestamp_of_fields seconds
                (finite_in_range seconds Hlo Hhi')) as L.
  destruct (timestamp_fields seconds) as [[[h m] sec] ms].
  destruct H as [Hh [Hm [Hsec [Hfl [_ [Hms [Hmax _]]]]]]].
  specialize (Hmax Hfloat).
  eexists. split; [exact L|].
  assert (Hfloor : (Qfloor seconds < 360000)%Z).
  { destruct (floor_bounds seconds) as [Hf _].
    assert (Hq : (inject_Z (Qfloor seconds) < inject_Z 360000)%Q)
      by (change (inject_Z 360000) with 360000%Q; lra).
    now rewrite <- Zlt_Qlt in Hq. }
  assert (Hh' : (0 <= h < 100)%Z) by lia.
  assert (W2 : forall z, (0 <= z < 100)%Z ->
                         String.length (Py.format_0d 2 z) = 2%nat)
    by (apply (format_0d_width 2 100); vm_compute; reflexivity).
  assert (W3 : forall z, (0 <= z < 1000)%Z ->
                         String.length (Py.format_0d 3 z) = 3%nat)
    by (apply (format_0d_width 3 1000); vm_compute; reflexivity).
  rewrite !string_length_append.
  rewrite (W2 h Hh'), (W2 m ltac:(lia)), (W2 sec ltac:(lia)),
    (W3 ms ltac:(lia)).
  reflexivity.
Qed.

Lemma format_timestamp_width_witness :
  exists label,
    SceneSelection.format_timestamp (Py.rnd (36625 # 10)) = Ok label
    /\ String.length label = 12%nat.
Proof.
  apply format_timestamp_width.
  - vm_compute. reflexivity.
  - vm_compute. discriminate.
  - vm_compute. reflexivity.
Defined.

(** ** More on the two parsers *)

Lemma lstrip_after_space (ws s : string) :
  all_space ws = true -> Py.lstrip (ws ++ s)%string = Py.lstrip s.
Proof.
  induction ws as [|c ws IH]; simpl; [reflexivity|].
  intros H. apply andb_prop in H as [Hc Hws]. rewrite Hc. auto.
Qed.

Lemma lstrip_before_space (s ws : string) :
  all_space ws = true ->
  Py.lstrip (s ++ ws)%string
  = if all_space s then EmptyString else (Py.lstrip s ++ ws)%string.
Proof.
  intros Hws. induction s as [|c s IH]; simpl.
  - now apply lstrip_all_space.
  - destruct (Py.isspace c); simpl; [exact IH|reflexivity].
Qed.

Lemma rstrip_all_space (ws : string) :
  all_space ws = true -> Py.rstrip ws = EmptyString.
Proof.
  induction ws as [|c ws IH]; simpl; [reflexivity|].
  intros H. apply andb_prop in H as [Hc Hws].
  rewrite (IH Hws), Hc. reflexivity.
Qed.

Lemma rstrip_before_space (s ws : string) :
  all_space ws = true -> Py.rstrip (s ++ ws)%string = Py.rstrip s.
Proof.
  intros Hws. induction s as [|c s IH]; simpl.
  - now apply rstrip_all_space.
  - now rewrite IH.
Qed.

Lemma strip_padding (ws content ws' : string) :
  all_space ws = true -> all_space ws' = true ->
  Py.strip (ws ++ content ++ ws')%string = Py.strip content.
Proof.
  intros Hws Hws'. unfold Py.strip.
  rewrite (lstrip_after_space ws _ Hws).
  rewrite (lstrip_before_space content ws' Hws').
  destruct (all_space content) eqn:E.
  - now rewrite (lstrip_all_space content E).
  - now apply rstrip_before_space.
Qed.

(** X7. White space before or after the text of the log, blank lines
    included, does not change what either parser reads. *)
Theorem parsers_ignore_padding (ws content ws' : string) :
  all_space ws = true -> all_space ws' = true ->
  SceneSelection.parse_scene_log (ws ++ content ++ ws')%string
  = SceneSelection.parse_scene_log content
  /\ VideoProcessor.parse_scene_log (ws ++ content ++ ws')%string
     = VideoProcessor.parse_scene_log content.
Proof.
  intros Hws Hws'.
  unfold SceneSelection.parse_scene_log, VideoProcessor.parse_scene_log.
  now rewrite (strip_padding ws content ws' Hws Hws').
Qed.

Lemma parsers_ignore_padding_witness :
  SceneSelection.parse_scene_log
    (String Py.newline (String Py.newline EmptyString)
     ++ log_without_frame_number ++ String " " (String Py.newline EmptyString))
  = SceneSelection.parse_scene_log log_without_frame_number.
Proof.
  apply (proj1 (parsers_ignore_padding
                  (String Py.newline (String Py.newline EmptyString))
                  log_without_frame_number
                  (String " " (String Py.newline EmptyString))
                  eq_refl eq_refl)).
Defined.

Lemma pairs_ind {A : Type} (P : list A -> Prop) :
  P [] -> (forall a, P [a]) ->
  (forall a b rest, P rest -> P (a :: b :: rest)) ->
  forall l, P l.
Proof.
  intros H0 H1 H2.
  assert (H : forall l, P l /\ forall a, P (a :: l)).
  { induction l as [|x l [IH IH']]; split; auto. }
  intros l. apply H.
Qed.

Lemma processor_pair_as_scene (frame_line score_line : string) :
  map as_scene (VideoProcessor.scan_pair frame_line score_line)
  = if has_frame_number frame_line
    then SceneSelection.scan_pair frame_line score_line
    else [].
Proof.
  unfold VideoProcessor.scan_pair, SceneSelection.scan_pair,
    has_frame_number.
  destruct (Py.re_search "pts_time:" Py.match_decimal frame_line);
    destruct (Py.re_search "frame:" Py.match_digits frame_line);
    destruct (Py.re_search "scene_score=" Py.match_decimal score_line);
    reflexivity.
Qed.

Lemma selection_pair_without_pts (frame_line score_line : string) :
  has_pts_time frame_line = false ->
  SceneSelection.scan_pair frame_line score_line = [].
Proof.
  unfold SceneSelection.scan_pair, has_pts_time.
  destruct (Py.re_search "pts_time:" Py.match_decimal frame_line);
    [discriminate|reflexivity].
Qed.

(** X8. On every log the events of [FFmpegVideoProcessor], their frame
    numbers set aside, are the events [scene_selection] reads from the pairs
    whose first line holds a [frame:] field, in the same order: never more
    events, and neither parser gives more than one event for two lines.
    When every line that holds [pts_time] holds [frame:] too, as in the
    output of ffmpeg, the two parsers read the same timestamps and
    scores. *)
Theorem processor_events_among_selection_events (content : string) :
  map as_scene (VideoProcessor.parse_scene_log content)
  = scan_pairs
      (fun frame_line score_line =>
         if has_frame_number frame_line
         then SceneSelection.scan_pair frame_line score_line
         else [])
      (log_lines content)
  /\ (List.length (VideoProcessor.parse_scene_log content)
      <= List.length (SceneSelection.parse_scene_log content))%nat
  /\ (2 * List.length (SceneSelection.parse_scene_log content)
      <= List.length (log_lines content))%nat
  /\ ((forall line,
         In line (log_lines content) ->
         has_pts_time line = true -> has_frame_number line = true) ->
      map as_scene (VideoProcessor.parse_scene_log content)
      = SceneSelection.parse_scene_log content).
Proof.
  unfold VideoProcessor.parse_scene_log, SceneSelection.parse_scene_log.
  fold (log_lines content). rewrite !pair_loop_scan_pairs.
  generalize (log_lines content) as lines. intros lines.
  induction lines as [| a | a b rest IH] using pairs_ind.
  - simpl. repeat split; auto.
  - simpl. repeat split; auto.
  - destruct IH as [IH1 [IH2 [IH3 IH4]]].
    cbn [scan_pairs]. rewrite !map_app, !length_app.
    rewrite processor_pair_as_scene.
    pose proof (selection_scan_pair_length a b) as Ls.
    pose proof (processor_scan_pair_length a b) as Lp.
    split; [now rewrite IH1|]. split; [|split].
    + rewrite Lp, Ls.
      destruct (has_pts_time a), (has_frame_number a), (has_scene_score b);
        simpl; lia.
    + rewrite Ls. cbn [List.length].
      destruct (has_pts_time a && has_scene_score b); lia.
    + intros Hall. rewrite IH4 by (intros l Hl; apply Hall; now do 2 right).
      destruct (has_pts_time a) eqn:Ep.
      * now rewrite (Hall a (or_introl eq_refl) Ep).
      * rewrite (selection_pair_without_pts a b Ep).
        now destruct (has_frame_number a).
Qed.

Lemma processor_events_among_selection_events_witness :
  map as_scene
    (VideoProcessor.parse_scene_log
       "frame:3 pts:1500 pts_time:1.5
lavfi.scene_score=0.42")
  = SceneSelection.parse_scene_log
      "frame:3 pts:1500 pts_time:1.5
lavfi.scene_score=0.42".
Proof.
  apply (proj2 (proj2 (proj2 (processor_events_among_selection_events
                                "frame:3 pts:1500 pts_time:1.5
lavfi.scene_score=0.42")))).
  intros line [<-|[<-|[]]]; vm_compute; congruence.
Defined.

Lemma digit_value_nonneg (c : ascii) :
  Py.isdigit c = true -> (0 <= Py.digit_value c)%Z.
Proof.
  unfold Py.isdigit, Py.digit_value. intros H.
  apply andb_prop in H as [H _]. apply Nat.leb_le in H. lia.
Qed.

Lemma int_of_digits_acc_nonneg (d : string) :
  all_digits d = true ->
  forall acc, (0 <= acc)%Z -> (0 <= Py.int_of_digits_acc acc d)%Z.
Proof.
  induction d as [|c d IH]; cbn [Py.int_of_digits_acc all_digits];
    intros H acc Hacc; [exact Hacc|].
  apply andb_prop in H as [Hc Hd]. apply IH; [exact Hd|].
  pose proof (digit_value_nonneg c Hc). lia.
Qed.

Lemma span_digits_all_digits (s : string) :
  all_digits (fst (Py.span_digits s)) = true.
Proof.
  induction s as [|c s IH]; simpl; [reflexivity|].
  destruct (Py.isdigit c) eqn:E; [|reflexivity].
  destruct (Py.span_digits s) as [d r]. simpl in *. now rewrite E, IH.
Qed.

Lemma re_search_found (key : string) (group : string -> option string)
    (s g : string) :
  Py.re_search key group s = Some g -> exists rest, group rest = Some g.
Proof.
  induction s as [|c s IH]; cbn [Py.re_search]; intros H.
  - destruct (Py.strip_prefix key EmptyString) as [rest|]; [|discriminate].
    destruct (group rest) eqn:E; [|discriminate].
    exists rest. congruence.
  - destruct (Py.strip_prefix key (String c s)) as [rest|].
    + destruct (group rest) eqn:E; [exists rest; congruence|auto].
    + auto.
Qed.

Lemma match_digits_all_digits (s g : string) :
  Py.match_digits s = Some g -> all_digits g = true.
Proof.
  unfold Py.match_digits. pose proof (span_digits_all_digits s) as H.
  destruct (Py.span_digits s) as [ip rest]. simpl in H.
  destruct (Py.is_empty ip); [discriminate|].
  intros E. injection E as <-. exact H.
Qed.

Lemma all_digits_append (a b : string) :
  all_digits (a ++ b)%string = all_digits a && all_digits b.
Proof.
  induction a as [|c a IH]; simpl; [reflexivity|].
  now rewrite IH, andb_assoc.
Qed.

Lemma float_of_decimal_nonneg (g : string) :
  (0 <= Py.float_of_decimal g)%Q.
Proof.
  unfold Py.float_of_decimal.
  pose proof (span_digits_all_digits g) as Hip.
  destruct (Py.span_digits g) as [ip rest]. simpl in Hip.
  assert (Hint : (0 <= Py.rnd (inject_Z (Py.int_of_digits ip)))%Q).
  { apply rnd_nonneg. unfold Qle, inject_Z. simpl. rewrite Z.mul_1_r.
    apply int_of_digits_acc_nonneg; [exact Hip|lia]. }
  destruct rest as [|c fp]; [exact Hint|].
  destruct c as [[] [] [] [] [] [] [] []]; try exact Hint.
  apply rnd_nonneg. unfold Qle. simpl. rewrite Z.mul_1_r.
  apply int_of_digits_acc_nonneg; [|lia].
  rewrite all_digits_append, Hip. apply span_digits_all_digits.
Qed.

(** X9. No event read by either parser has a negative timestamp or a
    negative score, and no scene change of [FFmpegVideoProcessor] a negative
    frame number: the patterns match digits only, so a field with a sign is
    not a field. *)
Theorem parsed_values_not_negative (content : string) :
  Forall (fun sc => (0 <= SceneSelection.timestamp sc)%Q
                    /\ (0 <= SceneSelection.scene_score sc)%Q)
    (SceneSelection.parse_scene_log content)
  /\ Forall (fun sc => (0 <= VideoProcessor.timestamp sc)%Q
                       /\ (0 <= VideoProcessor.frame_number sc)%Z
                       /\ (0 <= VideoProcessor.scene_score sc)%Q)
       (VideoProcessor.parse_scene_log content).
Proof.
  unfold VideoProcessor.parse_scene_log, SceneSelection.parse_scene_log.
  rewrite !pair_loop_scan_pairs.
  generalize (Py.split_newline (Py.strip content)) as lines. intros lines.
  induction lines as [| a | a b rest [IH1 IH2]] using pairs_ind.
  - split; constructor.
  - split; constructor.
  - cbn [scan_pairs]. split; apply Forall_app; split; try assumption.
    + unfold SceneSelection.scan_pair.
      destruct (Py.re_search "pts_time:" Py.match_decimal a);
        destruct (Py.re_search "scene_score=" Py.match_decimal b);
        constructor; [|constructor].
      simpl. split; apply float_of_decimal_nonneg.
    + unfold VideoProcessor.scan_pair.
      destruct (Py.re_search "pts_time:" Py.match_decimal a);
        [|constructor].
      destruct (Py.re_search "frame:" Py.match_digits a) as [fr|] eqn:Ef;
        [|constructor].
      destruct (Py.re_search "scene_score=" Py.match_decimal b);
        constructor; [|constructor].
      simpl. split; [apply float_of_decimal_nonneg|].
      split; [|apply float_of_decimal_nonneg].
      destruct (re_search_found _ _ _ _ Ef) as [tail Htail].
      apply int_of_digits_acc_nonneg; [|lia].
      exact (match_digits_all_digits tail fr Htail).
Qed.

(** ** More on the Narration Bridge *)

Lemma is_jpg_not_empty (f : string) :
  is_jpg f = true -> Py.is_empty f = false.
Proof. destruct f; [discriminate|reflexivity]. Qed.

Lemma append_not_empty (a b : string) (c : ascii) :
  Py.is_empty (a ++ String c b)%string = false.
Proof. destruct a; reflexivity. Qed.

(** X10. The loop of [main] over the selected entries accounts for each of
    them once: it is either packaged or answered by one warning.  Every
    frame packaged has a non-empty timestamp and file name, its image path
    is the file name joined to the frames directory, and that path
    exists. *)
Theorem every_entry_packaged_or_warned (path_exists : string -> bool)
    (frames_dir : string) (selected_frames : list ScriptGenerator.entry) :
  (List.length
     (fst (ScriptGenerator.prepare_frames path_exists frames_dir
             selected_frames))
   + List.length
       (snd (ScriptGenerator.prepare_frames path_exists frames_dir
               selected_frames))
   = List.length selected_frames)%nat
  /\ Forall
       (fun info =>
          Py.is_empty (ScriptGenerator.timestamp info) = false
          /\ Py.is_empty (ScriptGenerator.frame_file info) = false
          /\ ScriptGenerator.image_path info
             = Py.os_path_join frames_dir (ScriptGenerator.frame_file info)
          /\ path_exists (ScriptGenerator.image_path info) = true)
       (fst (ScriptGenerator.prepare_frames path_exists frames_dir
               selected_frames)).
Proof.
  induction selected_frames as [|e rest [IHlen IHall]].
  - split; [reflexivity|constructor].
  - cbn [ScriptGenerator.prepare_frames].
    destruct (ScriptGenerator.prepare_frames path_exists frames_dir rest)
      as [frames_data warnings].
    cbn [fst snd] in IHlen, IHall.
    destruct (ScriptGenerator.entry_frame_file e) as [file|];
      [|cbn [fst snd List.length]; split; [lia|exact IHall]].
    destruct (ScriptGenerator.entry_timestamp e) as [ts|];
      [|cbn [fst snd List.length]; split; [lia|exact IHall]].
    destruct (Py.is_empty file) eqn:Ef;
      [cbn [orb fst snd List.length]; split; [lia|exact IHall]|].
    destruct (Py.is_empty ts) eqn:Et;
      [cbn [orb fst snd List.length]; split; [lia|exact IHall]|].
    cbn [orb].
    destruct (path_exists (Py.os_path_join frames_dir file)) eqn:Ep;
      cbn [negb fst snd List.length]; (split; [lia|]);
      [|exact IHall].
    constructor; [|exact IHall]. cbn. auto.
Qed.

Lemma image_parts_in_order (encode : string -> result string)
    (frames_data : list ScriptGenerator.frame_info) :
  forallb (readable encode) frames_data = true ->
  ScriptGenerator.image_parts encode frames_data
  = Ok (flat_map (parts_of_frame encode) frames_data).
Proof.
  induction frames_data as [|info rest IH]; [reflexivity|].
  cbn [forallb ScriptGenerator.image_parts flat_map].
  unfold readable at 1, parts_of_frame at 1.
  destruct (encode (ScriptGenerator.image_path info)) as [b|e];
    [|discriminate].
  cbn [andb bind]. intros H. rewrite (IH H).
  destruct (Py.is_empty b); reflexivity.
Qed.

Lemma image_parts_first_failure (encode : string -> result string)
    (frames_data : list ScriptGenerator.frame_info) :
  forallb (readable encode) frames_data = false ->
  exists before info after e,
    frames_data = before ++ info :: after
    /\ forallb (readable encode) before = true
    /\ encode (ScriptGenerator.image_path info) = Raise e
    /\ ScriptGenerator.image_parts encode frames_data = Raise e.
Proof.
  induction frames_data as [|info rest IH]; [discriminate|].
  cbn [forallb ScriptGenerator.image_parts].
  destruct (encode (ScriptGenerator.image_path info)) as [b|e] eqn:E.
  - assert (Hr : readable encode info = true)
      by (unfold readable; now rewrite E).
    rewrite Hr. cbn [andb bind]. intros H.
    destruct (IH H) as [before [info' [after [e' [Hsplit [Hb [He Hraise]]]]]]].
    exists (info :: before), info', after, e'.
    split; [simpl; now rewrite Hsplit|].
    split; [simpl; now rewrite Hr, Hb|]. split; [exact He|].
    rewrite Hraise. destruct (Py.is_empty b); reflexivity.
  - intros _. exists [], info, rest, e.
    split; [reflexivity|]. split; [reflexivity|]. split; [exact E|].
    reflexivity.
Qed.

(** X11. When every image can be read, the request sent to the generation
    service is the instruction text followed, frame by frame in the order of
    [frames_data], by the image and then its [[Frame at ...]] label; a
    frame whose image encodes to the empty text is left out, label
    included. *)
Theorem request_lists_frames_in_order (encode : string -> result string)
    (create : list ScriptGenerator.part -> result string)
    (frames_data : list ScriptGenerator.frame_info)
    (movie_style target_audience : string) :
  forallb (readable encode) frames_data = true ->
  ScriptGenerator.analyze_all_frames_together encode create frames_data
    movie_style target_audience
  = match create
            (ScriptGenerator.text_part
               (ScriptGenerator.prompt_text movie_style target_audience
                  (ScriptGenerator.style_instructions_of movie_style)
                  (ScriptGenerator.audience_instructions_of target_audience))
             :: flat_map (parts_of_frame encode) frames_data)
    with
    | Ok text => text
    | Raise e => ("Error: " ++ ScriptGenerator.str_exn e)%string
    end.
Proof.
  intros H. unfold ScriptGenerator.analyze_all_frames_together.
  rewrite (image_parts_in_order encode frames_data H). reflexivity.
Qed.

Lemma request_lists_frames_in_order_witness :
  ScriptGenerator.analyze_all_frames_together (fun _ => Ok "QUJD")
    (fun parts => Ok "00:00:00: ...")
    [ {| ScriptGenerator.timestamp := "00:00:00.000";
         ScriptGenerator.image_path := "clip_extracted_frames/frame_0001.jpg";
         ScriptGenerator.frame_file := "frame_0001.jpg" |} ]
    "neutral" "general"
  = "00:00:00: ...".
Proof.
  apply (request_lists_frames_in_order (fun _ => Ok "QUJD")
           (fun parts => Ok "00:00:00: ...")).
  reflexivity.
Defined.

(** X12. When the image of some frame cannot be read, the text returned is
    [Error: ] followed by the message of the first such failure in the order
    of [frames_data] (every frame before it can be read), whatever the
    generation service would have answered: the service plays no part in
    the result. *)
Theorem unreadable_image_ends_the_request (encode : string -> result string)
    (create : list ScriptGenerator.part -> result string)
    (frames_data : list ScriptGenerator.frame_info)
    (movie_style target_audience : string) :
  forallb (readable encode) frames_data = false ->
  exists before info after e,
    frames_data = before ++ info :: after
    /\ forallb (readable encode) before = true
    /\ encode (ScriptGenerator.image_path info) = Raise e
    /\ forall create' : list ScriptGenerator.part -> result string,
         ScriptGenerator.analyze_all_frames_together encode create'
           frames_data movie_style target_audience
         = ("Error: " ++ ScriptGenerator.str_exn e)%string.
Proof.
  intros H.
  destruct (image_parts_first_failure encode frames_data H)
    as [before [info [after [e [Hsplit [Hb [He Hraise]]]]]]].
  exists before, info, after, e.
  split; [exact Hsplit|]. split; [exact Hb|]. split; [exact He|].
  intros create'. unfold ScriptGenerator.analyze_all_frames_together.
  now rewrite Hraise.
Qed.

Lemma unreadable_image_ends_the_request_witness :
  ScriptGenerator.analyze_all_frames_together encode_second_denied
    (fun parts => Ok "00:00:00: ...") three_frames "neutral" "general"
  = "Error: Permission denied".
Proof.
  destruct (unreadable_image_ends_the_request encode_second_denied
              (fun parts => Ok "00:00:00: ...") three_frames
              "neutral" "general" eq_refl)
    as [before [info [after [e [Hsplit [Hb [He H]]]]]]].
  rewrite H. clear H.
  destruct before as [|b0 [|b1 before]].
  - injection Hsplit as <- _. discriminate He.
  - injection Hsplit as _ <- _. injection He as <-. reflexivity.
  - injection Hsplit as <- <- _. discriminate Hb.
Defined.

(** X13. [main] saves a story exactly when the prefix is not empty, the
    selection file and the frames directory exist, some entry of the
    document resolves, and the story file can be written: whether the
    generation succeeded plays no part.  The story saved is in
    [<prefix>_storyscript.txt] and is the three lines naming the prefix,
    the style and the audience, a rule of 80 [=], an empty line, the title
    line, a rule of 40 [-], then as body what
    [analyze_all_frames_together] returns for the frames of the entries
    that resolve, and a final line break. *)
Theorem story_saved_exactly_when (w : ScriptGenerator.world)
    (prefix style_choice audience_choice : string) :
  ((exists warnings path text,
      ScriptGenerator.main w prefix style_choice audience_choice
      = ScriptGenerator.story_saved warnings path text)
   <-> Py.is_empty prefix = false
       /\ ScriptGenerator.selection_file_exists w = true
       /\ ScriptGenerator.frames_dir_is_dir w = true
       /\ (exists e,
             In e (ScriptGenerator.selected_frames w)
             /\ resolves (ScriptGenerator.path_exists w)
                  (prefix ++ "_extracted_frames")%string e = true)
       /\ ScriptGenerator.write_story w = Ok tt)
  /\ (forall warnings path text,
        ScriptGenerator.main w prefix style_choice audience_choice
        = ScriptGenerator.story_saved warnings path text ->
        path = (prefix ++ "_storyscript.txt")%string
        /\ exists body,
             body = (ScriptGenerator.analyze_all_frames_together
                  (ScriptGenerator.encode_image_to_base64 w)
                  (ScriptGenerator.create_completion w)
                  (map (info_of (prefix ++ "_extracted_frames")%string)
                     (filter
                        (resolves (ScriptGenerator.path_exists w)
                           (prefix ++ "_extracted_frames")%string)
                        (ScriptGenerator.selected_frames w)))
                  (ScriptGenerator.style_map_get style_choice)
                  (ScriptGenerator.audience_map_get audience_choice))
             /\ text = ("视频故事分析: " ++ prefix ++ "
电影风格: " ++ ScriptGenerator.style_map_get style_choice ++ "
目标观众: " ++ ScriptGenerator.audience_map_get audience_choice ++ "
================================================================================

个性化时间戳描述
----------------------------------------
" ++ body ++ "
")%string).
Proof.
  assert (Hshape :
    forall warnings path text,
      ScriptGenerator.main w prefix style_choice audience_choice
      = ScriptGenerator.story_saved warnings path text ->
      Py.is_empty prefix = false
      /\ ScriptGenerator.selection_file_exists w = true
      /\ ScriptGenerator.frames_dir_is_dir w = true
      /\ filter (resolves (ScriptGenerator.path_exists w)
                   (prefix ++ "_extracted_frames")%string)
           (ScriptGenerator.selected_frames w) <> []
      /\ ScriptGenerator.write_story w = Ok tt
      /\ path = (prefix ++ "_storyscript.txt")%string
      /\ exists body,
           body = (ScriptGenerator.analyze_all_frames_together
                  (ScriptGenerator.encode_image_to_base64 w)
                  (ScriptGenerator.create_completion w)
                  (map (info_of (prefix ++ "_extracted_frames")%string)
                     (filter
                        (resolves (ScriptGenerator.path_exists w)
                           (prefix ++ "_extracted_frames")%string)
                        (ScriptGenerator.selected_frames w)))
                  (ScriptGenerator.style_map_get style_choice)
                  (ScriptGenerator.audience_map_get audience_choice))
           /\ text = ("视频故事分析: " ++ prefix ++ "
电影风格: " ++ ScriptGenerator.style_map_get style_choice ++ "
目标观众: " ++ ScriptGenerator.audience_map_get audience_choice ++ "
================================================================================

个性化时间戳描述
----------------------------------------
" ++ body ++ "
")%string).
  { intros warnings path text H.
    destruct (Py.is_empty prefix) eqn:Ep;
      [unfold ScriptGenerator.main in H; rewrite Ep in H; discriminate|].
    destruct (ScriptGenerator.selection_file_exists w) eqn:Es;
      [|unfold ScriptGenerator.main in H; rewrite Ep, Es in H;
        discriminate].
    destruct (ScriptGenerator.frames_dir_is_dir w) eqn:Ed;
      [|unfold ScriptGenerator.main in H; rewrite Ep, Es, Ed in H;
        discriminate].
    rewrite (main_after_tests w prefix style_choice audience_choice Ep Es Ed)
      in H.
    rewrite prepare_frames_resolved in H.
    destruct (ScriptGenerator.selected_frames w) as [|e0 rest];
      [discriminate|].
    destruct (filter _ (e0 :: rest)) as [|r rs] eqn:Ef; [discriminate|].
    cbn [map] in H.
    destruct (ScriptGenerator.write_story w) as [[]|e]; [|discriminate].
    injection H as _ <- <-.
    repeat split; try discriminate.
    rewrite story_text_spelled. eexists. split; reflexivity. }
  split.
  - split.
    + intros [warnings [path [text H]]].
      destruct (Hshape _ _ _ H) as [Hp [Hs [Hd [Hf [Hw _]]]]].
      repeat split; try assumption.
      destruct (filter _ (ScriptGenerator.selected_frames w)) as [|e es] eqn:E;
        [now exfalso|].
      exists e. apply filter_In. rewrite E. now left.
    + intros [Hp [Hs [Hd [[e [Hin Hres]] Hw]]]].
      rewrite (main_after_tests w prefix style_choice audience_choice
                 Hp Hs Hd).
      rewrite prepare_frames_resolved.
      assert (Hf : In e (filter (resolves (ScriptGenerator.path_exists w)
                                   (prefix ++ "_extracted_frames")%string)
                           (ScriptGenerator.selected_frames w)))
        by (apply filter_In; auto).
      destruct (ScriptGenerator.selected_frames w) as [|e0 rest];
        [destruct Hin|].
      destruct (filter _ (e0 :: rest)) as [|r rs]; [destruct Hf|].
      cbn [map]. rewrite Hw. eauto.
  - intros warnings path text H.
    destruct (Hshape _ _ _ H) as [_ [_ [_ [_ [_ [Hpath Hbody]]]]]].
    split; assumption.
Qed.

Lemma story_saved_exactly_when_witness :
  exists warnings,
    ScriptGenerator.main world_scenario_C "clip" "1" "1"
    = ScriptGenerator.story_saved warnings "clip_storyscript.txt"
        "视频故事分析: clip
电影风格: serious
目标观众: children
================================================================================

个性化时间戳描述
----------------------------------------
Error: Connection error.
".
Proof.
  pose proof (story_saved_exactly_when world_scenario_C "clip" "1" "1")
    as [Hiff Hshape].
  destruct (proj2 Hiff) as [warnings [path [text H]]].
  { split; [reflexivity|]. split; [reflexivity|]. split; [reflexivity|].
    split; [|reflexivity].
    exists (selection_entry "00:00:00.000" "frame_0001.jpg").
    split; [now left|reflexivity]. }
  destruct (Hshape warnings path text H) as [Hpath [body [Hbody Htext]]].
  exists warnings. rewrite H, Hpath, Htext, Hbody. reflexivity.
Defined.

(** ** From a row of the table to a frame of the request *)

Lemma built_row_file (w : SceneSelection.world) (dir : string) (fps : Q)
    (n : nat) (s : Z) (df : list SceneSelection.table_row) (d : string)
    (row : SceneSelection.table_row) :
  SceneSelection.build_table w dir fps
  = Ok (SceneSelection.status_success n s df d) ->
  In row df ->
  exists i f t,
    is_jpg f = true
    /\ SceneSelection.make_row dir i f t = Ok (SceneSelection.frame row).
Proof.
  intros H Hin.
  destruct (build_table_ok w dir fps _ H)
    as [listing [frames_data [scene_changes [total [_ [Hs [_ [_ Hrep]]]]]]]].
  injection Hrep as _ _ Hdf _. subst df.
  unfold SceneSelection.add_scene_information in Hin.
  apply in_map_iff in Hin. destruct Hin as [fr [<- Hfr]].
  apply In_nth_error in Hfr. destruct Hfr as [i Hi].
  destruct (sample_from_rows dir fps _ 0 frames_data Hs) as [_ Hrows].
  destruct (Hrows i fr Hi) as [f [t [Hf [_ Hrow]]]].
  exists (0 + i)%nat, f, t. split; [|now rewrite annotate_frame].
  apply nth_error_In in Hf.
  unfold SceneSelection.frame_files_of in Hf. fold is_jpg in Hf.
  assert (Hin : In f (filter is_jpg listing)).
  { eapply Permutation_in; [|exact Hf].
    apply Permutation_sym. apply StringSort.Permuted_sort. }
  apply filter_In in Hin. apply Hin.
Qed.

Lemma format_timestamp_not_empty (seconds : Q) (label : string) :
  SceneSelection.format_timestamp seconds = Ok label ->
  Py.is_empty label = false.
Proof.
  unfold SceneSelection.format_timestamp.
  destruct (Py.is_finite seconds); [|discriminate].
  intros H. injection H as <-.
  match goal with
  | |- Py.is_empty (?a ++ ?b)%string = false =>
      change b with (String ":"%char (EmptyString ++
        (Py.format_0d 2
           (Py.int_of_float
              (Py.float_floordiv (Py.float_mod seconds 3600) 60))
         ++ ":" ++ Py.format_0d 2 (Py.int_of_float (Py.float_mod seconds 60))
         ++ "." ++ Py.format_0d 3
                     (Py.int_of_float
                        (Py.float_mul (Py.float_mod seconds 1) 1000))))%string)
  end.
  apply append_not_empty.
Qed.

(** X14. A row of a table that was reported, taken as a selection entry
    with its [Timestamp] label and its [Frame File], is resolved by the
    Narration Bridge against the same frames directory to the [Frame Path]
    of the row: when that file exists the frame is packaged with the label
    of the row, otherwise the one warning names that path.  The entry is
    never dropped for an empty field. *)
Theorem table_row_selects_its_frame (w : SceneSelection.world)
    (video_path dir : string) (fps : Q) (n : nat) (s : Z)
    (df : list SceneSelection.table_row) (d : string)
    (path_exists : string -> bool) (row : SceneSelection.table_row) :
  SceneSelection.organize_existing_frames_table w dir fps
  = SceneSelection.status_success n s df d
  \/ SceneSelection.organize_frames_table w video_path dir fps
     = SceneSelection.status_success n s df d ->
  In row df ->
  ScriptGenerator.prepare_frames path_exists dir
    [selection_entry
       (SceneSelection.Timestamp (SceneSelection.frame row))
       (SceneSelection.Frame_File (SceneSelection.frame row))]
  = if path_exists (SceneSelection.Frame_Path (SceneSelection.frame row))
    then ([ {| ScriptGenerator.timestamp :=
                 SceneSelection.Timestamp (SceneSelection.frame row);
               ScriptGenerator.image_path :=
                 SceneSelection.Frame_Path (SceneSelection.frame row);
               ScriptGenerator.frame_file :=
                 SceneSelection.Frame_File (SceneSelection.frame row) |} ],
          [])
    else ([],
          [ScriptGenerator.Frame_file_not_found
             (SceneSelection.Frame_Path (SceneSelection.frame row))]).
Proof.
  intros H Hin. apply success_is_built in H.
  destruct (built_row_file w dir fps n s df d row H Hin)
    as [i [f [t [Hjpg Hrow]]]].
  destruct (make_row_fields _ _ _ _ _ Hrow) as [Hl [_ [_ [Hf Hp]]]].
  rewrite Hf, Hp.
  cbn [ScriptGenerator.prepare_frames selection_entry
         ScriptGenerator.entry_frame_file ScriptGenerator.entry_timestamp].
  rewrite (is_jpg_not_empty f Hjpg), (format_timestamp_not_empty _ _ Hl).
  cbn [orb].
  destruct (path_exists (Py.os_path_join dir f)); reflexivity.
Qed.

Lemma table_row_selects_its_frame_witness :
  exists row0 row1,
    SceneSelection.organize_existing_frames_table world_event_at_28_ms
      "frames" 40
    = SceneSelection.status_success 2 2 [row0; row1] "frames"
    /\ ScriptGenerator.prepare_frames (fun _ => true) "frames"
         [selection_entry
            (SceneSelection.Timestamp (SceneSelection.frame row1))
            (SceneSelection.Frame_File (SceneSelection.frame row1))]
       = ([ {| ScriptGenerator.timestamp := "00:00:00.025";
               ScriptGenerator.image_path := "frames/frame_0002.jpg";
               ScriptGenerator.frame_file := "frame_0002.jpg" |} ], []).
Proof.
  destruct (SceneSelection.organize_existing_frames_table
              world_event_at_28_ms "frames" 40)
    as [err|n s df d] eqn:H; [vm_compute in H; discriminate|].
  assert (Hv := H). vm_compute in Hv. injection Hv as <- <- <- <-.
  eexists. eexists. split; [reflexivity|].
  exact (table_row_selects_its_frame world_event_at_28_ms EmptyString
           "frames" 40 _ _ _ _ (fun _ => true) _ (or_introl H)
           (or_intror (or_introl eq_refl))).
Defined.

(** ** The search function of the video processor *)

(** X15. On a video that exists [search_video_content] returns a report for
    the path and the type given.  Its status is a success exactly when every
    step the type and the keyword arguments ask for goes through; then each
    key asked for holds what its step returned (the frames directory being
    the one asked for), and no other key is set. *)
Theorem search_success_exactly_when (w : VideoSearch.world)
    (path search_type : string) (kw : VideoSearch.kwargs) :
  VideoSearch.video_exists w = true ->
  exists rep,
    VideoSearch.search_video_content w path search_type kw
    = VideoSearch.returns rep
    /\ VideoSearch.video_path rep = path
    /\ VideoSearch.analysis_type rep = search_type
    /\ (VideoSearch.search_status rep = VideoSearch.success
        <-> all_steps_ok w search_type kw = true)
    /\ (VideoSearch.search_status rep = VideoSearch.success ->
        VideoSearch.metadata (VideoSearch.found rep)
        = (if asks_for search_type "metadata"
           then ok_value (VideoSearch.get_video_metadata w) else None)
        /\ VideoSearch.scene_changes (VideoSearch.found rep)
           = (if asks_for search_type "scenes"
              then ok_value
                     (VideoProcessor.detect_scene_changes
                        (VideoSearch.ffmpeg_log w
                           (VideoSearch.get (VideoSearch.scene_threshold kw)
                              (3 # 10))))
              else None)
        /\ VideoSearch.frames (VideoSearch.found rep)
           = (if extraction_asked search_type kw
              then Some (VideoSearch.get (VideoSearch.frames_output_dir kw)
                           "frames")
              else None)
        /\ VideoSearch.transcription_result (VideoSearch.found rep)
           = (if transcription_asked search_type kw
              then ok_value
                     (VideoSearch.transcribe_audio w (VideoSearch.language kw))
              else None)).
Proof.
  intros Hex.
  unfold VideoSearch.search_video_content. rewrite Hex. cbn [negb].
  unfold all_steps_ok, extraction_asked, transcription_asked, asks_for.
  cbn [VideoSearch.run_steps].
  unfold VideoSearch.metadata_step, VideoSearch.scenes_step,
    VideoSearch.frames_step, VideoSearch.transcription_step,
    VideoSearch.extract_frames_to, VideoProcessor.detect_scene_changes.
  destruct (VideoSearch.in_list search_type ["metadata"; "all"]);
    destruct (VideoSearch.in_list search_type ["scenes"; "all"]);
    destruct (VideoSearch.in_list search_type ["frames"; "all"]);
    destruct (VideoSearch.in_list search_type ["transcription"; "all"]);
    destruct (VideoSearch.get (VideoSearch.extract_frames kw) false);
    destruct (VideoSearch.get (VideoSearch.transcribe kw) false);
    destruct (VideoSearch.get_video_metadata w);
    destruct (VideoSearch.ffmpeg_log w
                (VideoSearch.get (VideoSearch.scene_threshold kw) (3 # 10)));
    destruct (VideoSearch.run_extraction w
                (VideoSearch.get (VideoSearch.frame_fps kw) 2)
                (VideoSearch.get (VideoSearch.frames_output_dir kw) "frames"));
    destruct (VideoSearch.transcribe_audio w (VideoSearch.language kw));
    (eexists; split; [reflexivity|]);
    cbn; repeat split; intros; try discriminate; try reflexivity.
Qed.

Lemma search_success_exactly_when_witness :
  exists rep,
    VideoSearch.search_video_content
      {| VideoSearch.ffmpeg_available := true;
         VideoSearch.video_exists := true;
         VideoSearch.get_video_metadata := Raise (ExternalError "ffprobe");
         VideoSearch.ffmpeg_log := fun _ => Ok log_without_frame_number;
         VideoSearch.run_extraction := fun _ _ => Ok tt;
         VideoSearch.transcribe_audio :=
           fun _ => Raise (ExternalError "Whisper not installed") |}
      "clip.mp4" "scenes" VideoSearch.no_kwargs
    = VideoSearch.returns rep
    /\ VideoSearch.video_path rep = "clip.mp4".
Proof.
  destruct (search_success_exactly_when
              {| VideoSearch.ffmpeg_available := true;
                 VideoSearch.video_exists := true;
                 VideoSearch.get_video_metadata :=
                   Raise (ExternalError "ffprobe");
                 VideoSearch.ffmpeg_log := fun _ => Ok log_without_frame_number;
                 VideoSearch.run_extraction := fun _ _ => Ok tt;
                 VideoSearch.transcribe_audio :=
                   fun _ => Raise (ExternalError "Whisper not installed") |}
              "clip.mp4" "scenes" VideoSearch.no_kwargs eq_refl)
    as [rep [H [Hp _]]].
  exists rep. split; [exact H|exact Hp].
Defined.

(** X16. A search type that is none of [metadata], [scenes], [frames],
    [transcription] and [all] is not refused: on a video that exists the
    search runs no step and reports a success with no result. *)
Theorem unknown_search_type_reports_success (w : VideoSearch.world)
    (path search_type : string) (kw : VideoSearch.kwargs) :
  VideoSearch.video_exists w = true ->
  VideoSearch.in_list search_type
    ["metadata"; "scenes"; "frames"; "transcription"; "all"] = false ->
  VideoSearch.search_video_content w path search_type kw
  = VideoSearch.returns
      {| VideoSearch.video_path := path;
         VideoSearch.analysis_type := search_type;
         VideoSearch.found := VideoSearch.no_results;
         VideoSearch.search_status := VideoSearch.success |}.
Proof.
  intros Hex Hno.
  unfold VideoSearch.in_list in Hno. cbn [existsb] in Hno.
  rewrite !orb_false_iff in Hno.
  destruct Hno as [Hm [Hs [Hf [Ht [Ha _]]]]].
  unfold VideoSearch.search_video_content. rewrite Hex.
  cbn [negb VideoSearch.run_steps].
  unfold VideoSearch.metadata_step, VideoSearch.scenes_step,
    VideoSearch.frames_step, VideoSearch.transcription_step,
    VideoSearch.in_list.
  cbn [existsb]. rewrite Hm, Hs, Hf, Ht, Ha. reflexivity.
Qed.

Lemma unknown_search_type_reports_success_witness :
  exists w,
    VideoSearch.search_video_content w "clip.mp4" "scene" VideoSearch.no_kwargs
    = VideoSearch.returns
        {| VideoSearch.video_path := "clip.mp4";
           VideoSearch.analysis_type := "scene";
           VideoSearch.found := VideoSearch.no_results;
           VideoSearch.search_status := VideoSearch.success |}.
Proof.
  exists {| VideoSearch.ffmpeg_available := true;
            VideoSearch.video_exists := true;
            VideoSearch.get_video_metadata := Raise (ExternalError "ffprobe");
            VideoSearch.ffmpeg_log := fun _ => Raise (ExternalError "ffmpeg");
            VideoSearch.run_extraction :=
              fun _ _ => Raise (ExternalError "ffmpeg");
            VideoSearch.transcribe_audio :=
              fun _ => Raise (ExternalError "Whisper not installed") |}.
  apply unknown_search_type_reports_success; reflexivity.
Defined.

(** ** The chained [main] of scene_selection.py *)

Section MainFacts.

Variable stem : string -> string.

Lemma frames_search_result (w3 : VideoSearch.world)
    (video_file frames_output_dir : string) :
  VideoSearch.ffmpeg_available w3 = true ->
  VideoSearch.video_exists w3 = true ->
  VideoSearch.ffmpeg_video_search w3 video_file "frames"
    (SceneSelectionMain.frames_kwargs frames_output_dir)
  = VideoSearch.returns
      (match VideoSearch.run_extraction w3 1 frames_output_dir with
       | Ok _ =>
           {| VideoSearch.video_path := video_file;
              VideoSearch.analysis_type := "frames";
              VideoSearch.found :=
                {| VideoSearch.metadata := None;
                   VideoSearch.scene_changes := None;
                   VideoSearch.frames := Some frames_output_dir;
                   VideoSearch.transcription_result := None |};
              VideoSearch.search_status := VideoSearch.success |}
       | Raise e =>
           {| VideoSearch.video_path := video_file;
              VideoSearch.analysis_type := "frames";
              VideoSearch.found := VideoSearch.no_results;
              VideoSearch.search_status := VideoSearch.error e |}
       end).
Proof.
  intros Ha Hv.
  unfold VideoSearch.ffmpeg_video_search, VideoSearch.search_video_content.
  rewrite Ha, Hv. cbn.
  unfold VideoSearch.extract_frames_to.
  destruct (VideoSearch.run_extraction w3 1 frames_output_dir); reflexivity.
Qed.

Lemma frames_stage_no_KeyError (video_file frames_output_dir : string)
    (w3 : VideoSearch.world) (wo : SceneSelection.world) (key : string) :
  SceneSelectionMain.frames_stage video_file frames_output_dir w3 wo
  <> SceneSelectionMain.raises_KeyError key.
Proof.
  unfold SceneSelectionMain.frames_stage.
  destruct (VideoSearch.ffmpeg_available w3) eqn:Ha;
    [|unfold VideoSearch.ffmpeg_video_search; rewrite Ha; discriminate].
  destruct (VideoSearch.video_exists w3) eqn:Hv;
    [|unfold VideoSearch.ffmpeg_video_search,
        VideoSearch.search_video_content; rewrite Ha, Hv; discriminate].
  rewrite (frames_search_result w3 video_file frames_output_dir Ha Hv).
  destruct (VideoSearch.run_extraction w3 1 frames_output_dir);
    discriminate.
Qed.

Lemma scenes_stage_no_KeyError (video_file frames_output_dir : string)
    (w2 w3 : VideoSearch.world) (wo : SceneSelection.world) (key : string) :
  SceneSelectionMain.scenes_stage video_file frames_output_dir w2 w3 wo
  <> SceneSelectionMain.raises_KeyError key.
Proof.
  unfold SceneSelectionMain.scenes_stage, VideoSearch.ffmpeg_video_search,
    VideoSearch.search_video_content.
  destruct (VideoSearch.ffmpeg_available w2); [|discriminate].
  destruct (VideoSearch.video_exists w2); [|discriminate].
  cbn.
  destruct (VideoProcessor.detect_scene_changes
              (VideoSearch.ffmpeg_log w2 (2 # 10))); cbn;
    apply frames_stage_no_KeyError.
Qed.

Lemma scenes_stage_goes_on (video_file frames_output_dir : string)
    (w2 w3 : VideoSearch.world) (wo : SceneSelection.world) :
  VideoSearch.ffmpeg_available w2 = true ->
  VideoSearch.video_exists w2 = true ->
  SceneSelectionMain.scenes_stage video_file frames_output_dir w2 w3 wo
  = SceneSelectionMain.frames_stage video_file frames_output_dir w3 wo.
Proof.
  intros Ha Hv.
  unfold SceneSelectionMain.scenes_stage, VideoSearch.ffmpeg_video_search,
    VideoSearch.search_video_content.
  rewrite Ha, Hv. cbn.
  destruct (VideoProcessor.detect_scene_changes
              (VideoSearch.ffmpeg_log w2 (2 # 10))); reflexivity.
Qed.

Lemma main_goes_on (video_file : string)
    (w1 w2 w3 : VideoSearch.world) (wo : SceneSelection.world) :
  Py.is_empty video_file = false ->
  VideoSearch.ffmpeg_available w1 = true ->
  VideoSearch.video_exists w1 = true ->
  SceneSelectionMain.main stem video_file true w1 w2 w3 wo
  = SceneSelectionMain.scenes_stage video_file
      (stem video_file ++ "_extracted_frames")%string w2 w3 wo.
Proof.
  intros He Ha Hv.
  unfold SceneSelectionMain.main, VideoSearch.ffmpeg_video_search,
    VideoSearch.search_video_content.
  rewrite He, Ha, Hv. cbn.
  destruct (VideoSearch.get_video_metadata w1); reflexivity.
Qed.

End MainFacts.

(** X17. [main] does not report a missing video, it raises: with the video
    absent at the first search the run ends by [FileNotFoundError] for the
    path typed, before any frame is extracted or organised.  No run of
    [main] ends by a [KeyError]: a result is read from a search only where
    that search stored it. *)
Theorem main_raises_on_missing_video (stem : string -> string)
    (video_file : string) (importable : bool)
    (w1 w2 w3 : VideoSearch.world) (wo : SceneSelection.world) :
  (Py.is_empty video_file = false ->
   importable = true ->
   VideoSearch.ffmpeg_available w1 = true ->
   VideoSearch.video_exists w1 = false ->
   SceneSelectionMain.main stem video_file importable w1 w2 w3 wo
   = SceneSelectionMain.raises_FileNotFoundError video_file)
  /\ (forall key,
        SceneSelectionMain.main stem video_file importable w1 w2 w3 wo
        <> SceneSelectionMain.raises_KeyError key).
Proof.
  split.
  - intros He -> Ha Hv.
    unfold SceneSelectionMain.main, VideoSearch.ffmpeg_video_search,
      VideoSearch.search_video_content.
    now rewrite He, Ha, Hv.
  - intros key.
    destruct (Py.is_empty video_file) eqn:He;
      [unfold SceneSelectionMain.main; rewrite He; discriminate|].
    destruct importable;
      [|unfold SceneSelectionMain.main; rewrite He; discriminate].
    destruct (VideoSearch.ffmpeg_available w1) eqn:Ha;
      [|unfold SceneSelectionMain.main, VideoSearch.ffmpeg_video_search;
        rewrite He, Ha; discriminate].
    destruct (VideoSearch.video_exists w1) eqn:Hv;
      [|unfold SceneSelectionMain.main, VideoSearch.ffmpeg_video_search,
          VideoSearch.search_video_content;
        rewrite He, Ha, Hv; discriminate].
    rewrite (main_goes_on stem video_file w1 w2 w3 wo He Ha Hv).
    apply scenes_stage_no_KeyError.
Qed.

(** X18. A failure reported by the metadata search or by the scene search
    does not stop [main]: with ffmpeg and the video there at the three
    searches, the run ends as the extraction decides.  When the extraction
    at 1 frame per second into [<stem>_extracted_frames] goes through, the
    frames of that same directory are organised at the rate 1; when it
    raises, [main] stops with that failure and organises nothing. *)
Theorem main_ends_as_the_extraction_decides (stem : string -> string)
    (video_file : string)
    (w1 w2 w3 : VideoSearch.world) (wo : SceneSelection.world) :
  Py.is_empty video_file = false ->
  VideoSearch.ffmpeg_available w1 = true ->
  VideoSearch.video_exists w1 = true ->
  VideoSearch.ffmpeg_available w2 = true ->
  VideoSearch.video_exists w2 = true ->
  VideoSearch.ffmpeg_available w3 = true ->
  VideoSearch.video_exists w3 = true ->
  SceneSelectionMain.main stem video_file true w1 w2 w3 wo
  = match VideoSearch.run_extraction w3 1
            (stem video_file ++ "_extracted_frames")%string with
    | Ok _ =>
        SceneSelectionMain.organized
          (stem video_file ++ "_extracted_frames")%string
          (SceneSelection.organize_existing_frames_table wo
             (stem video_file ++ "_extracted_frames")%string 1)
    | Raise e => SceneSelectionMain.exit_frame_extraction_failed e
    end.
Proof.
  intros He Ha1 Hv1 Ha2 Hv2 Ha3 Hv3.
  rewrite (main_goes_on stem video_file w1 w2 w3 wo He Ha1 Hv1).
  rewrite (scenes_stage_goes_on _ _ w2 w3 wo Ha2 Hv2).
  unfold SceneSelectionMain.frames_stage.
  rewrite (frames_search_result w3 _ _ Ha3 Hv3).
  destruct (VideoSearch.run_extraction w3 1
              (stem video_file ++ "_extracted_frames")%string); reflexivity.
Qed.

Lemma main_raises_on_missing_video_witness :
  SceneSelectionMain.main stem_mp4 "clip.mp4" true search_world_no_video
    search_world_ok search_world_ok world_one_frame
  = SceneSelectionMain.raises_FileNotFoundError "clip.mp4".
Proof.
  apply (proj1 (main_raises_on_missing_video stem_mp4 "clip.mp4" true
                  search_world_no_video search_world_ok search_world_ok
                  world_one_frame)); reflexivity.
Defined.

Lemma main_ends_as_the_extraction_decides_witness :
  SceneSelectionMain.main stem_mp4 "clip.mp4" true search_world_ok
    search_world_ok search_world_ok world_one_frame
  = SceneSelectionMain.organized "clip_extracted_frames"
      (SceneSelection.organize_existing_frames_table world_one_frame
         "clip_extracted_frames" 1).
Proof.
  apply (main_ends_as_the_extraction_decides stem_mp4 "clip.mp4"
           search_world_ok search_world_ok search_world_ok world_one_frame);
    reflexivity.
Defined.

Section MainTable.

Variable stem : string -> string.

Lemma frames_stage_organized (video_file frames_output_dir : string)
    (w3 : VideoSearch.world) (wo : SceneSelection.world) (d : string)
    (rep : SceneSelection.report) :
  SceneSelectionMain.frames_stage video_file frames_output_dir w3 wo
  = SceneSelectionMain.organized d rep ->
  rep = SceneSelection.organize_existing_frames_table wo frames_output_dir 1.
Proof.
  unfold SceneSelectionMain.frames_stage.
  destruct (VideoSearch.ffmpeg_video_search w3 video_file "frames" _)
    as [| |results]; try discriminate.
  destruct (VideoSearch.search_status results); [|discriminate].
  destruct (VideoSearch.frames (VideoSearch.found results)); [|discriminate].
  intros H. now injection H as _ <-.
Qed.

Lemma scenes_stage_organized (video_file frames_output_dir : string)
    (w2 w3 : VideoSearch.world) (wo : SceneSelection.world) (d : string)
    (rep : SceneSelection.report) :
  SceneSelectionMain.scenes_stage video_file frames_output_dir w2 w3 wo
  = SceneSelectionMain.organized d rep ->
  rep = SceneSelection.organize_existing_frames_table wo frames_output_dir 1.
Proof.
  unfold SceneSelectionMain.scenes_stage.
  destruct (VideoSearch.ffmpeg_video_search w2 video_file "scenes" _)
    as [| |results]; try discriminate.
  destruct (VideoSearch.search_status results);
    [destruct (VideoSearch.scene_changes (VideoSearch.found results));
     [|discriminate]|];
    apply frames_stage_organized.
Qed.

Lemma main_organized (video_file : string) (importable : bool)
    (w1 w2 w3 : VideoSearch.world) (wo : SceneSelection.world) (d : string)
    (rep : SceneSelection.report) :
  SceneSelectionMain.main stem video_file importable w1 w2 w3 wo
  = SceneSelectionMain.organized d rep ->
  rep = SceneSelection.organize_existing_frames_table wo
          (stem video_file ++ "_extracted_frames")%string 1.
Proof.
  unfold SceneSelectionMain.main.
  destruct (Py.is_empty video_file); [discriminate|].
  destruct importable; [|discriminate]. cbn [negb].
  destruct (VideoSearch.ffmpeg_video_search w1 video_file "metadata" _)
    as [| |results]; try discriminate.
  destruct (VideoSearch.search_status results);
    [destruct (VideoSearch.metadata (VideoSearch.found results));
     [|discriminate]|];
    apply scenes_stage_organized.
Qed.

End MainTable.

(** The label of a whole number of seconds. *)
Lemma format_timestamp_whole (z : Z) :
  (0 <= z <= 2 ^ 53)%Z ->
  SceneSelection.format_timestamp (inject_Z z)
  = Ok (Py.format_0d 2 (z / 3600) ++ ":"
        ++ Py.format_0d 2 (z mod 3600 / 60) ++ ":"
        ++ Py.format_0d 2 (z mod 60) ++ ".000")%string.
Proof.
  intros [Hlo Hhi].
  assert (Qlo : (0 <= inject_Z z)%Q)
    by (change 0%Q with (inject_Z 0); now rewrite <- Zle_Qle).
  assert (Qhi : (inject_Z z <= 2 ^ 53)%Q)
    by (change (2 ^ 53)%Q with (inject_Z (2 ^ 53)); now rewrite <- Zle_Qle).
  pose proof (timestamp_fields_facts (inject_Z z) Qlo Qhi) as H.
  pose proof (format_timestamp_of_fields (inject_Z z)
                (finite_in_range _ Qlo Qhi)) as L.
  destruct (timestamp_fields (inject_Z z)) as [[[h m] sec] ms].
  destruct H as [Hh [Hm [Hsec [Hfl [_ [_ [_ Hms]]]]]]].
  rewrite Qfloor_Z in Hfl.
  assert (E0 : Py.rnd (frac (inject_Z z) * 1000) = 0%Q).
  { rewrite (rnd_Qeq _ (inject_Z 0)); [now rewrite rnd_whole|].
    unfold frac. rewrite Qfloor_Z. ring. }
  rewrite E0 in Hms. change (Py.int_of_float 0) with 0%Z in Hms.
  rewrite L. subst ms.
  assert (Eh : h = (z / 3600)%Z) by (Z.div_mod_to_equations; lia).
  assert (Em : m = (z mod 3600 / 60)%Z) by (Z.div_mod_to_equations; lia).
  assert (Es : sec = (z mod 60)%Z) by (Z.div_mod_to_equations; lia).
  now rewrite Eh, Em, Es.
Qed.

Lemma timestamp_of_whole (i : nat) :
  (Z.of_nat i <= 2 ^ 53)%Z -> timestamp_of i 1 = inject_Z (Z.of_nat i).
Proof.
  intros H. unfold timestamp_of.
  rewrite (rnd_Qeq _ (inject_Z (Z.of_nat i))) by field.
  apply rnd_whole. lia.
Qed.

Lemma round2_whole (z : Z) :
  (Z.abs z <= 2 ^ 53)%Z -> Py.round2 (inject_Z z) = inject_Z z.
Proof.
  intros H. unfold Py.round2.
  assert (E : Py.round_half_even (inject_Z z * 100) = (z * 100)%Z).
  { apply round_half_even_whole. now rewrite inject_Z_mult. }
  rewrite E. rewrite (rnd_Qeq _ (inject_Z z)).
  - now apply rnd_whole.
  - unfold Qeq, inject_Z. cbn [Qnum Qden]. lia.
Qed.

(** X19. In the table a run of [main] reports, frames are one second apart:
    the row at index [i] (from 0, up to [2 ^ 53]) carries frame number
    [i + 1], a time equal to [i] seconds, the label [HH:MM:SS.000] of [i]
    seconds, and the scene number and score found on comparing [i] itself
    with the timestamps of the scene events, so that the rounding of the
    time changes nothing in that table. *)
Theorem main_table_in_whole_seconds (stem : string -> string)
    (video_file : string) (importable : bool)
    (w1 w2 w3 : VideoSearch.world) (wo : SceneSelection.world)
    (frames_dir : string) (n : nat) (s : Z)
    (df : list SceneSelection.table_row) (d : string) :
  SceneSelectionMain.main stem video_file importable w1 w2 w3 wo
  = SceneSelectionMain.organized frames_dir
      (SceneSelection.status_success n s df d) ->
  exists scene_changes,
    SceneSelection.detect_scene_changes (SceneSelection.ffmpeg_log wo)
    = Ok scene_changes
    /\ forall (i : nat) (row : SceneSelection.table_row),
         nth_error df i = Some row ->
         (Z.of_nat i <= 2 ^ 53)%Z ->
         SceneSelection.Frame_Number (SceneSelection.frame row)
         = (Z.of_nat i + 1)%Z
         /\ SceneSelection.Time_seconds (SceneSelection.frame row)
            = inject_Z (Z.of_nat i)
         /\ SceneSelection.Timestamp (SceneSelection.frame row)
            = (Py.format_0d 2 (Z.of_nat i / 3600) ++ ":"
               ++ Py.format_0d 2 (Z.of_nat i mod 3600 / 60) ++ ":"
               ++ Py.format_0d 2 (Z.of_nat i mod 60) ++ ".000")%string
         /\ (SceneSelection.Scene_Number row, SceneSelection.Scene_Score row)
            = SceneSelection.scan_scenes (inject_Z (Z.of_nat i))
                scene_changes 1 0.
Proof.
  intros H. apply main_organized in H. symmetry in H.
  assert (Hb : SceneSelection.build_table wo
                 (stem video_file ++ "_extracted_frames")%string 1
               = Ok (SceneSelection.status_success n s df d))
    by (apply (success_is_built wo EmptyString); now left).
  destruct (built_row wo _ 1 n s df d Hb) as [scene_changes [Hd Hrows]].
  exists scene_changes. split; [exact Hd|].
  intros i row Hi Hmax. destruct (Hrows i row Hi) as [f [fr [_ [Hrow ->]]]].
  rewrite (timestamp_of_whole i Hmax) in Hrow.
  destruct (make_row_fields _ _ _ _ _ Hrow) as [Hl [Hr [Hn _]]].
  rewrite round2_whole in Hr by lia.
  rewrite format_timestamp_whole in Hl by lia.
  rewrite annotate_frame, annotate_scan, Hr.
  split; [exact Hn|]. split; [reflexivity|]. split; [|reflexivity].
  now injection Hl.
Qed.

Lemma main_table_in_whole_seconds_witness :
  exists row0 row1 row2 row3 event,
    SceneSelectionMain.main stem_mp4 "clip.mp4" true
      search_world_ok search_world_ok search_world_ok
      world_event_between_frames
    = SceneSelectionMain.organized "clip_extracted_frames"
        (SceneSelection.status_success 4 2 [row0; row1; row2; row3]
           "clip_extracted_frames")
    /\ SceneSelection.detect_scene_changes
         (SceneSelection.ffmpeg_log world_event_between_frames)
       = Ok [event]
    /\ SceneSelection.Frame_Number (SceneSelection.frame row2) = 3%Z
    /\ SceneSelection.Time_seconds (SceneSelection.frame row2) = 2%Q
    /\ SceneSelection.Timestamp (SceneSelection.frame row2) = "00:00:02.000"
    /\ (SceneSelection.Scene_Number row2, SceneSelection.Scene_Score row2)
       = SceneSelection.scan_scenes 2 [event] 1 0
    /\ SceneSelection.Scene_Number row2 = 2%Z.
Proof.
  destruct (SceneSelection.organize_existing_frames_table
              world_event_between_frames "clip_extracted_frames" 1)
    as [err|n s df d] eqn:Ho; [vm_compute in Ho; discriminate|].
  assert (H : SceneSelectionMain.main stem_mp4 "clip.mp4" true
                search_world_ok search_world_ok search_world_ok
                world_event_between_frames
              = SceneSelectionMain.organized "clip_extracted_frames"
                  (SceneSelection.status_success n s df d))
    by (rewrite <- Ho; reflexivity).
  destruct (main_table_in_whole_seconds stem_mp4 "clip.mp4" true
              search_world_ok search_world_ok search_world_ok
              world_event_between_frames _ n s df d H)
    as [scene_changes [Hd Hrows]].
  vm_compute in Ho. injection Ho as <- <- <- <-.
  assert (Hd' := Hd). vm_compute in Hd'. injection Hd' as <-.
  destruct (Hrows 2%nat _ eq_refl) as [Hn [Ht [Hl Hsc]]];
    [vm_compute; discriminate|].
  eexists. eexists. eexists. eexists. eexists.
  split; [exact H|]. split; [exact Hd|].
  split; [exact Hn|]. split; [exact Ht|]. split; [exact Hl|].
  split; [exact Hsc|reflexivity].
Defined.

(** ** The encoding of an image *)

Example b64encode_three_bytes :
  Base64.b64encode (list_ascii_of_string "Man") = "TWFu"
  /\ Base64.b64encode (list_ascii_of_string "Ma") = "TWE="
  /\ Base64.b64encode (list_ascii_of_string "M") = "TQ=="
  /\ Base64.b64encode (list_ascii_of_string "light work.")
     = "bGlnaHQgd29yay4=".
Proof. repeat split. Qed.

Lemma triples_ind {A : Type} (P : list A -> Prop) :
  P [] -> (forall a, P [a]) -> (forall a b, P [a; b]) ->
  (forall a b c rest, P rest -> P (a :: b :: c :: rest)) ->
  forall l, P l.
Proof.
  intros H0 H1 H2 H3.
  assert (H : forall l, P l /\ (forall a, P (a :: l))
                        /\ (forall a b, P (a :: b :: l))).
  { induction l as [|x l [IH [IH1 IH2]]]; repeat split; auto. }
  intros l. apply H.
Qed.

Lemma b64encode_length (data : list ascii) :
  String.length (Base64.b64encode data)
  = (4 * ((List.length data + 2) / 3))%nat.
Proof.
  induction data as [| a | a b | a b c rest IH] using triples_ind;
    try reflexivity.
  cbn [Base64.b64encode String.length List.length]. rewrite IH.
  replace (S (S (S (List.length rest))) + 2)%nat
    with ((List.length rest + 2) + 1 * 3)%nat by lia.
  rewrite Nat.div_add by lia. lia.
Qed.

Lemma b64encode_empty (data : list ascii) :
  Py.is_empty (Base64.b64encode data) = true <-> data = [].
Proof.
  destruct data as [|a [|b [|c rest]]]; cbn; split; intros H;
    try reflexivity; discriminate.
Qed.

(** X20. With [encode_image_to_base64] as it is written, and every image
    file readable, the request [analyze_all_frames_together] sends holds
    after the instruction text, frame by frame in the order of
    [frames_data], the image (the base64 text of the bytes of the file
    behind [data:image/jpeg;base64,]) and the [[Frame at ...]] label of each
    frame whose file holds at least one byte, and nothing for a frame whose
    file is empty: such a frame is left out, label included, and the
    request goes on. *)
Theorem empty_image_is_left_out
    (read_file : string -> result (list ascii))
    (create : list ScriptGenerator.part -> result string)
    (frames_data : list ScriptGenerator.frame_info)
    (movie_style target_audience : string) :
  (forall info,
     In info frames_data ->
     exists data, read_file (ScriptGenerator.image_path info) = Ok data) ->
  ScriptGenerator.image_parts (Base64.encode_image_to_base64 read_file)
    frames_data
  = Ok (flat_map
          (fun info =>
             match read_file (ScriptGenerator.image_path info) with
             | Ok (byte :: bytes) =>
                 [ScriptGenerator.image_url_part
                    ("data:image/jpeg;base64,"
                     ++ Base64.b64encode (byte :: bytes))%string;
                  ScriptGenerator.text_part
                    ("
[Frame at " ++ ScriptGenerator.timestamp info ++ "]")%string]
             | _ => []
             end) frames_data)
  /\ ScriptGenerator.analyze_all_frames_together
       (Base64.encode_image_to_base64 read_file) create frames_data
       movie_style target_audience
     = match create
               (ScriptGenerator.text_part
                  (ScriptGenerator.prompt_text movie_style target_audience
                     (ScriptGenerator.style_instructions_of movie_style)
                     (ScriptGenerator.audience_instructions_of
                        target_audience))
                :: flat_map
                     (fun info =>
                        match read_file (ScriptGenerator.image_path info) with
                        | Ok (byte :: bytes) =>
                            [ScriptGenerator.image_url_part
                               ("data:image/jpeg;base64,"
                                ++ Base64.b64encode (byte :: bytes))%string;
                             ScriptGenerator.text_part
                               ("
[Frame at " ++ ScriptGenerator.timestamp info ++ "]")%string]
                        | _ => []
                        end) frames_data)
       with
       | Ok text => text
       | Raise e => ("Error: " ++ ScriptGenerator.str_exn e)%string
       end.
Proof.
  intros Hread.
  assert (Hparts :
    ScriptGenerator.image_parts (Base64.encode_image_to_base64 read_file)
      frames_data
    = Ok (flat_map
            (fun info =>
               match read_file (ScriptGenerator.image_path info) with
               | Ok (byte :: bytes) =>
                   [ScriptGenerator.image_url_part
                      ("data:image/jpeg;base64,"
                       ++ Base64.b64encode (byte :: bytes))%string;
                    ScriptGenerator.text_part
                      ("
[Frame at " ++ ScriptGenerator.timestamp info ++ "]")%string]
               | _ => []
               end) frames_data)).
  { induction frames_data as [|info rest IH]; [reflexivity|].
    cbn [ScriptGenerator.image_parts flat_map].
    destruct (Hread info (or_introl eq_refl)) as [data Hdata].
    unfold Base64.encode_image_to_base64 at 1. rewrite Hdata.
    cbn [bind]. rewrite IH by (intros i Hi; apply Hread; now right).
    destruct data as [|byte bytes]; [reflexivity|].
    destruct (Py.is_empty (Base64.b64encode (byte :: bytes))) eqn:E.
    - apply b64encode_empty in E. discriminate.
    - reflexivity. }
  split; [exact Hparts|].
  unfold ScriptGenerator.analyze_all_frames_together.
  rewrite Hparts. reflexivity.
Qed.

Lemma empty_image_is_left_out_witness :
  ScriptGenerator.image_parts
    (Base64.encode_image_to_base64 read_three_files) three_frames
  = Ok [ScriptGenerator.image_url_part "data:image/jpeg;base64,TWFu";
        ScriptGenerator.text_part "
[Frame at 00:00:00.000]";
        ScriptGenerator.image_url_part "data:image/jpeg;base64,TWE=";
        ScriptGenerator.text_part "
[Frame at 00:00:02.000]"].
Proof.
  refine (proj1 (empty_image_is_left_out read_three_files
                   (fun parts => Ok "00:00:00: ...") three_frames
                   "neutral" "general" _)).
  intros info [<-|[<-|[<-|[]]]]; eexists; reflexivity.
Defined.

(** ** The order of the frame files *)

#[local] Set Warnings "-abstract-large-number".

Section SortedNames.

Lemma ascii_compare_refl (a : ascii) : Ascii.compare a a = Eq.
Proof. unfold Ascii.compare. apply N.compare_refl. Qed.

Lemma string_leb_trans (a b c : string) :
  String.leb a b = true -> String.leb b c = true -> String.leb a c = true.
Proof.
  unfold String.leb. revert b c.
  induction a as [|x a IH]; intros [|y b] [|z c]; simpl; try congruence.
  destruct (Ascii.compare x y) eqn:Exy; try congruence;
    destruct (Ascii.compare y z) eqn:Eyz; try congruence.
  - apply Ascii.compare_eq_iff in Exy, Eyz. subst.
    rewrite ascii_compare_refl. apply IH.
  - apply Ascii.compare_eq_iff in Exy. subst. now rewrite Eyz.
  - apply Ascii.compare_eq_iff in Eyz. subst. now rewrite Exy.
  - intros _ _. unfold Ascii.compare in *.
    rewrite N.compare_lt_iff in Exy, Eyz.
    assert (H : (N_of_ascii x ?= N_of_ascii z)%N = Lt)
      by (apply N.compare_lt_iff; lia).
    now rewrite H.
Qed.

Lemma sorted_permutation_unique (l l' : list string) :
  StronglySorted (fun a b => String.leb a b = true) l ->
  StronglySorted (fun a b => String.leb a b = true) l' ->
  Permutation l l' -> l = l'.
Proof.
  intros Hl. revert l'.
  induction Hl as [|x l Hl IH Hx]; intros l' Hl' Hperm.
  - apply Permutation_nil in Hperm. now subst.
  - destruct Hl' as [|y l' Hl' Hy].
    + apply Permutation_sym, Permutation_nil in Hperm. discriminate.
    + assert (Exy : x = y).
      { assert (Hxin : In x (y :: l'))
          by (eapply Permutation_in; [exact Hperm|now left]).
        assert (Hyin : In y (x :: l))
          by (eapply Permutation_in;
              [apply Permutation_sym; exact Hperm|now left]).
        destruct Hxin as [E|Hxin]; [now subst|].
        destruct Hyin as [E|Hyin]; [now subst|].
        rewrite Forall_forall in Hx, Hy.
        apply String.leb_antisym; auto. }
      subst y. f_equal. apply IH; [exact Hl'|].
      now apply Permutation_cons_inv in Hperm.
Qed.

Lemma ascending_sorted (l : list string) :
  ascending l = true -> Sorted (fun a b => String.leb a b = true) l.
Proof.
  induction l as [|a l IH]; intros H; [constructor|].
  destruct l as [|b l]; [repeat constructor|].
  cbn [ascending] in H. apply andb_prop in H as [Hab Hrest].
  constructor; [apply IH; exact Hrest|now constructor].
Qed.

Lemma sorted_prefix {A : Type} (R : A -> A -> Prop) (l1 l2 : list A) :
  Sorted R (l1 ++ l2) -> Sorted R l1.
Proof.
  induction l1 as [|a l1 IH]; intros H; [constructor|].
  inversion H as [|? ? Hs Hhd]; subst.
  constructor; [apply IH; exact Hs|].
  destruct l1 as [|b l1]; [constructor|].
  inversion Hhd; subst. now constructor.
Qed.

Lemma frame_name_is_jpg (k : nat) : is_jpg (frame_name k) = true.
Proof.
  unfold is_jpg, frame_name.
  rewrite <- string_append_assoc. apply endswith_append.
Qed.

Lemma filter_all {A : Type} (p : A -> bool) (l : list A) :
  (forall x, In x l -> p x = true) -> filter p l = l.
Proof.
  induction l as [|x l IH]; intros H; [reflexivity|].
  simpl. rewrite (H x (or_introl eq_refl)). f_equal.
  apply IH. intros y Hy. apply H. now right.
Qed.

Lemma names_sorted (N : nat) :
  (N <= 9999)%nat ->
  StronglySorted (fun a b => String.leb a b = true)
    (map frame_name (seq 1 N)).
Proof.
  intros HN. apply Sorted_StronglySorted.
  - intros a b c. apply string_leb_trans.
  - apply (sorted_prefix _ _ (map frame_name (seq (1 + N) (9999 - N)))).
    rewrite <- map_app, <- seq_app.
    replace (N + (9999 - N))%nat with 9999%nat by lia.
    apply ascending_sorted. vm_compute. reflexivity.
Qed.

End SortedNames.

(** X21. With up to 9999 frames named by ffmpeg from the pattern
    [frame_%04d.jpg], the order of [sorted] is the order of the frame
    numbers: whatever the order of the listing and whatever other files it
    holds, the frame files of the run are [frame_0001.jpg],
    [frame_0002.jpg], ... in that order, so that the row of frame number
    [k] is the row of [frame_<k>.jpg].  With a frame 10000 the order of the
    names is no longer that of the numbers. *)
Theorem frame_files_in_numeric_order (N : nat) (listing : list string) :
  (N <= 9999)%nat ->
  Permutation (filter is_jpg listing) (map frame_name (seq 1 N)) ->
  SceneSelection.frame_files_of listing = map frame_name (seq 1 N)
  /\ forall k,
       (1 <= k <= N)%nat ->
       nth_error (SceneSelection.frame_files_of listing) (k - 1)
       = Some (frame_name k).
Proof.
  intros HN Hperm.
  assert (E : SceneSelection.frame_files_of listing
              = map frame_name (seq 1 N)).
  { apply sorted_permutation_unique.
    - apply StringSort.StronglySorted_sort.
      intros a b c. unfold is_true. apply string_leb_trans.
    - now apply names_sorted.
    - eapply Permutation_trans; [|exact Hperm].
      apply Permutation_sym. apply StringSort.Permuted_sort. }
  split; [exact E|].
  intros k Hk. rewrite E, nth_error_map.
  assert (Hn : nth_error (seq 1 N) (k - 1) = Some k).
  { rewrite nth_error_nth' with (d := 0%nat) by (rewrite length_seq; lia).
    rewrite seq_nth by lia. f_equal. lia. }
  now rewrite Hn.
Qed.

Lemma frame_files_in_numeric_order_witness :
  SceneSelection.frame_files_of
    ["frame_0003.jpg"; "notes.txt"; "frame_0001.jpg"; "frame_0002.jpg"]
  = map frame_name (seq 1 3).
Proof.
  apply (proj1 (frame_files_in_numeric_order 3
                  ["frame_0003.jpg"; "notes.txt"; "frame_0001.jpg";
                   "frame_0002.jpg"]
                  ltac:(apply Nat.leb_le; vm_compute; reflexivity) ltac:(
                  vm_compute;
                  apply (perm_trans (l' := ["frame_0001.jpg";
                                            "frame_0003.jpg";
                                            "frame_0002.jpg"]));
                  [apply perm_swap|apply perm_skip; apply perm_swap]))).
Defined.

(** Past 9999 frames the names no longer sort by number. *)
Example frame_10000_sorts_first :
  SceneSelection.frame_files_of [frame_name 9999; frame_name 10000]
  = [frame_name 10000; frame_name 9999].
Proof. vm_compute. reflexivity. Qed.

(** ** Pairs are taken by position *)

Lemma processor_pair_without_pts (frame_line score_line : string) :
  has_pts_time frame_line = false ->
  VideoProcessor.scan_pair frame_line score_line = [].
Proof.
  unfold VideoProcessor.scan_pair, has_pts_time.
  destruct (Py.re_search "pts_time:" Py.match_decimal frame_line);
    [discriminate|reflexivity].
Qed.

Lemma shifted_records_give_nothing {A : Type}
    (scan : string -> string -> list A) :
  (forall frame_line score_line,
     has_pts_time frame_line = false -> scan frame_line score_line = []) ->
  forall (records : list (string * string)) (stray : string),
    has_pts_time stray = false ->
    Forall (fun r => has_pts_time (snd r) = false) records ->
    scan_pairs scan (stray :: flat_map (fun r => [fst r; snd r]) records)
    = [].
Proof.
  intros Hscan records.
  induction records as [|[f s] rest IH]; intros stray Hstray Hall.
  - reflexivity.
  - inversion Hall as [|? ? Hs Hrest]; subst. cbn [flat_map fst snd app].
    cbn [scan_pairs]. rewrite (Hscan stray f Hstray). cbn [app].
    apply IH; assumption.
Qed.

(** X22. The parsers pair the lines by position, not by content: when one
    line without a [pts_time] field stands before a run of two-line records
    (whose score lines hold no [pts_time] field, as in the output of
    ffmpeg), every pair starts on a line without [pts_time] and neither
    parser reads an event, however many records follow. *)
Theorem stray_line_loses_every_record (content stray : string)
    (records : list (string * string)) :
  log_lines content = stray :: flat_map (fun r => [fst r; snd r]) records ->
  has_pts_time stray = false ->
  Forall (fun r => has_pts_time (snd r) = false) records ->
  SceneSelection.parse_scene_log content = []
  /\ VideoProcessor.parse_scene_log content = [].
Proof.
  intros Hlines Hstray Hall.
  unfold SceneSelection.parse_scene_log, VideoProcessor.parse_scene_log.
  fold (log_lines content). rewrite !pair_loop_scan_pairs, Hlines. split.
  - apply shifted_records_give_nothing;
      [exact selection_pair_without_pts|exact Hstray|exact Hall].
  - apply shifted_records_give_nothing;
      [exact processor_pair_without_pts|exact Hstray|exact Hall].
Qed.

Lemma stray_line_loses_every_record_witness :
  SceneSelection.parse_scene_log
    "ffmpeg version 6.0
frame:1 pts:500 pts_time:0.5
lavfi.scene_score=0.31
frame:3 pts:1500 pts_time:1.5
lavfi.scene_score=0.42"
  = [].
Proof.
  apply (proj1 (stray_line_loses_every_record
                  "ffmpeg version 6.0
frame:1 pts:500 pts_time:0.5
lavfi.scene_score=0.31
frame:3 pts:1500 pts_time:1.5
lavfi.scene_score=0.42"
                  "ffmpeg version 6.0"
                  [("frame:1 pts:500 pts_time:0.5", "lavfi.scene_score=0.31");
                   ("frame:3 pts:1500 pts_time:1.5", "lavfi.scene_score=0.42")]
                  eq_refl eq_refl
                  ltac:(repeat constructor))).
Defined.

(** ** The convenience function *)

(** At 2 frames per second the timestamps are exact. *)
Lemma timestamp_of_halves (i : nat) :
  (Z.of_nat i < 2 ^ 53)%Z ->
  (timestamp_of i 2 == inject_Z (Z.of_nat i) / 2)%Q.
Proof.
  intros H. unfold timestamp_of.
  set (a := (inject_Z (Z.of_nat i) / 2)%Q).
  destruct (Nat.eq_dec i 0) as [->|Hi].
  - unfold a. rewrite (rnd_Qeq _ (inject_Z 0)) by reflexivity.
    now rewrite rnd_whole.
  - assert (Hi1 : (1 <= inject_Z (Z.of_nat i))%Q).
    { change 1%Q with (inject_Z 1). rewrite <- Zle_Qle. lia. }
    assert (Hi2 : (inject_Z (Z.of_nat i) < 9007199254740992)%Q).
    { change 9007199254740992%Q with (inject_Z (2 ^ 53)).
      now rewrite <- Zlt_Qlt. }
    assert (Ea : (a == inject_Z (Z.of_nat i) * (1 # 2))%Q)
      by (unfold a; field).
    assert (Ha : (0 < a)%Q) by lra.
    assert (Hinf : (a < Py.infinity)%Q).
    { apply Qlt_trans with 9007199254740992%Q; [lra|reflexivity]. }
    rewrite (rnd_of_nonneg a (Qlt_le_weak _ _ Ha)).
    apply (rnd_pos_grid a (Z.of_nat i) (-1) Ha Hinf).
    + exact Ea.
    + assert (L : (Py.ilog2 a < 52)%Z).
      { apply ilog2_below; [exact Ha|].
        change (2 ^ 52)%Q with 4503599627370496%Q. lra. }
      unfold Py.binade. lia.
Qed.

(** X23. [organize_video_frames] called without [fps] organises the frames
    at 2 frames per second: in the table it reports, the row at index [i]
    (below [2 ^ 45]) carries a time equal to [i / 2] seconds and the scene
    number and score found on comparing [i / 2] itself with the timestamps
    of the scene events; called with a rate, it is [organize_frames_table]
    at that rate. *)
Theorem organize_video_frames_default_rate (w : SceneSelection.world)
    (video_path output_dir : string) (n : nat) (s : Z)
    (df : list SceneSelection.table_row) (d : string) :
  (forall rate,
     SceneSelectionMain.organize_video_frames w video_path output_dir
       (Some rate)
     = SceneSelection.organize_frames_table w video_path output_dir rate)
  /\ (SceneSelectionMain.organize_video_frames w video_path output_dir None
      = SceneSelection.status_success n s df d ->
      exists scene_changes,
        SceneSelection.detect_scene_changes (SceneSelection.ffmpeg_log w)
        = Ok scene_changes
        /\ forall (i : nat) (row : SceneSelection.table_row),
             nth_error df i = Some row ->
             (Z.of_nat i < 2 ^ 45)%Z ->
             (SceneSelection.Time_seconds (SceneSelection.frame row)
              == inject_Z (Z.of_nat i) / 2)%Q
             /\ (SceneSelection.Scene_Number row,
                 SceneSelection.Scene_Score row)
                = SceneSelection.scan_scenes (inject_Z (Z.of_nat i) / 2)
                    scene_changes 1 0).
Proof.
  split; [reflexivity|].
  unfold SceneSelectionMain.organize_video_frames. cbn [VideoSearch.get].
  intros H.
  assert (Hb : SceneSelection.build_table w output_dir 2
               = Ok (SceneSelection.status_success n s df d))
    by (apply (success_is_built w video_path); now right).
  destruct (built_row w output_dir 2 n s df d Hb)
    as [scene_changes [Hd Hrows]].
  exists scene_changes. split; [exact Hd|].
  intros i row Hi Hmax. destruct (Hrows i row Hi) as [f [fr [_ [Hrow ->]]]].
  destruct (make_row_fields _ _ _ _ _ Hrow) as [_ [Hr _]].
  assert (E : Py.round2 (timestamp_of i 2) = timestamp_of i 2).
  { pose proof (timestamp_of_hundredths 2 50 i eq_refl) as T.
    change (inject_Z 2) with 2%Q in T. rewrite T.
    apply round2_of_hundredths. lia. }
  assert (E2 : (timestamp_of i 2 == inject_Z (Z.of_nat i) / 2)%Q)
    by (apply timestamp_of_halves; lia).
  rewrite annotate_frame, annotate_scan, Hr, E.
  split; [exact E2|]. now apply scan_scenes_Qeq.
Qed.

Lemma organize_video_frames_default_rate_witness :
  exists row0 row1 row2 row3 event,
    SceneSelectionMain.organize_video_frames world_event_between_frames
      "clip.mp4" "organized_frames_clip" None
    = SceneSelection.status_success 4 2 [row0; row1; row2; row3]
        "organized_frames_clip"
    /\ SceneSelection.detect_scene_changes
         (SceneSelection.ffmpeg_log world_event_between_frames)
       = Ok [event]
    /\ SceneSelection.timestamp event = 1 # 2
    /\ (SceneSelection.Time_seconds (SceneSelection.frame row1)
        == inject_Z 1 / 2)%Q
    /\ (SceneSelection.Scene_Number row1, SceneSelection.Scene_Score row1)
       = SceneSelection.scan_scenes (inject_Z 1 / 2) [event] 1 0
    /\ SceneSelection.Scene_Number row1 = 2%Z.
Proof.
  destruct (SceneSelectionMain.organize_video_frames
              world_event_between_frames "clip.mp4" "organized_frames_clip"
              None) as [err|n s df d] eqn:H; [vm_compute in H; discriminate|].
  destruct (proj2 (organize_video_frames_default_rate
                     world_event_between_frames "clip.mp4"
                     "organized_frames_clip" n s df d) H)
    as [scene_changes [Hd Hrows]].
  vm_compute in H. injection H as <- <- <- <-.
  assert (Hd' := Hd). vm_compute in Hd'. injection Hd' as <-.
  destruct (Hrows 1%nat _ eq_refl) as [Ht Hsc]; [reflexivity|].
  eexists. eexists. eexists. eexists. eexists.
  split; [reflexivity|]. split; [exact Hd|].
  split; [reflexivity|]. split; [exact Ht|].
  split; [exact Hsc|reflexivity].
Defined.
